(** * Bolig dashboard: the data normalisation and aggregation pipeline

    A shallow embedding of [generate_dashboard.py]: the column resolver
    ([find_column]), the address classifier ([parse_city_from_handelsnavn],
    [geocode_address]), the room estimate ([estimate_rooms]) and the two
    pipelines ([process_leje_data], [process_ejer_data]).

    Conventions of the embedding.
    - A Python [str] is a Rocq [string] holding its UTF-8 encoding.
    - A spreadsheet number is an exact rational ([Qc]).  The division of a
      cell by a number and the median are taken exactly.  The mean of a
      column is not: its float additions round, so it depends on the order
      of the rows; it is a parameter of the library ([float_mean]), with an
      exact instance and a binary64 instance to run.
    - NaN, None and NaT are one missing value, [CNaN].
    - [print] calls and calls of the chart functions are recorded, in order,
      in the trace of the run; an exception ends the run.
    - Library operations whose tables or algorithms are not part of this
      program (Unicode lower-casing, [str()] of a number, [int()]/[float()]
      of a text, the float mean of a column, [DataFrame.merge],
      [pd.to_datetime(..).dt.strftime], the matplotlib chart functions) are
      parameters, bundled in [Lib]. *)

From Stdlib Require Import ZArith QArith Qcanon Qround String Ascii List Lia Lqa Bool.
From stdpp Require Import base option list strings gmap sorting pretty.

Local Open Scope string_scope.
Local Open Scope list_scope.
Local Open Scope Z_scope.

(** ** Python strings *)

Module PyStr.

Definition byte (c : ascii) : N := N_of_ascii c.

Definition between (lo hi x : N) : bool := ((lo <=? x) && (x <=? hi))%N.

(** Number of bytes of the white-space character [s] starts with, 0 when it
    starts with none.  White space is what [str.isspace] accepts: U+0009 to
    U+000D, U+001C to U+0020, U+0085, U+00A0, U+1680, U+2000 to U+200A,
    U+2028, U+2029, U+202F, U+205F and U+3000. *)
Definition ws_len (s : string) : nat :=
  match s with
  | EmptyString => 0%nat
  | String a r =>
      let x := byte a in
      if between 9 13 x || between 28 32 x then 1%nat
      else match r with
           | EmptyString => 0%nat
           | String b r' =>
               let y := byte b in
               if ((x =? 194) && ((y =? 133) || (y =? 160)))%N then 2%nat
               else match r' with
                    | EmptyString => 0%nat
                    | String c _ =>
                        let z := byte c in
                        if ((x =? 225) && (y =? 154) && (z =? 128))%N then 3%nat
                        else if ((x =? 226) && (y =? 128) &&
                                 (between 128 138 z || (z =? 168) || (z =? 169)
                                  || (z =? 175)))%N then 3%nat
                        else if ((x =? 226) && (y =? 129) && (z =? 159))%N then 3%nat
                        else if ((x =? 227) && (y =? 128) && (z =? 128))%N then 3%nat
                        else 0%nat
                    end
           end
  end.

(** [s.split(',')] *)
Fixpoint split_comma (s : string) : list string :=
  match s with
  | EmptyString => [EmptyString]
  | String c r =>
      if Ascii.eqb c "," then EmptyString :: split_comma r
      else match split_comma r with
           | p :: ps => String c p :: ps
           | [] => [String c EmptyString]
           end
  end.

(** [parts[-1]] of a non-empty list *)
Definition last_part (parts : list string) : string := List.last parts EmptyString.

(** Left strip: [skip] counts the bytes of the white-space character being
    dropped. *)
Fixpoint lstrip_aux (skip : nat) (s : string) : string :=
  match s with
  | EmptyString => EmptyString
  | String c r =>
      match skip with
      | S k => lstrip_aux k r
      | O => match ws_len s with
             | O => s
             | S k => lstrip_aux k r
             end
      end
  end.

Fixpoint all_ws_aux (skip : nat) (s : string) : bool :=
  match s with
  | EmptyString => true
  | String c r =>
      match skip with
      | S k => all_ws_aux k r
      | O => match ws_len s with
             | O => false
             | S k => all_ws_aux k r
             end
      end
  end.

Fixpoint rstrip (s : string) : string :=
  match s with
  | EmptyString => EmptyString
  | String c r => if all_ws_aux 0 s then EmptyString else String c (rstrip r)
  end.

(** [s.strip()] *)
Definition strip (s : string) : string := rstrip (lstrip_aux 0 s).

Definition push (r : option string * list string) : list string :=
  match r with
  | (Some t, ws) => t :: ws
  | (None, ws) => ws
  end.

(** The word being read at the head of [s] (if any) and the words after it. *)
Fixpoint split_aux (skip : nat) (s : string) : option string * list string :=
  match s with
  | EmptyString => (None, [])
  | String c r =>
      match skip with
      | S k => (None, push (split_aux k r))
      | O => match ws_len s with
             | S k => (None, push (split_aux k r))
             | O => match split_aux 0 r with
                    | (Some t, ws) => (Some (String c t), ws)
                    | (None, ws) => (Some (String c EmptyString), ws)
                    end
             end
      end
  end.

(** [s.split()]: the maximal runs of non-white-space characters *)
Definition split (s : string) : list string := push (split_aux 0 s).

(** [' '.join(ws)] *)
Definition join_space (ws : list string) : string := String.concat " " ws.

(** [needle in hay] *)
Fixpoint contains (needle hay : string) : bool :=
  String.prefix needle hay ||
  match hay with
  | EmptyString => false
  | String _ r => contains needle r
  end.

(** [str.lower] on the characters up to U+00FF (A to Z, and U+00C0 to
    U+00DE but for the multiplication sign U+00D7, which in UTF-8 follow the
    byte 195); other characters are left as they are. *)
Fixpoint lower_latin1_aux (after_c3 : bool) (s : string) : string :=
  match s with
  | EmptyString => EmptyString
  | String c r =>
      let x := byte c in
      let x' := if after_c3
                then (if between 128 158 x && negb (x =? 151)%N then x + 32 else x)%N
                else (if between 65 90 x then x + 32 else x)%N in
      String (ascii_of_N x') (lower_latin1_aux (x =? 195)%N r)
  end.

Definition lower_latin1 (s : string) : string := lower_latin1_aux false s.

End PyStr.

(** ** Values, exceptions and tables *)

(** A spreadsheet cell as pandas hands it to the program. *)
Inductive cell :=
| CStr (s : string)
| CNum (q : Qc)
| CNaN.

(** A Python float: a number or nan. *)
Inductive pyfloat :=
| Fnum (q : Qc)
| Fnan.

Global Instance Qc_eq_decision : EqDecision Qc := Qc_eq_dec.
Global Instance cell_eq_decision : EqDecision cell.
Proof. solve_decision. Defined.

Definition qz (z : Z) : Qc := Q2Qc (inject_Z z).

(** The decimal literal [m / 10^e], e.g. [dec 556761 4] for 55.6761. *)
Definition dec (m : Z) (e : nat) : Qc := Q2Qc (Qmake m (Pos.pow 10 (Pos.of_nat e))).

(** [int(x)] of a float: truncation toward zero. *)
Definition trunc (q : Qc) : Z := Z.quot (Qnum q) (Zpos (Qden q)).

Definition isna (c : cell) : bool :=
  match c with CNaN => true | _ => false end.

Inductive exc :=
| KeyError_columns (possible_names : list string)
    (* KeyError(f"Kunne ikke finde nogen af disse kolonner: {possible_names}") *)
| KeyError_key (c : string)          (* df[c], row[c]: no such column *)
| AttributeError                     (* x.lower(), x.split() on a non-string *)
| TypeError
| ValueError
| LibraryError (what : string).      (* raised inside a library parameter *)

Inductive result (A : Type) :=
| Ok (a : A)
| Raise (e : exc).
Arguments Ok {A} a.
Arguments Raise {A} e.

Global Instance result_ret : MRet result := @Ok.
Global Instance result_bind : MBind result := λ A B f r,
  match r with
  | Ok a => f a
  | Raise e => Raise e
  end.

(** [[f(x) for x in l]], stopping at the first exception. *)
Fixpoint map_result {A B} (f : A → result B) (l : list A) : result (list B) :=
  match l with
  | [] => Ok []
  | x :: l' => y ← f x; ys ← map_result f l'; Ok (y :: ys)
  end.

(** A DataFrame with the default index: its column names in order, and its
    rows.  A row maps a column name to the cell; a name of [columns] a row
    has no entry for reads as missing. *)
Record DataFrame := mkDF {
  columns : list string;
  rows : list (gmap string cell)
}.

Definition cell_at (c : string) (r : gmap string cell) : cell := default CNaN (r !! c).

(** [c in df.columns] *)
Definition has_column (df : DataFrame) (c : string) : bool :=
  bool_decide (c ∈ columns df).

(** [len(df)] *)
Definition len (df : DataFrame) : nat := length (rows df).

(** [df[c]] *)
Definition get_col (df : DataFrame) (c : string) : result (list cell) :=
  if has_column df c then Ok (cell_at c <$> rows df) else Raise (KeyError_key c).

(** [row[c]] for a row of [df.iterrows()] *)
Definition row_get (df : DataFrame) (r : gmap string cell) (c : string) : result cell :=
  if has_column df c then Ok (cell_at c r) else Raise (KeyError_key c).

(** [df[c] = series]: an existing column keeps its place, a new one goes
    last; the values are aligned on the index. *)
Definition set_col (df : DataFrame) (c : string) (vals : list cell) : DataFrame :=
  {| columns := if has_column df c then columns df else columns df ++ [c];
     rows := imap (λ i r, <[c := default CNaN (vals !! i)]> r) (rows df) |}.

(** [df[c] = value] for a scalar *)
Definition set_col_scalar (df : DataFrame) (c : string) (v : cell) : DataFrame :=
  {| columns := if has_column df c then columns df else columns df ++ [c];
     rows := (λ r, <[c := v]> r) <$> rows df |}.

(** [df[dst] = df[src]] *)
Definition copy_col (df : DataFrame) (dst src : string) : result DataFrame :=
  vals ← get_col df src; Ok (set_col df dst vals).

(** The row filter of [df.dropna(subset=...)]. *)
Definition complete (subset : list string) (r : gmap string cell) : bool :=
  forallb (λ c, negb (isna (cell_at c r))) subset.

Fixpoint first_missing (cols subset : list string) : option string :=
  match subset with
  | [] => None
  | c :: cs => if bool_decide (c ∈ cols) then first_missing cols cs else Some c
  end.

(** [df.dropna(subset=subset)] *)
Definition dropna (subset : list string) (df : DataFrame) : result DataFrame :=
  match first_missing (columns df) subset with
  | Some c => Raise (KeyError_key c)
  | None => Ok {| columns := columns df; rows := List.filter (complete subset) (rows df) |}
  end.

(** ** The trace of a run *)

Inductive chart := Scatter | Heatmap | SummaryTable.
Inductive mode := Leje | Ejer.

(** What the program prints; each constructor is one [print] call. *)
Inductive message :=
| MsgColumnsNotFound (possible_names : list string)
    (* "FEJL: Kunne ikke finde nogen af disse kolonner: {possible_names}" *)
| MsgAvailableColumns                (* "Tilgængelige kolonner i filen:" *)
| MsgColumn (i : nat) (col : string) (* "   {i}. {col}" *)
| MsgTip                             (* "TIP: Tjek at Excel-filen har de rigtige kolonnenavne." *)
| MsgFieldFrom (field col : string)  (* "{field} tilføjet fra kolonne: {col}" *)
| MsgFieldMissing (field : string)   (* "{field} ikke fundet ..." *)
| MsgRendering (c : chart)           (* "Genererer scatter plot..." and the like *)
| MsgDropped (n : nat)               (* "Fjernet {dropped} rækker med manglende data" *)
| MsgSheets (names : list string)    (* "Faner i filen: {sheet_names}" *)
| MsgMerging (sheet : string)        (* "Merger med '{sheet}' fane..." *)
| MsgMergeOk (has_coords : bool)     (* "Merge lykkedes! Værelses-data{ og koordinater} tilføjet." *)
| MsgMergeSkipped                    (* "Kunne ikke merge - mangler kolonner" *)
| MsgChecking                        (* "Tjekker kolonner..." *)
| MsgEstimating                      (* the two lines announcing the room estimate *)
| MsgGeocoding                       (* "Geocoder adresser..." *)
| MsgCoordsPresent                   (* "Koordinater allerede til stede fra Enheder-fanen" *)
| MsgYearFromSheet                   (* "Opførelsesår hentet fra Ejendomme-fanen" *)
| MsgYearNotInSheet                  (* "Opførelsesår ikke fundet i Ejendomme-fanen" *)
| MsgNoYearSheet.                    (* "Ejendomme-fane ikke fundet ..." *)

Inductive event :=
| EPrint (m : message)
| ERender (c : chart) (md : mode) (df : DataFrame).

(** A run: what it printed and rendered, and how it ended. *)
Definition M (A : Type) : Type := list event * result A.

Global Instance M_ret : MRet M := λ A a, ([], Ok a).
Global Instance M_bind : MBind M := λ A B f m,
  match m with
  | (t, Ok a) => let '(t', r) := f a in (t ++ t', r)
  | (t, Raise e) => (t, Raise e)
  end.

Definition print (m : message) : M unit := ([EPrint m], Ok tt).
Definition raise {A} (e : exc) : M A := ([], Raise e).
Definition lift {A} (r : result A) : M A := ([], r).

(** [for x in l: body(x)] *)
Fixpoint for_each {A} (body : A → M unit) (l : list A) : M unit :=
  match l with
  | [] => mret tt
  | x :: l' => body x;; for_each body l'
  end.

(** ** Column resolver *)

(** The loop [for name in names: if name in df.columns: ...] up to its first
    hit. *)
Fixpoint first_present (cols names : list string) : option string :=
  match names with
  | [] => None
  | name :: names' =>
      if bool_decide (name ∈ cols) then Some name else first_present cols names'
  end.

Definition find_column (df : DataFrame) (possible_names : list string) : M string :=
  match first_present (columns df) possible_names with
  | Some name => mret name
  | None =>
      print (MsgColumnsNotFound possible_names);;
      print MsgAvailableColumns;;
      for_each (λ ic, print (MsgColumn (fst ic) (snd ic)))
               (imap (λ i col, (S i, col)) (columns df));;
      print MsgTip;;
      raise (KeyError_columns possible_names)
  end.

(** ** Library parameters *)

Record Lib := mkLib {
  str_lower : string → string;               (* s.lower() *)
  str_of_num : Qc → string;                  (* str(x) of a number *)
  int_of_str : string → option Z;            (* int(s), None for ValueError *)
  float_of_str : string → option pyfloat;    (* float(s), None for ValueError *)
  float_mean : list Qc → Qc;                 (* the float64 mean of the numbers of a
                                                column: their sum, added in binary64
                                                in the order of numpy's loop over the
                                                rows, divided by their count *)
  merge_left : DataFrame → DataFrame → string → result DataFrame;
                                             (* left.merge(right, on=key, how='left') *)
  to_datetime_strftime : list cell → result (list cell);
                                             (* pd.to_datetime(col).dt.strftime('%Y-%m-%d') *)
  render : chart → mode → DataFrame → result string
                                             (* create_scatter_plot, create_heatmap,
                                                create_summary_table *)
}.

(** ** Address classifier *)

Definition Ukendt : string := "Ukendt".

Definition parse_city_from_handelsnavn (handelsnavn : cell) : result string :=
  match handelsnavn with
  | CNaN => Ok Ukendt
  | CNum _ => Raise AttributeError
  | CStr s =>
      let parts := PyStr.split_comma s in
      if (2 <=? length parts)%nat then
        let last_part := PyStr.strip (PyStr.last_part parts) in
        let words := PyStr.split last_part in
        if (1 <? length words)%nat then Ok (PyStr.join_space (tail words))
        else Ok Ukendt
      else Ok Ukendt
  end.

Definition coords : Type := Qc * Qc.

Definition known_addresses : list (string * coords) :=
  [ ("Griffenfeldsgade 4B", (dec 5568953163 8, dec 1255545457 8));
    ("Rådmandsgade 34", (dec 5569978992 8, dec 1255090717 8));
    ("Rådmandsgade 36", (dec 5569987455 8, dec 1255113735 8));
    ("Venøgade 24", (dec 5571248034 8, dec 125644871 7));
    ("Søllerødgade 17", (dec 5569416374 8, dec 1254659476 8));
    ("Søllerødgade 15", (dec 5569406004 8, dec 125467663 7));
    ("Holger Danskes Vej 32", (dec 5568712091 8, dec 1253648974 8));
    ("Blegdamsvej 30A", (dec 5569266957 8, dec 1256496568 8));
    ("Bjelkes Allé 20", (dec 5569307928 8, dec 1254489447 8));
    ("Bjelkes Allé 16", (dec 5569284985 8, dec 1254508262 8));
    ("Alhambravej 15", (dec 5567535625 8, dec 1254444716 8));
    ("Alhambravej 13", (dec 5567517812 8, dec 1254429515 8)) ].

Definition fallback_coords : coords := (dec 556761 4, dec 125683 4).

Section WithLib.
Context (L : Lib).

(** The loop over [known_addresses.items()]. *)
Fixpoint geocode_loop (table : list (string * coords)) (address : string)
  : option coords :=
  match table with
  | [] => None
  | (known_addr, c) :: table' =>
      if PyStr.contains (str_lower L known_addr) (str_lower L address)
      then Some c
      else geocode_loop table' address
  end.

Definition geocode_address (address : cell) : result coords :=
  match address with
  | CStr s => Ok (default fallback_coords (geocode_loop known_addresses s))
  | _ => Raise AttributeError
  end.

(** ** Conversions of a cell *)

(** [str(x)] *)
Definition py_str (c : cell) : string :=
  match c with
  | CStr s => s
  | CNum q => str_of_num L q
  | CNaN => "nan"
  end.

(** [int(x)] *)
Definition py_int (c : cell) : result Z :=
  match c with
  | CNum q => Ok (trunc q)
  | CStr s => match int_of_str L s with Some z => Ok z | None => Raise ValueError end
  | CNaN => Raise ValueError
  end.

(** [float(x)] *)
Definition py_float (c : cell) : result pyfloat :=
  match c with
  | CNum q => Ok (Fnum q)
  | CStr s => match float_of_str L s with Some f => Ok f | None => Raise ValueError end
  | CNaN => Ok Fnan
  end.

End WithLib.

(** [int(x)] of a float *)
Definition int_of_float (f : pyfloat) : result Z :=
  match f with
  | Fnum q => Ok (trunc q)
  | Fnan => Raise ValueError
  end.

(** [x / d] for a cell [x] and a number [d] *)
Definition cell_div (d : Qc) (c : cell) : result cell :=
  match c with
  | CNum q => Ok (CNum (q / d)%Qc)
  | CNaN => Ok CNaN
  | CStr _ => Raise TypeError
  end.

(** pd.notna(x) *)
Definition notna (c : cell) : bool := negb (isna c).

(** ** Room estimate *)

Definition estimate_rooms (area : cell) : result Z :=
  match area with
  | CNum a =>
      if Qclt_le_dec a (qz 50) then Ok 2
      else if Qclt_le_dec a (qz 75) then Ok 3
      else if Qclt_le_dec a (qz 100) then Ok 4
      else if Qclt_le_dec a (qz 125) then Ok 5
      else Ok 6
  | CNaN => Ok 6
  | CStr _ => Raise TypeError
  end.

(** ** Series operations *)

(** [series / d] *)
Definition series_div (d : Qc) (vals : list cell) : result (list cell) :=
  map_result (cell_div d) vals.

(** [series.apply(f)] *)
Definition series_apply {A} (f : cell → result A) (vals : list cell) : result (list A) :=
  map_result f vals.

(** [series.fillna(other)] *)
Definition fillna (vals other : list cell) : list cell :=
  imap (λ i x, if isna x then default CNaN (other !! i) else x) vals.

(** [series.isna().any()] *)
Definition any_isna (vals : list cell) : bool := existsb isna vals.

(** The numbers of a column, missing cells skipped; a text cell cannot be
    summed. *)
Fixpoint numbers (vals : list cell) : result (list Qc) :=
  match vals with
  | [] => Ok []
  | CNum q :: vals' => qs ← numbers vals'; Ok (q :: qs)
  | CNaN :: vals' => numbers vals'
  | CStr _ :: _ => Raise TypeError
  end.

Definition Qc_sum (qs : list Qc) : Qc := foldr Qcplus (qz 0) qs.

(** [series.mean()]: nan for a column without numbers; otherwise the mean
    the library computes in floating point, which rounds every addition and
    therefore depends on the order of the numbers. *)
Definition mean (L : Lib) (vals : list cell) : result pyfloat :=
  qs ← numbers vals;
  Ok (match qs with
      | [] => Fnan
      | _ => Fnum (float_mean L qs)
      end).

(** The mean without rounding. *)
Definition exact_mean (qs : list Qc) : Qc :=
  (Qc_sum qs / qz (Z.of_nat (length qs)))%Qc.

Global Instance Qcle_decision : RelDecision Qcle := λ x y,
  match Qclt_le_dec y x with
  | left H => right (Qclt_not_le _ _ H)
  | right H => left H
  end.

(** [series.median()]: the middle of the sorted numbers, the mean of the two
    middle ones for an even count. *)
Definition median (vals : list cell) : result pyfloat :=
  qs ← numbers vals;
  let sorted := merge_sort Qcle qs in
  let n := length sorted in
  Ok (match n with
      | O => Fnan
      | _ => if Nat.even n
             then Fnum ((nth (n / 2 - 1) sorted (qz 0) + nth (n / 2) sorted (qz 0)) / qz 2)%Qc
             else Fnum (nth (n / 2) sorted (qz 0))
      end).

(** ** Histograms *)

Fixpoint count_add (k : cell) (acc : list (cell * nat)) : list (cell * nat) :=
  match acc with
  | [] => [(k, 1%nat)]
  | (k', n) :: acc' =>
      if decide (k = k') then (k', S n) :: acc' else (k', n) :: count_add k acc'
  end.

(** The distinct values of a column with their counts, in order of first
    appearance; missing cells are not counted. *)
Definition counts_first_seen (vals : list cell) : list (cell * nat) :=
  fold_left (λ acc v, if isna v then acc else count_add v acc) vals [].

(** Stable insertion by descending count: equal counts keep their order. *)
Fixpoint insert_desc (x : cell * nat) (l : list (cell * nat)) : list (cell * nat) :=
  match l with
  | [] => [x]
  | y :: l' => if (snd y <=? snd x)%nat then x :: l else y :: insert_desc x l'
  end.

Definition sort_desc (l : list (cell * nat)) : list (cell * nat) :=
  foldr insert_desc [] l.

(** [series.value_counts()]: most frequent first, values of equal count in
    order of first appearance. *)
Definition value_counts (vals : list cell) : list (cell * nat) :=
  sort_desc (counts_first_seen vals).

Definition is_num (c : cell) : bool := match c with CNum _ => true | _ => false end.
Definition is_str (c : cell) : bool := match c with CStr _ => true | _ => false end.

(** The order of index labels: numbers by value, texts by code point; labels
    of different kinds are not compared by [sort_index]. *)
Definition label_le (a b : cell) : Prop :=
  match a, b with
  | CNum x, CNum y => Qcle x y
  | CStr s, CStr t => String.leb s t = true
  | CNum _, _ => True
  | CStr _, CNaN => True
  | CNaN, CNaN => True
  | _, _ => False
  end.

Global Instance label_le_decision : RelDecision label_le.
Proof. intros [s|x|] [t|y|]; simpl; apply _. Defined.

Definition entry_le (a b : cell * nat) : Prop := label_le (fst a) (fst b).

Global Instance entry_le_decision : RelDecision entry_le.
Proof. intros a b; unfold entry_le; apply _. Defined.

(** [counts.sort_index()] *)
Definition sort_index (l : list (cell * nat)) : result (list (cell * nat)) :=
  if forallb (λ e, is_num (fst e)) l || forallb (λ e, is_str (fst e)) l
  then Ok (merge_sort entry_le l)
  else Raise TypeError.

(** A call of one of the chart functions, recorded with the table it is
    given. *)
Definition render_call (L : Lib) (c : chart) (md : mode) (df : DataFrame) : M string :=
  ([ERender c md df], render L c md df).

Definition Ikke_angivet : string := "Ikke angivet".

(** ** Rental pipeline *)

Module Leje.

Record Bolig := mkBolig {
  adresse : string;
  by_ : string;
  lat : pyfloat;
  lng : pyfloat;
  areal : Z;
  leje_m2 : Z;
  leje_maned : Z;
  liggedage : Z;
  varelser : Z;
  opfoerelsesaar : option Z;
  boligtype : string
}.

Record Stats := mkStats {
  total_boliger : nat;
  gns_leje_m2 : Z;
  gns_areal : Z;
  gns_leje : Z;
  median_leje : Z;
  center_lat : pyfloat;
  center_lng : pyfloat;
  vaerelser_data : list (Z * nat);
  by_data : list (string * nat)
}.

Record Data := mkData {
  stats : Stats;
  boliger : list Bolig;
  scatter_img : string;
  heatmap_img : string;
  table_img : string
}.

(** The columns of [dropna(subset=...)]. *)
Definition required : list string :=
  ["Adresse"; "By"; "Lat"; "Lng"; "Areal"; "Leje/m2"; "Årsleje"; "Liggedage";
   "Antal værelser"].

Section WithLib.
Context (L : Lib).

(** The dictionary built for one row of [df.iterrows()]. *)
Definition bolig_of_row (df : DataFrame) (row : gmap string cell) : result Bolig :=
  c_adresse ← row_get df row "Adresse";
  c_by ← row_get df row "By";
  c_lat ← row_get df row "Lat";
  v_lat ← py_float L c_lat;
  c_lng ← row_get df row "Lng";
  v_lng ← py_float L c_lng;
  c_areal ← row_get df row "Areal";
  v_areal ← py_int L c_areal;
  c_m2 ← row_get df row "Leje/m2";
  v_m2 ← py_int L c_m2;
  c_aar ← row_get df row "Årsleje";
  c_maned ← cell_div (qz 12) c_aar;
  v_maned ← py_int L c_maned;
  c_dage ← row_get df row "Liggedage";
  v_dage ← py_int L c_dage;
  c_rum ← row_get df row "Antal værelser";
  v_rum ← py_int L c_rum;
  c_year ← row_get df row "Opførelsesår";
  v_year ← (if notna c_year then z ← py_int L c_year; Ok (Some z) else Ok None);
  c_type ← row_get df row "Boligtype";
  Ok {| adresse := py_str L c_adresse;
        by_ := py_str L c_by;
        lat := v_lat;
        lng := v_lng;
        areal := v_areal;
        leje_m2 := v_m2;
        leje_maned := v_maned;
        liggedage := v_dage;
        varelser := v_rum;
        opfoerelsesaar := v_year;
        boligtype := if notna c_type then py_str L c_type else Ikke_angivet |}.

(** The block "Statistikker" over the cleaned table. *)
Definition statistics (df : DataFrame) (total : nat) : result Stats :=
  c_m2 ← get_col df "Leje/m2";
  m_m2 ← mean L c_m2;
  v_m2 ← int_of_float m_m2;
  c_areal ← get_col df "Areal";
  m_areal ← mean L c_areal;
  v_areal ← int_of_float m_areal;
  c_aar ← get_col df "Årsleje";
  c_maned ← series_div (qz 12) c_aar;
  m_leje ← mean L c_maned;
  v_leje ← int_of_float m_leje;
  c_aar' ← get_col df "Årsleje";
  c_maned' ← series_div (qz 12) c_aar';
  md_leje ← median c_maned';
  v_median ← int_of_float md_leje;
  c_lat ← get_col df "Lat";
  v_lat ← mean L c_lat;
  c_lng ← get_col df "Lng";
  v_lng ← mean L c_lng;
  c_rum ← get_col df "Antal værelser";
  rum_counts ← sort_index (value_counts c_rum);
  rum_data ← map_result (λ kv, k ← py_int L (fst kv); Ok (k, snd kv)) rum_counts;
  c_by ← get_col df "By";
  Ok {| total_boliger := total;
        gns_leje_m2 := v_m2;
        gns_areal := v_areal;
        gns_leje := v_leje;
        median_leje := v_median;
        center_lat := v_lat;
        center_lng := v_lng;
        vaerelser_data := rum_data;
        by_data := (λ kv, (py_str L (fst kv), snd kv)) <$> value_counts c_by |}.

(** The table after "Standardiser kolonnenavne", the optional columns and
    the monthly rent: the one the charts are drawn from. *)
Definition standardize (df : DataFrame) : M DataFrame :=
  address_col ← find_column df ["Adresse"; "Address"];
  city_col ← find_column df ["By"; "City"; "Postnr."];
  lat_col ← find_column df ["Lat"; "Latitude"];
  lng_col ← find_column df ["Lng"; "Lon"; "Longitude"];
  area_col ← find_column df ["Areal"; "Area"];
  price_m2_col ← find_column df ["Leje/m2"; "Leje pr. m2"];
  yearly_rent_col ← find_column df ["Årsleje"; "Arsleje"; "Yearly rent"];
  days_col ← find_column df ["Liggedage"; "Days on market"];
  rooms_col ← find_column df ["Antal værelser"; "Antal Værelser"; "Værelser"; "Rooms"];
  let year_col :=
    first_present (columns df) ["Opførelsesår"; "Opfoerelsesaar"; "Byggeår"; "Year built"] in
  let type_col := first_present (columns df) ["Boligtype"; "Type"; "Property type"] in
  df ← lift (copy_col df "Adresse" address_col);
  df ← lift (copy_col df "By" city_col);
  df ← lift (copy_col df "Lat" lat_col);
  df ← lift (copy_col df "Lng" lng_col);
  df ← lift (copy_col df "Areal" area_col);
  df ← lift (copy_col df "Leje/m2" price_m2_col);
  df ← lift (copy_col df "Årsleje" yearly_rent_col);
  df ← lift (copy_col df "Liggedage" days_col);
  df ← lift (copy_col df "Antal værelser" rooms_col);
  df ← match year_col with
       | Some c =>
           df ← lift (copy_col df "Opførelsesår" c);
           print (MsgFieldFrom "Opførelsesår" c);; mret df
       | None =>
           print (MsgFieldMissing "Opførelsesår");;
           mret (set_col_scalar df "Opførelsesår" CNaN)
       end;
  df ← match type_col with
       | Some c =>
           df ← lift (copy_col df "Boligtype" c);
           print (MsgFieldFrom "Boligtype" c);; mret df
       | None =>
           print (MsgFieldMissing "Boligtype");;
           mret (set_col_scalar df "Boligtype" (CStr Ikke_angivet))
       end;
  if has_column df "Leje/måned" then mret df
  else
    c_aar ← lift (get_col df "Årsleje");
    c_maned ← lift (series_div (qz 12) c_aar);
    mret (set_col df "Leje/måned" c_maned).

(** [process_leje_data], from the sheet that [pd.read_excel] returned. *)
Definition process_leje_data (sheet : DataFrame) : M Data :=
  df ← standardize sheet;
  print (MsgRendering Scatter);;
  scatter ← render_call L Scatter Leje df;
  print (MsgRendering Heatmap);;
  heatmap ← render_call L Heatmap Leje df;
  print (MsgRendering SummaryTable);;
  table ← render_call L SummaryTable Leje df;
  let original_count := len df in
  df ← lift (dropna required df);
  let dropped := (original_count - len df)%nat in
  (if (0 <? dropped)%nat then print (MsgDropped dropped) else mret tt);;
  boliger ← lift (map_result (bolig_of_row df) (rows df));
  st ← lift (statistics df (length boliger));
  mret {| stats := st;
          boliger := boliger;
          scatter_img := scatter;
          heatmap_img := heatmap;
          table_img := table |}.

End WithLib.

End Leje.

(** ** Ownership pipeline *)

(** The workbook [pd.ExcelFile] opens: its sheets in order, at least one. *)
Record Workbook := mkWorkbook {
  first_sheet : string * DataFrame;
  other_sheets : list (string * DataFrame)
}.

Definition sheets (wb : Workbook) : list (string * DataFrame) :=
  first_sheet wb :: other_sheets wb.

Definition sheet_names (wb : Workbook) : list string := fst <$> sheets wb.

(** [pd.read_excel(path, sheet_name=name)] for a name of [sheet_names]. *)
Fixpoint read_sheet (l : list (string * DataFrame)) (name : string) : result DataFrame :=
  match l with
  | [] => Raise ValueError
  | (n, df) :: l' => if decide (n = name) then Ok df else read_sheet l' name
  end.

(** [df[cols]] for a list of column names *)
Definition select_cols (df : DataFrame) (cols : list string) : result DataFrame :=
  match first_missing (columns df) cols with
  | Some c => Raise (KeyError_key c)
  | None =>
      Ok {| columns := cols;
            rows := (λ r, filter (λ kv, fst kv ∈ cols) r) <$> rows df |}
  end.

Definition opt_list (o : option string) : list string :=
  match o with Some c => [c] | None => [] end.

Module Ejer.

Record Bolig := mkBolig {
  handelsnavn : string;
  by_ : string;
  lat : pyfloat;
  lng : pyfloat;
  areal : Z;
  pris : Z;
  pris_m2 : Z;
  varelser : Z;
  handelsdato : string;
  anvendelse : string;
  opfoerelsesaar : option Z
}.

Record Stats := mkStats {
  total_boliger : nat;
  gns_pris_m2 : Z;
  gns_areal : Z;
  gns_pris : Z;
  median_pris : Z;
  center_lat : pyfloat;
  center_lng : pyfloat;
  vaerelser_data : list (Z * nat);
  by_data : list (string * nat)
}.

Record Data := mkData {
  stats : Stats;
  boliger : list Bolig;
  scatter_img : string;
  heatmap_img : string;
  table_img : string
}.

(** The columns of [dropna(subset=...)]. *)
Definition required : list string :=
  ["Handelsnavn"; "By"; "lat"; "lng"; "Enhedsareal"; "Pris";
   "Pris pr. m2 (enhedsareal)"; "Antal Værelser"].

Section WithLib.
Context (L : Lib).

Definition bolig_of_row (df : DataFrame) (row : gmap string cell) : result Bolig :=
  c_navn ← row_get df row "Handelsnavn";
  c_by ← row_get df row "By";
  c_lat ← row_get df row "lat";
  v_lat ← py_float L c_lat;
  c_lng ← row_get df row "lng";
  v_lng ← py_float L c_lng;
  c_areal ← row_get df row "Enhedsareal";
  v_areal ← py_int L c_areal;
  c_pris ← row_get df row "Pris";
  v_pris ← py_int L c_pris;
  c_m2 ← row_get df row "Pris pr. m2 (enhedsareal)";
  v_m2 ← py_int L c_m2;
  c_rum ← row_get df row "Antal Værelser";
  v_rum ← py_int L c_rum;
  c_dato ← row_get df row "Handelsdato_str";
  c_anv ← row_get df row "Anvendelse";
  c_year ← row_get df row "Opførelsesår";
  v_year ← (if notna c_year then z ← py_int L c_year; Ok (Some z) else Ok None);
  Ok {| handelsnavn := py_str L c_navn;
        by_ := py_str L c_by;
        lat := v_lat;
        lng := v_lng;
        areal := v_areal;
        pris := v_pris;
        pris_m2 := v_m2;
        varelser := v_rum;
        handelsdato := py_str L c_dato;
        anvendelse := if notna c_anv then py_str L c_anv else Ikke_angivet;
        opfoerelsesaar := v_year |}.

(** The block "Statistikker" over the cleaned table. *)
Definition statistics (df : DataFrame) (total : nat) : result Stats :=
  c_m2 ← get_col df "Pris pr. m2 (enhedsareal)";
  m_m2 ← mean L c_m2;
  v_m2 ← int_of_float m_m2;
  c_areal ← get_col df "Enhedsareal";
  m_areal ← mean L c_areal;
  v_areal ← int_of_float m_areal;
  c_pris ← get_col df "Pris";
  m_pris ← mean L c_pris;
  v_pris ← int_of_float m_pris;
  c_pris' ← get_col df "Pris";
  md_pris ← median c_pris';
  v_median ← int_of_float md_pris;
  c_lat ← get_col df "lat";
  v_lat ← mean L c_lat;
  c_lng ← get_col df "lng";
  v_lng ← mean L c_lng;
  c_rum ← get_col df "Antal Værelser";
  rum_counts ← sort_index (value_counts c_rum);
  rum_data ← map_result (λ kv, k ← py_int L (fst kv); Ok (k, snd kv)) rum_counts;
  c_by ← get_col df "By";
  Ok {| total_boliger := total;
        gns_pris_m2 := v_m2;
        gns_areal := v_areal;
        gns_pris := v_pris;
        median_pris := v_median;
        center_lat := v_lat;
        center_lng := v_lng;
        vaerelser_data := rum_data;
        by_data := (λ kv, (py_str L (fst kv), snd kv)) <$> value_counts c_by |}.

(** The merge with the sheet 'Enheder', when the workbook has one. *)
Definition merge_enheder (wb : Workbook) (df : DataFrame) : M DataFrame :=
  if bool_decide ("Enheder" ∈ sheet_names wb) then
    print (MsgMerging "Enheder");;
    df_enheder ← lift (read_sheet (sheets wb) "Enheder");
    let rooms_col_enheder :=
      first_present (columns df_enheder) ["Antal værelser"; "Antal Værelser"; "Værelser"] in
    let lat_col_enheder :=
      first_present (columns df_enheder) ["Latitude"; "Lat"; "latitude"] in
    let lng_col_enheder :=
      first_present (columns df_enheder) ["Longitude"; "Lng"; "Lon"; "longitude"] in
    if has_column df_enheder "Handels-ID" && has_column df "Handels-ID" then
      let merge_cols :=
        ["Handels-ID"] ++ opt_list rooms_col_enheder ++ opt_list lat_col_enheder
        ++ opt_list lng_col_enheder in
      right ← lift (select_cols df_enheder merge_cols);
      df ← lift (merge_left L df right "Handels-ID");
      df ← match rooms_col_enheder with
           | Some c => if bool_decide (c ≠ "Antal Værelser")
                       then lift (copy_col df "Antal Værelser" c) else mret df
           | None => mret df
           end;
      df ← match lat_col_enheder with
           | Some c => lift (copy_col df "lat" c)
           | None => mret df
           end;
      df ← match lng_col_enheder with
           | Some c => lift (copy_col df "lng" c)
           | None => mret df
           end;
      print (MsgMergeOk (bool_decide (is_Some lat_col_enheder)
                         && bool_decide (is_Some lng_col_enheder)));;
      mret df
    else
      print MsgMergeSkipped;; mret df
  else mret df.

(** Room count: the merged column, else a column of the sheet, else the
    estimate from the area. *)
Definition ensure_rooms (area_col : string) (df : DataFrame) : M DataFrame :=
  if has_column df "Antal Værelser" then mret df
  else
    match first_present (columns df) ["Antal værelser"; "Værelser"; "Rooms"; "Antal rum"] with
    | Some room_col => lift (copy_col df "Antal Værelser" room_col)
    | None =>
        print MsgEstimating;;
        c_area ← lift (get_col df area_col);
        est ← lift (series_apply estimate_rooms c_area);
        mret (set_col df "Antal Værelser" ((λ n, CNum (qz n)) <$> est))
    end.

(** Coordinates: geocode the trade names when a coordinate column is
    absent or a latitude is missing, and fill the holes. *)
Definition ensure_coords (name_col : string) (df : DataFrame) : M DataFrame :=
  need ← (if negb (has_column df "lat") || negb (has_column df "lng") then mret true
          else c_lat ← lift (get_col df "lat"); mret (any_isna c_lat));
  if need : bool then
    print MsgGeocoding;;
    c_name ← lift (get_col df name_col);
    geo ← lift (series_apply (geocode_address L) c_name);
    let lats := (λ x : coords, CNum (fst x)) <$> geo in
    let lngs := (λ x : coords, CNum (snd x)) <$> geo in
    let df := if has_column df "lat" then df else set_col df "lat" lats in
    let df := if has_column df "lng" then df else set_col df "lng" lngs in
    c_lat ← lift (get_col df "lat");
    let df := set_col df "lat" (fillna c_lat lats) in
    c_lng ← lift (get_col df "lng");
    let df := set_col df "lng" (fillna c_lng lngs) in
    mret df
  else
    print MsgCoordsPresent;; mret df.

Definition ensure_anvendelse (df : DataFrame) : M DataFrame :=
  if has_column df "Anvendelse" then mret df
  else
    match first_present (columns df)
            ["Anvendelse"; "Ejendomstype"; "Type"; "Enhedens anvendelse"] with
    | Some c =>
        df ← lift (copy_col df "Anvendelse" c);
        print (MsgFieldFrom "Anvendelse" c);; mret df
    | None =>
        print (MsgFieldMissing "Anvendelse");;
        mret (set_col_scalar df "Anvendelse" (CStr Ikke_angivet))
    end.

(** The merge with the sheet 'Ejendomme' for the construction year. *)
Definition merge_ejendomme (wb : Workbook) (df : DataFrame) : M DataFrame :=
  if bool_decide ("Ejendomme" ∈ sheet_names wb) then
    print (MsgMerging "Ejendomme");;
    df_ejendomme ← lift (read_sheet (sheets wb) "Ejendomme");
    match first_present (columns df_ejendomme) ["Opførelsesår"; "Opfoerelsesaar"; "Byggeår"] with
    | Some year_col_ejend =>
        if has_column df_ejendomme "Handels-ID" then
          right ← lift (select_cols df_ejendomme ["Handels-ID"; year_col_ejend]);
          df ← lift (merge_left L df right "Handels-ID");
          df ← lift (copy_col df "Opførelsesår" year_col_ejend);
          print MsgYearFromSheet;; mret df
        else
          print MsgYearNotInSheet;; mret (set_col_scalar df "Opførelsesår" CNaN)
    | None =>
        print MsgYearNotInSheet;; mret (set_col_scalar df "Opførelsesår" CNaN)
    end
  else
    print MsgNoYearSheet;; mret (set_col_scalar df "Opførelsesår" CNaN).

(** The table the charts are drawn from: everything up to
    "Standardiser kolonnenavne til hvad scriptet forventer". *)
Definition standardize (wb : Workbook) : M DataFrame :=
  print (MsgSheets (sheet_names wb));;
  let df := snd (first_sheet wb) in
  df ← merge_enheder wb df;
  print MsgChecking;;
  price_col ← find_column df ["Pris"; "Price"; "Salgspris"];
  area_col ← find_column df ["Enhedsareal"; "Areal"; "Area"];
  price_m2_col ← find_column df ["Pris pr. m2 (enhedsareal)"; "Pris pr. m2"; "Pris/m2"];
  name_col ← find_column df ["Handelsnavn"; "Adresse"; "Address"];
  date_col ← find_column df ["Handelsdato"; "Dato"; "Date"];
  df ← ensure_rooms area_col df;
  df ← ensure_coords name_col df;
  c_name ← lift (get_col df name_col);
  byer ← lift (series_apply parse_city_from_handelsnavn c_name);
  let df := set_col df "By" (CStr <$> byer) in
  c_date ← lift (get_col df date_col);
  datoer ← lift (to_datetime_strftime L c_date);
  let df := set_col df "Handelsdato_str" datoer in
  df ← ensure_anvendelse df;
  df ← merge_ejendomme wb df;
  df ← lift (copy_col df "Pris" price_col);
  df ← lift (copy_col df "Enhedsareal" area_col);
  df ← lift (copy_col df "Pris pr. m2 (enhedsareal)" price_m2_col);
  df ← lift (copy_col df "Handelsnavn" name_col);
  df ← lift (copy_col df "Handelsdato" date_col);
  mret df.

(** [process_ejer_data], from the workbook at [excel_path]. *)
Definition process_ejer_data (wb : Workbook) : M Data :=
  df ← standardize wb;
  print (MsgRendering Scatter);;
  scatter ← render_call L Scatter Ejer df;
  print (MsgRendering Heatmap);;
  heatmap ← render_call L Heatmap Ejer df;
  print (MsgRendering SummaryTable);;
  table ← render_call L SummaryTable Ejer df;
  let original_count := len df in
  df ← lift (dropna required df);
  let dropped := (original_count - len df)%nat in
  (if (0 <? dropped)%nat then print (MsgDropped dropped) else mret tt);;
  boliger ← lift (map_result (bolig_of_row df) (rows df));
  st ← lift (statistics df (length boliger));
  mret {| stats := st;
          boliger := boliger;
          scatter_img := scatter;
          heatmap_img := heatmap;
          table_img := table |}.

End WithLib.

End Ejer.

(** ** Reading a trace *)

(** The column names listed by the diagnostic lines of a trace. *)
Definition reported_columns (t : list event) : list string :=
  omap (λ e, match e with EPrint (MsgColumn _ col) => Some col | _ => None end) t.

(** The tables handed to the chart functions, in call order. *)
Definition rendered_tables (t : list event) : list DataFrame :=
  omap (λ e, match e with ERender _ _ df => Some df | _ => None end) t.

(** The chart calls of a trace, in call order. *)
Definition render_calls (t : list event) : list (chart * mode) :=
  omap (λ e, match e with ERender c md _ => Some (c, md) | _ => None end) t.

(** ** A library instance and tables for running the program *)

(** Latin-1 lower-casing, whole numbers printed in decimal and other numbers
    as a fraction, no text read as a number, means without rounding (as they
    are while every partial sum and the quotient are floats), no merge, dates
    kept as they are, and charts that show the number of rows they were given
    (as the scatter plot does in its title). *)
Definition plain_lib : Lib :=
  {| str_lower := PyStr.lower_latin1;
     str_of_num := λ q, if (Qden q =? 1)%positive then pretty (Qnum q)
                        else pretty (Qnum q) +:+ "/" +:+ pretty (Zpos (Qden q));
     int_of_str := λ _, None;
     float_of_str := λ _, None;
     float_mean := exact_mean;
     merge_left := λ _ _ _, Raise (LibraryError "merge");
     to_datetime_strftime := Ok;
     render := λ _ _ df, Ok (pretty (len df)) |}.

(** The float nearest to a rational, ties to the even mantissa: 53
    significant bits.  Overflow and subnormal numbers, far from the sizes of
    the data of this program, are left out. *)
Definition round_binary64 (q : Qc) : Qc :=
  let n := Qnum q in
  let d := Zpos (Qden q) in
  if (n =? 0)%Z then q else
  let a := Z.abs n in
  let scaled (e : Z) : Z * Z :=
    if (0 <=? e)%Z then (a, d * 2 ^ e) else (a * 2 ^ (- e), d) in
  let e0 := Z.log2 a - Z.log2 d - 52 in
  let e := if (fst (scaled e0) / snd (scaled e0) <? 2 ^ 52)%Z then e0 - 1 else e0 in
  let '(num, den) := scaled e in
  let m := num / den in
  let r := num mod den in
  let m' := if (2 * r <? den)%Z then m
            else if (den <? 2 * r)%Z then m + 1
            else if Z.even m then m else m + 1 in
  let v := Z.sgn n * m' in
  if (0 <=? e)%Z then qz (v * 2 ^ e) else Q2Qc (Qmake v (Z.to_pos (2 ^ (- e)))).

(** The mean of a column of fewer than eight floats as numpy computes it:
    the sum runs over the numbers from the first to the last, every addition
    rounds, and so does the division by the count. *)
Definition binary64_mean (qs : list Qc) : Qc :=
  let add (acc x : Qc) := round_binary64 (acc + round_binary64 x)%Qc in
  round_binary64 (fold_left add qs (qz 0) / qz (Z.of_nat (length qs)))%Qc.

(** [plain_lib] with the means in binary64. *)
Definition binary64_lib : Lib :=
  {| str_lower := str_lower plain_lib;
     str_of_num := str_of_num plain_lib;
     int_of_str := int_of_str plain_lib;
     float_of_str := float_of_str plain_lib;
     float_mean := binary64_mean;
     merge_left := merge_left plain_lib;
     to_datetime_strftime := to_datetime_strftime plain_lib;
     render := render plain_lib |}.

(** ** Vocabulary of the statements *)

(** [needle] occurs in [hay]. *)
Definition is_substring (needle hay : string) : Prop :=
  ∃ pre post, hay = pre +:+ needle +:+ post.

(** A table entry matches when its lower-cased key occurs in the lower-cased
    address. *)
Definition entry_matches (L : Lib) (address : string) (e : string * coords) : Prop :=
  is_substring (str_lower L (fst e)) (str_lower L address).

(** [s] has no comma. *)
Definition no_comma (s : string) : Prop :=
  ∀ pre post, s ≠ pre +:+ "," +:+ post.

(** The words of the stripped segment after the last comma. *)
Definition city_words (seg : string) : list string := PyStr.split (PyStr.strip seg).

(** A trace without chart calls. *)
Definition no_render (t : list event) : Prop :=
  Forall (λ e, match e with ERender _ _ _ => False | EPrint _ => True end) t.

(** The successful ends of two runs are related by [R]. *)
Definition ok_rel {A B} (R : A → B → Prop) (m : M A) (m' : M B) : Prop :=
  ∀ t a t' b, m = (t, Ok a) → m' = (t', Ok b) → R a b.

(** The successful end of a run satisfies [P]. *)
Definition ok_inv {A} (P : A → Prop) (m : M A) : Prop :=
  ∀ t a, m = (t, Ok a) → P a.

(** Two tables that agree on every column but [k]. *)
Definition same_but (k : string) (df df' : DataFrame) : Prop :=
  (∀ c, c ≠ k → (c ∈ columns df ↔ c ∈ columns df')) ∧
  Forall2 (λ r r', ∀ c, c ≠ k → cell_at c r = cell_at c r') (rows df) (rows df').

(** A rental sheet of three rows: the monthly rent is given explicitly (as 1)
    and the third row has no city. *)
Definition leje_demo_columns : list string :=
  ["Adresse"; "By"; "Lat"; "Lng"; "Areal"; "Leje/m2"; "Årsleje"; "Liggedage";
   "Antal værelser"; "Leje/måned"].

Definition leje_demo_row (adr : string) (by_ : cell) (areal aarsleje : Z)
  : gmap string cell :=
  list_to_map
    [("Adresse", CStr adr); ("By", by_); ("Lat", CNum (dec 5569 2));
     ("Lng", CNum (dec 1255 2)); ("Areal", CNum (qz areal)); ("Leje/m2", CNum (qz 1500));
     ("Årsleje", CNum (qz aarsleje)); ("Liggedage", CNum (qz 10));
     ("Antal værelser", CNum (qz 3)); ("Leje/måned", CNum (qz 1))].

Definition leje_demo_sheet : DataFrame :=
  {| columns := leje_demo_columns;
     rows := [leje_demo_row "Nørrebrogade 1" (CStr "København N") 80 120000;
              leje_demo_row "Amagerbrogade 2" (CStr "København S") 67 100000;
              leje_demo_row "Valby Langgade 3" CNaN 55 90000] |}.

(** An ownership workbook of one sheet without coordinates and room counts;
    the second row has no price. *)
Definition ejer_demo_columns : list string :=
  ["Handelsnavn"; "Pris"; "Enhedsareal"; "Pris pr. m2 (enhedsareal)"; "Handelsdato"].

Definition ejer_demo_row (navn pris : cell) : gmap string cell :=
  list_to_map
    [("Handelsnavn", navn); ("Pris", pris); ("Enhedsareal", CNum (qz 74));
     ("Pris pr. m2 (enhedsareal)", CNum (qz 40540)); ("Handelsdato", CStr "2024-01-02")].

Definition ejer_demo_workbook : Workbook :=
  {| first_sheet :=
       ("Stamdata",
        {| columns := ejer_demo_columns;
           rows := [ejer_demo_row (CStr "Griffenfeldsgade 4B, 2200 København N")
                      (CNum (qz 3000000));
                    ejer_demo_row (CStr "Venøgade 24, 2100 København Ø") CNaN] |});
     other_sheets := [] |}.

(** The same workbook with a row whose trade name is missing. *)
Definition ejer_missing_name_workbook : Workbook :=
  {| first_sheet :=
       ("Stamdata",
        {| columns := ejer_demo_columns;
           rows := [ejer_demo_row (CStr "Griffenfeldsgade 4B, 2200 København N")
                      (CNum (qz 3000000));
                    ejer_demo_row CNaN (CNum (qz 2500000))] |});
     other_sheets := [] |}.

(** Reading the end of a run. *)
Definition run_ok {A} (m : M A) : bool :=
  match m.2 with Ok _ => true | Raise _ => false end.

Definition run_value {A B} (f : A → B) (m : M A) : option B :=
  match m.2 with Ok a => Some (f a) | Raise _ => None end.

Definition run_error {A} (m : M A) : option exc :=
  match m.2 with Ok _ => None | Raise e => Some e end.

(** The column [k] as the sheet has it: present or not, and its cells. *)
Definition keeps_column (k : string) (sheet df : DataFrame) : Prop :=
  has_column df k = has_column sheet k ∧
  cell_at k <$> rows df = cell_at k <$> rows sheet.

(** Two results that end alike: values related by [S], or the same
    exception. *)
Definition result_rel {A} (S : A → A → Prop) (r r' : result A) : Prop :=
  match r, r' with
  | Ok a, Ok a' => S a a'
  | Raise e, Raise e' => e = e'
  | _, _ => False
  end.












Definition result_value {A B} (f : A → B) (r : result A) : option B :=
  match r with Ok a => Some (f a) | Raise _ => None end.



(** Three cleaned rental listings, and the same three with the last two
    exchanged. *)
Definition leje_three : DataFrame :=
  {| columns := leje_demo_columns;
     rows := [leje_demo_row "Nørrebrogade 1" (CStr "København N") 80 164400;
              leje_demo_row "Amagerbrogade 2" (CStr "København S") 67 108200;
              leje_demo_row "Valby Langgade 3" (CStr "Valby") 120 262900] |}.

Definition leje_three_swapped : DataFrame :=
  {| columns := leje_demo_columns;
     rows := [leje_demo_row "Nørrebrogade 1" (CStr "København N") 80 164400;
              leje_demo_row "Valby Langgade 3" (CStr "Valby") 120 262900;
              leje_demo_row "Amagerbrogade 2" (CStr "København S") 67 108200] |}.

(** A byte that is no comma, no white space of its own and does not start a
    white-space character: every ASCII letter, digit and sign but the comma,
    and the bytes of the Latin-1 letters (æ, ø, å, é, ...). *)
Definition plain_byte (c : ascii) : bool :=
  let x := PyStr.byte c in
  negb (PyStr.between 9 13 x || PyStr.between 28 32 x
        || (x =? 194)%N || (x =? 225)%N || (x =? 226)%N || (x =? 227)%N
        || (x =? 44)%N).

Fixpoint all_plain (s : string) : bool :=
  match s with
  | EmptyString => true
  | String c r => plain_byte c && all_plain r
  end.

(** A non-empty word of plain bytes. *)
Definition plain_word (w : string) : bool :=
  match w with
  | EmptyString => false
  | String _ _ => all_plain w
  end.

(** ** Further models and vocabulary *)

(** The sum of the counts of a histogram. *)
Definition total_count {A} (l : list (A * nat)) : nat := sum_list (snd <$> l).

(** A table with the rows of the sheet, its columns and the columns [added]. *)
Definition extends_sheet (added : list string) (sheet df : DataFrame) : Prop :=
  len df = len sheet ∧
  ∀ c, c ∈ columns df ↔ c ∈ columns sheet ∨ c ∈ added.

(** The candidate names of the nine required fields of a rental sheet, in
    the order in which [process_leje_data] resolves them. *)
Definition leje_candidates : list (list string) :=
  [ ["Adresse"; "Address"];
    ["By"; "City"; "Postnr."];
    ["Lat"; "Latitude"];
    ["Lng"; "Lon"; "Longitude"];
    ["Areal"; "Area"];
    ["Leje/m2"; "Leje pr. m2"];
    ["Årsleje"; "Arsleje"; "Yearly rent"];
    ["Liggedage"; "Days on market"];
    ["Antal værelser"; "Antal Værelser"; "Værelser"; "Rooms"] ].

(** The run succeeds, with a value that satisfies [P]. *)
Definition ok_total {A} (P : A → Prop) (m : M A) : Prop :=
  ∃ t a, m = (t, Ok a) ∧ P a.

(** The column [k] holds no text. *)
Definition no_text (k : string) (df : DataFrame) : Prop :=
  Forall (λ r, is_str (cell_at k r) = false) (rows df).

(** A table that extends the sheet and whose column [k] holds the cells of
    the column [src] of the sheet. *)
Definition carries (added : list string) (k src : string) (sheet df : DataFrame) : Prop :=
  extends_sheet added sheet df ∧ cell_at k <$> rows df = cell_at src <$> rows sheet.

(** The cell a coordinate column ends with: the cell it had where the column
    existed and the cell was not missing, the geocoded number elsewhere. *)
Definition filled (present : bool) (old : cell) (geocoded : Qc) : cell :=
  if present && notna old then old else CNum geocoded.

(** Every row of the table has the cell [v] in the column [k]. *)
Definition const_col (k : string) (v : cell) (df : DataFrame) : Prop :=
  Forall (λ r, cell_at k r = v) (rows df).

(** The label of the first interval (lo, hi] that holds [x], the intervals
    being cut at [edges] with [lo] before them; [closed] tells whether [lo]
    itself belongs to the first interval. *)
Fixpoint cut_from (closed : bool) (lo : Qc) (edges : list Qc) (labels : list string)
         (x : Qc) : option string :=
  match edges, labels with
  | hi :: edges', label :: labels' =>
      if (if closed then bool_decide (lo ≤ x)%Qc else negb (bool_decide (x ≤ lo)%Qc))
         && bool_decide (x ≤ hi)%Qc
      then Some label
      else cut_from false hi edges' labels' x
  | _, _ => None
  end.

(** [pd.cut(series, bins=bins, labels=labels, include_lowest=True)] for one
    cell: intervals closed on the right, the lowest edge included; a number
    outside every interval and a missing cell get no category. *)
Definition cut (bins : list Qc) (labels : list string) (x : cell) : result (option string) :=
  match x with
  | CNum q => Ok (match bins with
                  | lo :: edges => cut_from true lo edges labels q
                  | [] => None
                  end)
  | CNaN => Ok None
  | CStr _ => Raise TypeError
  end.

Definition areal_bins : list Qc := [qz 0; qz 50; qz 75; qz 100; qz 115; qz 130; qz 200].

Definition areal_labels : list string :=
  ["0-50 m²"; "50-75 m²"; "75-100 m²"; "100-115 m²"; "115-130 m²"; "130+ m²"].

(** The column 'Areal kategori' for one cell of the area column. *)
Definition areal_kategori (area : cell) : result (option string) :=
  cut areal_bins areal_labels area.

(** [s.replace(old, new)] for a non-empty [old]: the occurrences of [old]
    are replaced from the left, without overlap; [skip] counts the bytes of
    the occurrence being dropped. *)
Fixpoint replace_aux (old new : string) (skip : nat) (s : string) : string :=
  match s with
  | EmptyString => EmptyString
  | String c r =>
      match skip with
      | S k => replace_aux old new k r
      | O => if String.prefix old s
             then new +:+ replace_aux old new (String.length old - 1) r
             else String c (replace_aux old new 0 r)
      end
  end.

Definition str_replace (old new s : string) : string := replace_aux old new 0 s.

(** What [generate_html] needs from outside: the JSON texts of the two
    reports ([json.dumps(data, ensure_ascii=False)]) and the HTML shell,
    the literal [html_template] of the source. *)
Record Web := mkWeb {
  json_leje : Leje.Data → string;
  json_ejer : Ejer.Data → string;
  html_template : string
}.

(** The text written to the report file. *)
Definition render_html (W : Web) (leje_data : Leje.Data) (ejer_data : Ejer.Data)
  : string :=
  let leje_json := str_replace "</" "<\/" (json_leje W leje_data) in
  let ejer_json := str_replace "</" "<\/" (json_ejer W ejer_data) in
  let html := str_replace "__LEJE_DATA__" leje_json (html_template W) in
  str_replace "__EJER_DATA__" ejer_json html.

(** What a run of the command does, in order: the events of a pipeline, the
    report file it writes and the lines [generate_html] and [main] print. *)
Inductive output :=
| ORun (e : event)                 (* printed or drawn inside a pipeline *)
| OWrite (path content : string)   (* open(output_path, 'w').write(html) *)
| OGenerated (path : string)       (* "Dashboard genereret: {output_path}" *)
| OLejeCount (n : nat)             (* "Lejeboliger: {total_boliger}" *)
| OEjerCount (n : nat)             (* "Ejerboliger: {total_boliger}" *)
| OUsage                           (* "Usage: python generate_dashboard.py ..." *)
| OReadingLeje                     (* "Læser lejedata..." *)
| OReadingEjer                     (* "Læser ejerdata..." *)
| OGenerating                      (* "Genererer dashboard..." *)
| ODone                            (* "Færdig! Åbn filen i din browser ..." *)
| OColumnNotFound (e : exc)        (* "Kolonnen blev ikke fundet: {e}" *)
| OCheckNames                      (* "Sørg for at dine Excel-filer har de rigtige kolonnenavne." *)
| OUnexpected (e : exc)            (* "Der opstod en uventet fejl: {e}" *)
| OTraceback.                      (* traceback.print_exc() *)

Definition Run (A : Type) : Type := list output * result A.

Global Instance Run_ret : MRet Run := λ A a, ([], Ok a).
Global Instance Run_bind : MBind Run := λ A B f m,
  match m with
  | (t, Ok a) => let '(t', r) := f a in (t ++ t', r)
  | (t, Raise e) => (t, Raise e)
  end.

Definition say (o : output) : Run unit := ([o], Ok tt).
Definition from_result {A} (r : result A) : Run A := ([], r).
Definition pipeline {A} (m : M A) : Run A := (ORun <$> m.1, m.2).

(** The files of a run: the workbook pandas opens at a path, or the
    exception it raises, and whether a path can be opened for writing. *)
Record Files := mkFiles {
  open_excel : string → result Workbook;
  writable : string → bool
}.

(** The sheet [process_leje_data] reads: the one named 'Worksheet', and the
    first sheet when that read raises. *)
Definition load_leje (F : Files) (excel_path : string) : result DataFrame :=
  match open_excel F excel_path with
  | Ok wb =>
      match read_sheet (sheets wb) "Worksheet" with
      | Ok df => Ok df
      | Raise _ => Ok (snd (first_sheet wb))
      end
  | Raise e => Raise e
  end.

(** [process_leje_data(excel_path)] and [process_ejer_data(excel_path)]. *)
Definition process_leje_file (F : Files) (L : Lib) (excel_path : string) : Run Leje.Data :=
  df ← from_result (load_leje F excel_path);
  pipeline (Leje.process_leje_data L df).

Definition process_ejer_file (F : Files) (L : Lib) (excel_path : string) : Run Ejer.Data :=
  wb ← from_result (open_excel F excel_path);
  pipeline (Ejer.process_ejer_data L wb).

Definition generate_html (F : Files) (W : Web) (leje_data : Leje.Data)
           (ejer_data : Ejer.Data) (output_path : string) : Run unit :=
  let html := render_html W leje_data ejer_data in
  (if writable F output_path then say (OWrite output_path html)
   else from_result (Raise (LibraryError "open")));;
  say (OGenerated output_path);;
  say (OLejeCount (Leje.total_boliger (Leje.stats leje_data)));;
  say (OEjerCount (Ejer.total_boliger (Ejer.stats ejer_data))).

(** [except KeyError] *)
Definition is_key_error (e : exc) : bool :=
  match e with
  | KeyError_columns _ | KeyError_key _ => true
  | _ => false
  end.

(** The [try] block of [main]. *)
Definition main_body (F : Files) (W : Web) (L : Lib)
           (leje_excel ejer_excel output_html : string) : Run unit :=
  say OReadingLeje;;
  leje_data ← process_leje_file F L leje_excel;
  say OReadingEjer;;
  ejer_data ← process_ejer_file F L ejer_excel;
  say OGenerating;;
  generate_html F W leje_data ejer_data output_html;;
  say ODone.

(** [main] on [sys.argv]: what it does and the exit status of the process. *)
Definition main (F : Files) (W : Web) (L : Lib) (argv : list string) : list output * Z :=
  match argv with
  | [_; leje_excel; ejer_excel; output_html] =>
      match main_body F W L leje_excel ejer_excel output_html with
      | (out, Ok _) => (out, 0)
      | (out, Raise e) =>
          if is_key_error e
          then (out ++ [OColumnNotFound e; OCheckNames], 1)
          else (out ++ [OUnexpected e; OTraceback], 1)
      end
  | _ => ([OUsage], 1)
  end.

(** The files written in the course of a run. *)
Definition written (out : list output) : list (string * string) :=
  omap (λ o, match o with OWrite p c => Some (p, c) | _ => None end) out.

(** The lines that report a failure. *)
Definition failure_report (e : exc) : list output :=
  if is_key_error e then [OColumnNotFound e; OCheckNames]
  else [OUnexpected e; OTraceback].

(** The candidate names of the five required fields of an ownership sheet,
    in the order in which [process_ejer_data] resolves them. *)
Definition ejer_candidates : list (list string) :=
  [ ["Pris"; "Price"; "Salgspris"];
    ["Enhedsareal"; "Areal"; "Area"];
    ["Pris pr. m2 (enhedsareal)"; "Pris pr. m2"; "Pris/m2"];
    ["Handelsnavn"; "Adresse"; "Address"];
    ["Handelsdato"; "Dato"; "Date"] ].

(** A rental sheet without an area column, and without rows. *)
Definition leje_no_area_sheet : DataFrame :=
  {| columns := ["Adresse"; "By"; "Lat"; "Lng"; "Leje/m2"; "Årsleje"; "Liggedage";
                 "Antal værelser"];
     rows := [] |}.

(** The first sheet of the ownership workbook. *)
Definition ejer_demo_sheet : DataFrame := snd (first_sheet ejer_demo_workbook).

(** A page shell with the two placeholders, and JSON texts that show the
    number of listings. *)
Definition demo_web : Web :=
  {| json_leje := λ d, "{total_boliger: " +:+ pretty (Leje.total_boliger (Leje.stats d))
                       +:+ "}";
     json_ejer := λ d, "{total_boliger: " +:+ pretty (Ejer.total_boliger (Ejer.stats d))
                       +:+ "}";
     html_template :=
       "<script>var lejeData = __LEJE_DATA__; var ejerData = __EJER_DATA__;</script>" |}.

(** The same shell, with a rental JSON that holds the text of the ownership
    placeholder. *)
Definition demo_web_clash : Web :=
  {| json_leje := λ _, "[__EJER_DATA__]";
     json_ejer := json_ejer demo_web;
     html_template := html_template demo_web |}.

Definition leje_demo_data : Leje.Data :=
  {| Leje.stats := {| Leje.total_boliger := 2; Leje.gns_leje_m2 := 1500;
                      Leje.gns_areal := 73; Leje.gns_leje := 9166;
                      Leje.median_leje := 9166; Leje.center_lat := Fnum (dec 5569 2);
                      Leje.center_lng := Fnum (dec 1255 2);
                      Leje.vaerelser_data := [(3, 2%nat)];
                      Leje.by_data := [("København N", 1%nat); ("København S", 1%nat)] |};
     Leje.boliger := [];
     Leje.scatter_img := "3"; Leje.heatmap_img := "3"; Leje.table_img := "3" |}.

Definition ejer_demo_data : Ejer.Data :=
  {| Ejer.stats := {| Ejer.total_boliger := 1; Ejer.gns_pris_m2 := 40540;
                      Ejer.gns_areal := 74; Ejer.gns_pris := 3000000;
                      Ejer.median_pris := 3000000; Ejer.center_lat := Fnum (dec 5569 2);
                      Ejer.center_lng := Fnum (dec 1255 2);
                      Ejer.vaerelser_data := [(3, 1%nat)];
                      Ejer.by_data := [("København N", 1%nat)] |};
     Ejer.boliger := [];
     Ejer.scatter_img := "2"; Ejer.heatmap_img := "2"; Ejer.table_img := "2" |}.

(** Files: a rental workbook whose sheet has no area column at 'leje.xlsx',
    the ownership workbook at 'ejer.xlsx', nothing elsewhere; every path can
    be written. *)
Definition demo_files : Files :=
  {| open_excel := λ path,
       if decide (path = "leje.xlsx")
       then Ok {| first_sheet := ("Ark1", leje_no_area_sheet); other_sheets := [] |}
       else if decide (path = "ejer.xlsx") then Ok ejer_demo_workbook
       else Raise (LibraryError "FileNotFoundError");
     writable := λ _, true |}.

(** An ownership workbook of one sheet without a date column, and without
    rows. *)
Definition ejer_no_date_workbook : Workbook :=
  {| first_sheet :=
       ("Stamdata",
        {| columns := ["Handelsnavn"; "Pris"; "Enhedsareal"; "Pris pr. m2 (enhedsareal)"];
           rows := [] |});
     other_sheets := [] |}.

(** * Properties *)

(** ** Column resolver *)

Lemma first_present_Some cols names name :
  first_present cols names = Some name ↔
  ∃ earlier later, names = earlier ++ name :: later ∧
                   Forall (λ n, n ∉ cols) earlier ∧ name ∈ cols.
Proof.
  induction names as [|n names IH]; simpl.
  - split; [done|]. intros (e & l & H & _). by destruct e.
  - case_bool_decide as Hn.
    + split.
      * intros [= ->]. exists [], names. by repeat split.
      * intros (e & l & H & Hall & Hin). destruct e as [|x e]; simpl in H.
        -- by inversion H.
        -- inversion H; subst. by inversion Hall.
    + rewrite IH. split.
      * intros (e & l & -> & Hall & Hin). exists (n :: e), l. repeat split; auto.
      * intros (e & l & H & Hall & Hin). destruct e as [|x e]; simpl in H.
        -- inversion H; subst. done.
        -- inversion H; subst. inversion Hall; subst. by exists e, l.
Qed.

Lemma first_present_None cols names :
  first_present cols names = None ↔ Forall (λ n, n ∉ cols) names.
Proof.
  induction names as [|n names IH]; simpl.
  - split; auto.
  - case_bool_decide as Hn.
    + split; [done|]. intros H. by inversion H.
    + rewrite IH. split; [by constructor|]. intros H. by inversion H.
Qed.

Lemma first_present_is_Some cols names :
  (∃ name, name ∈ names ∧ name ∈ cols) → is_Some (first_present cols names).
Proof.
  intros (name & Hn & Hc).
  destruct (first_present cols names) eqn:E; [by eexists|].
  apply first_present_None in E. rewrite Forall_forall in E.
  by destruct (E name Hn).
Qed.

Lemma for_each_print {A} (f : A → message) (l : list A) :
  for_each (λ x, print (f x)) l = ((λ x, EPrint (f x)) <$> l, Ok tt).
Proof.
  induction l as [|x l IH]; [done|].
  simpl. rewrite IH. reflexivity.
Qed.

Lemma reported_columns_lines (cols : list string) :
  reported_columns (imap (λ i col, EPrint (MsgColumn (S i) col)) cols) = cols.
Proof.
  unfold reported_columns.
  change (λ i col, EPrint (MsgColumn (S i) col))
    with ((λ i col, EPrint (MsgColumn i col)) ∘ S).
  generalize S as g. induction cols as [|c cols IH]; intros g; [done|].
  simpl. f_equal. apply (IH (g ∘ S)).
Qed.

(** C4: when at least one candidate is a column of the table, [find_column]
    returns, without printing anything, the first candidate in list order that
    is a column: every candidate before it is absent from the table. *)
Theorem find_column_first_present (df : DataFrame) (possible_names : list string) :
  (∃ name, name ∈ possible_names ∧ name ∈ columns df) →
  ∃ earlier name later,
    possible_names = earlier ++ name :: later ∧
    Forall (λ n, n ∉ columns df) earlier ∧
    name ∈ columns df ∧
    find_column df possible_names = ([], Ok name).
Proof.
  intros H. destruct (first_present_is_Some _ _ H) as [name E].
  destruct (proj1 (first_present_Some _ _ _) E) as (earlier & later & -> & Hall & Hin).
  exists earlier, name, later. repeat split; auto.
  unfold find_column. by rewrite E.
Qed.

Lemma find_column_first_present_witness :
  find_column (mkDF ["Leje pr. m2"] []) ["Leje/m2"; "Leje pr. m2"]
  = ([], Ok "Leje pr. m2").
Proof.
  destruct (find_column_first_present (mkDF ["Leje pr. m2"] []) ["Leje/m2"; "Leje pr. m2"])
    as (earlier & name & later & _ & _ & Hin & Hrun).
  - exists "Leje pr. m2". split; by apply (bool_decide_unpack _).
  - simpl in Hin. apply list_elem_of_singleton in Hin. by rewrite Hrun, Hin.
Defined.

(** C3 (amended): when no candidate is a column of the table, [find_column]
    raises a KeyError whose message carries the candidate list, and only it;
    the columns of the table are printed before the raise, one numbered line
    per column, in the order of the table. *)
Theorem find_column_not_found (df : DataFrame) (possible_names : list string) :
  Forall (λ n, n ∉ columns df) possible_names →
  ∃ trace,
    find_column df possible_names = (trace, Raise (KeyError_columns possible_names)) ∧
    trace = EPrint (MsgColumnsNotFound possible_names) :: EPrint MsgAvailableColumns
            :: imap (λ i col, EPrint (MsgColumn (S i) col)) (columns df)
            ++ [EPrint MsgTip] ∧
    reported_columns trace = columns df.
Proof.
  intros H. apply first_present_None in H.
  eexists. split; [|split; [reflexivity|]].
  - unfold find_column. rewrite H.
    rewrite (for_each_print (λ ic, MsgColumn ic.1 ic.2)).
    cbn. rewrite fmap_imap. reflexivity.
  - unfold reported_columns. cbn. rewrite omap_app. cbn. rewrite app_nil_r.
    apply reported_columns_lines.
Qed.

Lemma find_column_not_found_witness :
  ∃ trace,
    find_column (mkDF ["A"; "B"] []) ["X"] = (trace, Raise (KeyError_columns ["X"])) ∧
    reported_columns trace = ["A"; "B"].
Proof.
  destruct (find_column_not_found (mkDF ["A"; "B"] []) ["X"]) as (trace & Hrun & _ & Hcols).
  - repeat constructor. by apply (bool_decide_unpack _).
  - exists trace. by split.
Defined.

(** C3 (as stated) fails: two tables with different columns give the same
    exception, so the exception does not carry the columns of the table. *)
Lemma find_column_error_omits_columns :
  snd (find_column (mkDF ["A"] []) ["X"]) = Raise (KeyError_columns ["X"]) ∧
  snd (find_column (mkDF ["B"] []) ["X"]) = Raise (KeyError_columns ["X"]) ∧
  columns (mkDF ["A"] []) ≠ columns (mkDF ["B"] []).
Proof. repeat split. discriminate. Qed.

(** ** Room estimate *)

Lemma this_qz (z : Z) : (this (qz z) == inject_Z z)%Q.
Proof. unfold qz. simpl. apply Qred_correct. Qed.

(** Order facts between rationals and whole-number constants, over [Q]. *)
Ltac qc_order :=
  unfold Qclt, Qcle in *; rewrite ?this_qz in *; unfold inject_Z in *; lra.

Lemma estimate_rooms_cases (a : Qc) :
  ((a < qz 50)%Qc ∧ estimate_rooms (CNum a) = Ok 2) ∨
  ((qz 50 ≤ a)%Qc ∧ (a < qz 75)%Qc ∧ estimate_rooms (CNum a) = Ok 3) ∨
  ((qz 75 ≤ a)%Qc ∧ (a < qz 100)%Qc ∧ estimate_rooms (CNum a) = Ok 4) ∨
  ((qz 100 ≤ a)%Qc ∧ (a < qz 125)%Qc ∧ estimate_rooms (CNum a) = Ok 5) ∨
  ((qz 125 ≤ a)%Qc ∧ estimate_rooms (CNum a) = Ok 6).
Proof.
  unfold estimate_rooms.
  destruct (Qclt_le_dec a (qz 50)); [by left|].
  destruct (Qclt_le_dec a (qz 75)); [by right; left|].
  destruct (Qclt_le_dec a (qz 100)); [by right; right; left|].
  destruct (Qclt_le_dec a (qz 125)); [by right; right; right; left|].
  by right; right; right; right.
Qed.

(** The local function [estimate_rooms] on a number: the step function
    2 below 50, 3 below 75, 4 below 100, 5 below 125 and 6 from 125 on; it
    never decreases when the area grows, and it takes the stated values at
    the boundaries. *)
Lemma estimate_rooms_steps :
  (∀ a : Qc, (a < qz 50)%Qc → estimate_rooms (CNum a) = Ok 2) ∧
  (∀ a : Qc, (qz 50 ≤ a)%Qc → (a < qz 75)%Qc → estimate_rooms (CNum a) = Ok 3) ∧
  (∀ a : Qc, (qz 75 ≤ a)%Qc → (a < qz 100)%Qc → estimate_rooms (CNum a) = Ok 4) ∧
  (∀ a : Qc, (qz 100 ≤ a)%Qc → (a < qz 125)%Qc → estimate_rooms (CNum a) = Ok 5) ∧
  (∀ a : Qc, (qz 125 ≤ a)%Qc → estimate_rooms (CNum a) = Ok 6) ∧
  (∀ (a b : Qc) (ra rb : Z),
      (a ≤ b)%Qc → estimate_rooms (CNum a) = Ok ra → estimate_rooms (CNum b) = Ok rb →
      ra ≤ rb) ∧
  estimate_rooms (CNum (qz 49)) = Ok 2 ∧
  estimate_rooms (CNum (qz 50)) = Ok 3 ∧
  estimate_rooms (CNum (qz 74)) = Ok 3 ∧
  estimate_rooms (CNum (qz 75)) = Ok 4 ∧
  estimate_rooms (CNum (qz 99)) = Ok 4 ∧
  estimate_rooms (CNum (qz 100)) = Ok 5 ∧
  estimate_rooms (CNum (qz 124)) = Ok 5 ∧
  estimate_rooms (CNum (qz 125)) = Ok 6.
Proof.
  repeat split; try (vm_compute; reflexivity).
  - intros a H. destruct (estimate_rooms_cases a) as [[? E]|[(?&?&E)|[(?&?&E)|[(?&?&E)|[? E]]]]];
      first [exact E | exfalso; qc_order].
  - intros a H1 H2. destruct (estimate_rooms_cases a) as [[? E]|[(?&?&E)|[(?&?&E)|[(?&?&E)|[? E]]]]];
      first [exact E | exfalso; qc_order].
  - intros a H1 H2. destruct (estimate_rooms_cases a) as [[? E]|[(?&?&E)|[(?&?&E)|[(?&?&E)|[? E]]]]];
      first [exact E | exfalso; qc_order].
  - intros a H1 H2. destruct (estimate_rooms_cases a) as [[? E]|[(?&?&E)|[(?&?&E)|[(?&?&E)|[? E]]]]];
      first [exact E | exfalso; qc_order].
  - intros a H. destruct (estimate_rooms_cases a) as [[? E]|[(?&?&E)|[(?&?&E)|[(?&?&E)|[? E]]]]];
      first [exact E | exfalso; qc_order].
  - intros a b ra rb Hab Ha Hb.
    destruct (estimate_rooms_cases a) as [[? Ea]|[(?&?&Ea)|[(?&?&Ea)|[(?&?&Ea)|[? Ea]]]]];
    destruct (estimate_rooms_cases b) as [[? Eb]|[(?&?&Eb)|[(?&?&Eb)|[(?&?&Eb)|[? Eb]]]]];
      rewrite Ea in Ha; rewrite Eb in Hb; injection Ha as <-; injection Hb as <-;
      first [lia | exfalso; qc_order].
Qed.

(** ** Geocoding *)

Lemma app_String (a : ascii) (s t : string) : String a s +:+ t = String a (s +:+ t).
Proof. reflexivity. Qed.

Lemma app_Empty (t : string) : EmptyString +:+ t = t.
Proof. reflexivity. Qed.

Lemma prefix_spec (s1 s2 : string) :
  String.prefix s1 s2 = true ↔ ∃ post, s2 = s1 +:+ post.
Proof.
  revert s2. induction s1 as [|a s1 IH]; intros s2.
  - destruct s2; (split; [intros _; by eexists|done]).
  - destruct s2 as [|b s2].
    + split; [done|]. intros [post H]. by rewrite app_String in H.
    + change (String.prefix (String a s1) (String b s2))
        with (if Ascii.ascii_dec a b then String.prefix s1 s2 else false).
      destruct (Ascii.ascii_dec a b) as [->|Hne].
      * rewrite IH. split; intros [post H]; exists post;
          rewrite app_String in *; congruence.
      * split; [done|]. intros [post H]. rewrite app_String in H. congruence.
Qed.

Lemma contains_spec (needle hay : string) :
  PyStr.contains needle hay = true ↔ is_substring needle hay.
Proof.
  unfold is_substring. induction hay as [|c hay IH].
  - change (PyStr.contains needle EmptyString)
      with (String.prefix needle EmptyString || false).
    rewrite orb_false_r, prefix_spec. split.
    + intros [post H]. by exists EmptyString, post.
    + intros (pre & post & H). destruct pre as [|c' pre].
      * by exists post.
      * by rewrite app_String in H.
  - change (PyStr.contains needle (String c hay))
      with (String.prefix needle (String c hay) || PyStr.contains needle hay).
    rewrite orb_true_iff, prefix_spec, IH. split.
    + intros [[post H]|(pre & post & H)].
      * by exists EmptyString, post.
      * exists (String c pre), post. rewrite app_String. by rewrite H.
    + intros (pre & post & H). destruct pre as [|c' pre].
      * left. by exists post.
      * right. exists pre, post. rewrite app_String in H. congruence.
Qed.

Lemma contains_false (needle hay : string) :
  PyStr.contains needle hay = false → ¬ is_substring needle hay.
Proof. intros H Hs. apply contains_spec in Hs. congruence. Qed.

Section Geocode.
Context (L : Lib).

Lemma geocode_loop_first table address pre k c post :
  table = pre ++ (k, c) :: post →
  Forall (λ e, ¬ entry_matches L address e) pre →
  entry_matches L address (k, c) →
  geocode_loop L table address = Some c.
Proof.
  intros -> Hpre Hk. induction Hpre as [|[k' c'] pre Hn _ IH]; simpl.
  - apply contains_spec in Hk. simpl in Hk. by rewrite Hk.
  - destruct (PyStr.contains _ _) eqn:E; [|exact IH].
    apply contains_spec in E. by destruct Hn.
Qed.

Lemma geocode_loop_none table address :
  Forall (λ e, ¬ entry_matches L address e) table →
  geocode_loop L table address = None.
Proof.
  induction 1 as [|[k c] table Hn _ IH]; simpl; [done|].
  destruct (PyStr.contains _ _) eqn:E; [|exact IH].
  apply contains_spec in E. by destruct Hn.
Qed.

End Geocode.

(** C6: for a string address, [geocode_address] returns the coordinates of the
    first entry of the table, in declaration order, whose key occurs in the
    address when both are lower-cased, and the fallback (55.6761, 12.5683)
    when no entry matches. *)
Theorem geocode_address_first_match (L : Lib) (address : string) :
  (∀ pre k c post,
      known_addresses = pre ++ (k, c) :: post →
      Forall (λ e, ¬ entry_matches L address e) pre →
      entry_matches L address (k, c) →
      geocode_address L (CStr address) = Ok c) ∧
  (Forall (λ e, ¬ entry_matches L address e) known_addresses →
      geocode_address L (CStr address) = Ok fallback_coords) ∧
  fallback_coords = (dec 556761 4, dec 125683 4) ∧
  geocode_address plain_lib (CStr "Griffenfeldsgade 4B, 2200 København N")
    = Ok (dec 5568953163 8, dec 1255545457 8) ∧
  geocode_address plain_lib (CStr "Unknown Street 99") = Ok fallback_coords.
Proof.
  repeat split; try (vm_compute; reflexivity).
  - intros pre k c post Htab Hpre Hk. unfold geocode_address.
    by rewrite (geocode_loop_first L _ _ _ _ _ _ Htab Hpre Hk).
  - intros Hall. unfold geocode_address. by rewrite (geocode_loop_none L _ _ Hall).
Qed.

Lemma geocode_address_first_match_witness :
  geocode_address plain_lib (CStr "RÅDMANDSGADE 36, 2200 København N")
  = Ok (dec 5569987455 8, dec 1255113735 8).
Proof.
  apply (proj1 (geocode_address_first_match plain_lib "RÅDMANDSGADE 36, 2200 København N"))
    with (pre := take 2 known_addresses) (k := "Rådmandsgade 36")
         (post := drop 3 known_addresses).
  - reflexivity.
  - repeat constructor; apply contains_false; vm_compute; reflexivity.
  - apply contains_spec. vm_compute. reflexivity.
Defined.

(** ** City name *)

Lemma no_comma_String (c : ascii) (s : string) :
  no_comma (String c s) → c ≠ ","%char ∧ no_comma s.
Proof.
  intros H. split.
  - intros ->. by apply (H EmptyString s).
  - intros pre post ->. by apply (H (String c pre) post).
Qed.

Lemma split_comma_no_comma (s : string) :
  no_comma s → PyStr.split_comma s = [s].
Proof.
  induction s as [|c s IH]; intros H; [done|].
  apply no_comma_String in H as [Hc Hs]. simpl.
  apply Ascii.eqb_neq in Hc. rewrite Hc. by rewrite (IH Hs).
Qed.

Lemma split_comma_last (pre seg : string) :
  no_comma seg →
  ∃ p parts, PyStr.split_comma (pre +:+ "," +:+ seg) = p :: parts ++ [seg].
Proof.
  intros Hseg. induction pre as [|c pre (p & parts & IH)].
  - exists EmptyString, []. rewrite app_Empty, app_String, app_Empty. simpl.
    by rewrite (split_comma_no_comma _ Hseg).
  - rewrite app_String. simpl. rewrite IH. destruct (Ascii.eqb c ",").
    + by exists EmptyString, (p :: parts).
    + by exists (String c p), parts.
Qed.

Lemma comma_dichotomy (s : string) :
  no_comma s ∨ ∃ pre seg, s = pre +:+ "," +:+ seg ∧ no_comma seg.
Proof.
  induction s as [|c s [IH|(pre & seg & -> & Hseg)]].
  - left. intros pre post H. destruct pre; by rewrite ?app_String, ?app_Empty in H.
  - destruct (Ascii.ascii_dec c ",") as [->|Hc].
    + right. by exists EmptyString, s.
    + left. intros pre post H. destruct pre as [|c' pre].
      * rewrite app_Empty, app_String in H. congruence.
      * rewrite app_String in H. inversion H; subst. by apply (IH pre post).
  - right. by exists (String c pre), seg.
Qed.

Lemma parse_city_no_comma (s : string) :
  no_comma s → parse_city_from_handelsnavn (CStr s) = Ok Ukendt.
Proof.
  intros H. unfold parse_city_from_handelsnavn. by rewrite (split_comma_no_comma _ H).
Qed.

Lemma parse_city_after_last_comma (pre seg : string) :
  no_comma seg →
  parse_city_from_handelsnavn (CStr (pre +:+ "," +:+ seg)) =
    Ok (if decide (length (city_words seg) ≤ 1)%nat then Ukendt
        else PyStr.join_space (tail (city_words seg))).
Proof.
  intros H. destruct (split_comma_last pre seg H) as (p & parts & E).
  unfold parse_city_from_handelsnavn. rewrite E.
  replace (2 <=? length (p :: parts ++ [seg]))%nat with true
    by (symmetry; apply Nat.leb_le; rewrite length_cons, length_app; simpl; lia).
  replace (PyStr.last_part (p :: parts ++ [seg])) with seg
    by (unfold PyStr.last_part; rewrite app_comm_cons; by rewrite List.last_last).
  fold (city_words seg).
  destruct (decide _) as [Hle|Hgt].
  - by replace (1 <? length (city_words seg))%nat with false
      by (symmetry; apply Nat.ltb_ge; lia).
  - by replace (1 <? length (city_words seg))%nat with true
      by (symmetry; apply Nat.ltb_lt; lia).
Qed.

Lemma no_comma_by_split (s : string) :
  PyStr.split_comma s = [s] → no_comma s.
Proof.
  intros H pre post ->.
  destruct (comma_dichotomy post) as [Hp|(pre' & seg & -> & Hseg)].
  - destruct (split_comma_last pre post Hp) as (p & parts & E).
    rewrite E in H. destruct parts; discriminate.
  - assert (E : pre +:+ "," +:+ pre' +:+ "," +:+ seg
                = (pre +:+ "," +:+ pre') +:+ "," +:+ seg).
    { clear. induction pre as [|c pre IH]; [reflexivity|].
      rewrite 2!(app_String c pre), (app_String c (pre +:+ "," +:+ pre')).
      by rewrite IH. }
    rewrite E in H.
    destruct (split_comma_last (pre +:+ "," +:+ pre') seg Hseg) as (p & parts & E').
    rewrite E' in H. destruct parts; discriminate.
Qed.

(** ** Trade names of the documented shape *)

Ltac rewrite_false :=
  repeat match goal with Hx : _ = false |- _ => rewrite Hx; simpl end.

Lemma ws_len_plain (c : ascii) (r : string) :
  plain_byte c = true → PyStr.ws_len (String c r) = 0%nat.
Proof.
  unfold plain_byte, PyStr.ws_len. cbv zeta. intros H.
  apply negb_true_iff in H. repeat (apply orb_false_iff in H as [H ?]).
  rewrite_false. destruct r as [|b r]; [done|]. rewrite_false.
  destruct r as [|c' r]; [done|]. by rewrite_false.
Qed.

Lemma ws_len_space (r : string) : PyStr.ws_len (String " " r) = 1%nat.
Proof. reflexivity. Qed.

Lemma split_aux_space (r : string) :
  PyStr.split_aux 0 (String " " r) = (None, PyStr.push (PyStr.split_aux 0 r)).
Proof. reflexivity. Qed.

Lemma split_aux_plain (c : ascii) (r : string) :
  plain_byte c = true →
  PyStr.split_aux 0 (String c r) =
    match PyStr.split_aux 0 r with
    | (Some t, ws) => (Some (String c t), ws)
    | (None, ws) => (Some (String c EmptyString), ws)
    end.
Proof.
  intros H. change (PyStr.split_aux 0 (String c r)) with
    (match PyStr.ws_len (String c r) with
     | S k => (None, PyStr.push (PyStr.split_aux k r))
     | O => match PyStr.split_aux 0 r with
            | (Some t, ws) => (Some (String c t), ws)
            | (None, ws) => (Some (String c EmptyString), ws)
            end
     end).
  by rewrite (ws_len_plain c r H).
Qed.

Lemma split_aux_word (w r : string) :
  plain_word w = true →
  PyStr.split_aux 0 (w +:+ String " " r)
  = (Some w, PyStr.push (PyStr.split_aux 0 r)).
Proof.
  destruct w as [|c w]; [done|]. unfold plain_word. revert c.
  induction w as [|c' w IH]; intros c [Hc Hw]%andb_true_iff.
  - rewrite app_String, app_Empty, (split_aux_plain _ _ Hc), split_aux_space. done.
  - rewrite app_String, (split_aux_plain _ _ Hc), (IH c' Hw). done.
Qed.

Lemma split_aux_word_end (w : string) :
  plain_word w = true → PyStr.split_aux 0 w = (Some w, []).
Proof.
  destruct w as [|c w]; [done|]. unfold plain_word. revert c.
  induction w as [|c' w IH]; intros c [Hc Hw]%andb_true_iff.
  - by rewrite (split_aux_plain _ _ Hc).
  - by rewrite (split_aux_plain _ _ Hc), (IH c' Hw).
Qed.

Lemma join_space_cons (w w' : string) (ws : list string) :
  PyStr.join_space (w :: w' :: ws) = w +:+ String " " (PyStr.join_space (w' :: ws)).
Proof. reflexivity. Qed.

(** Splitting the joined words gives the words back. *)
Lemma split_join_space (ws : list string) :
  Forall (λ w, plain_word w = true) ws → PyStr.split (PyStr.join_space ws) = ws.
Proof.
  unfold PyStr.split. induction 1 as [|w ws Hw Hws IH]; [done|].
  destruct ws as [|w' ws].
  - change (PyStr.join_space [w]) with w. by rewrite (split_aux_word_end w Hw).
  - rewrite join_space_cons, (split_aux_word _ _ Hw).
    cbn [PyStr.push]. by rewrite IH.
Qed.

Lemma lstrip_plain (c : ascii) (r : string) :
  plain_byte c = true → PyStr.lstrip_aux 0 (String c r) = String c r.
Proof.
  intros H. change (PyStr.lstrip_aux 0 (String c r)) with
    (match PyStr.ws_len (String c r) with
     | O => String c r
     | S k => PyStr.lstrip_aux k r
     end).
  by rewrite (ws_len_plain c r H).
Qed.

Lemma all_ws_plain (c : ascii) (r : string) :
  plain_byte c = true → PyStr.all_ws_aux 0 (String c r) = false.
Proof.
  intros H. change (PyStr.all_ws_aux 0 (String c r)) with
    (match PyStr.ws_len (String c r) with
     | O => false
     | S k => PyStr.all_ws_aux k r
     end).
  by rewrite (ws_len_plain c r H).
Qed.

Lemma rstrip_plain (c : ascii) (r : string) :
  plain_byte c = true → PyStr.rstrip (String c r) = String c (PyStr.rstrip r).
Proof.
  intros H. change (PyStr.rstrip (String c r)) with
    (if PyStr.all_ws_aux 0 (String c r) then EmptyString else String c (PyStr.rstrip r)).
  by rewrite (all_ws_plain c r H).
Qed.

Lemma rstrip_word (w rest : string) :
  all_plain w = true → PyStr.rstrip (w +:+ rest) = w +:+ PyStr.rstrip rest.
Proof.
  induction w as [|c w IH]; [done|]. intros [Hc Hw]%andb_true_iff.
  by rewrite !app_String, (rstrip_plain _ _ Hc), (IH Hw).
Qed.

Lemma app_Empty_r (s : string) : s +:+ EmptyString = s.
Proof. induction s as [|c s IH]; [done|]. by rewrite app_String, IH. Qed.

Lemma plain_word_all_plain (w : string) : plain_word w = true → all_plain w = true.
Proof. by destruct w. Qed.

Lemma join_space_starts (c : ascii) (w : string) (ws : list string) :
  ∃ r, PyStr.join_space (String c w :: ws) = String c r.
Proof.
  destruct ws as [|w' ws]; [by exists w|].
  exists (w +:+ String " " (PyStr.join_space (w' :: ws))).
  by rewrite join_space_cons, app_String.
Qed.

Lemma rstrip_join_space (ws : list string) :
  Forall (λ w, plain_word w = true) ws →
  PyStr.rstrip (PyStr.join_space ws) = PyStr.join_space ws.
Proof.
  induction 1 as [|w ws Hw Hws IH]; [done|].
  destruct ws as [|w' ws].
  - change (PyStr.join_space [w]) with w.
    rewrite <- (app_Empty_r w) at 1.
    rewrite (rstrip_word _ _ (plain_word_all_plain _ Hw)). apply app_Empty_r.
  - rewrite join_space_cons, (rstrip_word _ _ (plain_word_all_plain _ Hw)). f_equal.
    change (PyStr.rstrip (String " " (PyStr.join_space (w' :: ws)))) with
      (if PyStr.all_ws_aux 0 (PyStr.join_space (w' :: ws)) then EmptyString
       else String " " (PyStr.rstrip (PyStr.join_space (w' :: ws)))).
    rewrite IH.
    apply Forall_cons in Hws as [Hw' _]. destruct w' as [|c w']; [done|].
    apply andb_true_iff in Hw' as [Hc _].
    destruct (join_space_starts c w' ws) as [r ->].
    by rewrite (all_ws_plain _ _ Hc).
Qed.

Lemma strip_space_join (ws : list string) :
  Forall (λ w, plain_word w = true) ws →
  PyStr.strip (String " " (PyStr.join_space ws)) = PyStr.join_space ws.
Proof.
  intros H. unfold PyStr.strip.
  change (PyStr.lstrip_aux 0 (String " " (PyStr.join_space ws)))
    with (PyStr.lstrip_aux 0 (PyStr.join_space ws)).
  assert (E : PyStr.lstrip_aux 0 (PyStr.join_space ws) = PyStr.join_space ws).
  { destruct H as [|w ws Hw Hws]; [done|]. destruct w as [|c w]; [done|].
    apply andb_true_iff in Hw as [Hc _].
    destruct (join_space_starts c w ws) as [r ->].
    by rewrite (lstrip_plain _ _ Hc). }
  rewrite E. by apply rstrip_join_space.
Qed.

Lemma plain_byte_not_comma (c : ascii) : plain_byte c = true → Ascii.eqb c "," = false.
Proof.
  intros H. apply Ascii.eqb_neq. intros ->. done.
Qed.

Lemma split_comma_word (w rest : string) :
  all_plain w = true → PyStr.split_comma rest = [rest] →
  PyStr.split_comma (w +:+ rest) = [w +:+ rest].
Proof.
  intros Hw Hr. induction w as [|c w IH]; [done|].
  apply andb_true_iff in Hw as [Hc Hw]. rewrite app_String. simpl.
  by rewrite (plain_byte_not_comma _ Hc), (IH Hw).
Qed.

Lemma split_comma_join_space (ws : list string) :
  Forall (λ w, plain_word w = true) ws →
  PyStr.split_comma (PyStr.join_space ws) = [PyStr.join_space ws].
Proof.
  induction 1 as [|w ws Hw Hws IH]; [done|].
  destruct ws as [|w' ws].
  - change (PyStr.join_space [w]) with w. rewrite <- (app_Empty_r w).
    by apply split_comma_word; [apply plain_word_all_plain|].
  - rewrite join_space_cons. apply split_comma_word; [by apply plain_word_all_plain|].
    simpl. by rewrite IH.
Qed.

(** A trade name of the shape "<address>, <postal code> <city words>". *)
Lemma parse_city_documented_shape (addr postal : string) (city : list string) :
  plain_word postal = true → Forall (λ w, plain_word w = true) city →
  parse_city_from_handelsnavn
    (CStr (addr +:+ ", " +:+ PyStr.join_space (postal :: city)))
  = Ok (match city with [] => Ukendt | _ => PyStr.join_space city end).
Proof.
  intros Hp Hc.
  assert (Hall : Forall (λ w, plain_word w = true) (postal :: city)) by by constructor.
  change (addr +:+ ", " +:+ PyStr.join_space (postal :: city))
    with (addr +:+ "," +:+ String " " (PyStr.join_space (postal :: city))).
  rewrite parse_city_after_last_comma.
  - unfold city_words. rewrite (strip_space_join _ Hall), (split_join_space _ Hall).
    by destruct city.
  - apply no_comma_by_split. simpl. by rewrite (split_comma_join_space _ Hall).
Qed.

(** C5 (amended): a missing trade name gives the sentinel "Ukendt"; a number
    raises AttributeError; a text without comma gives the sentinel; a text
    with a comma gives the words after the first one of the (stripped) segment
    that follows its last comma, joined by single spaces, and the sentinel
    when that segment has at most one word.  The sentinel is therefore
    returned exactly when the input is missing, has no comma, has at most one
    word after the last comma, or when the joined words spell "Ukendt".  For
    a trade name of the shape "<address>, <postal code> <city words>" the
    result is the city words joined by single spaces. *)
Theorem parse_city_from_handelsnavn_spec :
  parse_city_from_handelsnavn CNaN = Ok Ukendt ∧
  (∀ q, parse_city_from_handelsnavn (CNum q) = Raise AttributeError) ∧
  (∀ s, no_comma s → parse_city_from_handelsnavn (CStr s) = Ok Ukendt) ∧
  (∀ pre seg, no_comma seg →
     parse_city_from_handelsnavn (CStr (pre +:+ "," +:+ seg)) =
       Ok (if decide (length (city_words seg) ≤ 1)%nat then Ukendt
           else PyStr.join_space (tail (city_words seg)))) ∧
  (∀ c, parse_city_from_handelsnavn c = Ok Ukendt ↔
     c = CNaN ∨
     (∃ s, c = CStr s ∧ no_comma s) ∨
     (∃ pre seg, c = CStr (pre +:+ "," +:+ seg) ∧ no_comma seg ∧
        ((length (city_words seg) ≤ 1)%nat ∨
         PyStr.join_space (tail (city_words seg)) = Ukendt))) ∧
  (∀ addr postal city,
     plain_word postal = true → Forall (λ w, plain_word w = true) city →
     parse_city_from_handelsnavn
       (CStr (addr +:+ ", " +:+ PyStr.join_space (postal :: city)))
     = Ok (match city with [] => Ukendt | _ => PyStr.join_space city end)) ∧
  Ukendt = "Ukendt" ∧
  parse_city_from_handelsnavn (CStr "Griffenfeldsgade 4B, 2200 København N")
    = Ok "København N" ∧
  parse_city_from_handelsnavn (CStr "SingleTokenOnly") = Ok "Ukendt" ∧
  parse_city_from_handelsnavn (CStr "") = Ok "Ukendt".
Proof.
  split; [done|]. split; [done|].
  split; [exact parse_city_no_comma|].
  split; [exact parse_city_after_last_comma|].
  split; [|split; [exact parse_city_documented_shape|by repeat split]].
  intros c. split.
  - destruct c as [s|q|]; [|done|by left].
    intros H. right. destruct (comma_dichotomy s) as [Hs|(pre & seg & -> & Hseg)].
    + left. by exists s.
    + right. exists pre, seg. repeat split; auto.
      rewrite (parse_city_after_last_comma _ _ Hseg) in H.
      destruct (decide _); [by left|right; congruence].
  - intros [->|[(s & -> & Hs)|(pre & seg & -> & Hseg & Hw)]]; [done| |].
    + by apply parse_city_no_comma.
    + rewrite (parse_city_after_last_comma _ _ Hseg).
      destruct (decide _); [done|]. destruct Hw; [lia|congruence].
Qed.

Lemma parse_city_from_handelsnavn_spec_witness :
  parse_city_from_handelsnavn (CStr "Rådmandsgade 34, 2200  København N ")
    = Ok "København N" ∧
  parse_city_from_handelsnavn (CStr "Holger Danskes Vej 32, 2000 Frederiksberg C")
    = Ok "Frederiksberg C".
Proof.
  destruct parse_city_from_handelsnavn_spec as (_ & _ & _ & H & _ & Hshape & _).
  split.
  - apply (H "Rådmandsgade 34" " 2200  København N ").
    by apply no_comma_by_split.
  - apply (Hshape "Holger Danskes Vej 32" "2000" ["Frederiksberg"; "C"]).
    + reflexivity.
    + by repeat constructor.
Defined.

(** C5 (as stated) fails: the sentinel is "Ukendt", not "Unknown"; it is also
    returned for a text with two parts and two words after the comma, when
    the city word is "Ukendt"; and a number raises instead of returning. *)
Lemma parse_city_sentinel_counterexample :
  parse_city_from_handelsnavn (CStr "SingleTokenOnly") ≠ Ok "Unknown" ∧
  (length (PyStr.split_comma "Torvet 1, 8000 Ukendt") = 2%nat ∧
   length (city_words " 8000 Ukendt") = 2%nat ∧
   parse_city_from_handelsnavn (CStr "Torvet 1, 8000 Ukendt")
     = parse_city_from_handelsnavn (CStr "SingleTokenOnly")) ∧
  parse_city_from_handelsnavn (CNum (qz 2200)) = Raise AttributeError.
Proof. repeat split. discriminate. Qed.

(** ** Runs and their traces *)

Lemma M_bind_Ok {A B} (t : list event) (a : A) (f : A → M B) :
  ((t, Ok a) : M A) ≫= f = (t ++ (f a).1, (f a).2).
Proof. unfold mbind, M_bind. by destruct (f a). Qed.

Lemma M_bind_Raise {A B} (t : list event) (e : exc) (f : A → M B) :
  ((t, Raise e) : M A) ≫= f = (t, Raise e).
Proof. reflexivity. Qed.

Lemma rendered_tables_app (t1 t2 : list event) :
  rendered_tables (t1 ++ t2) = rendered_tables t1 ++ rendered_tables t2.
Proof. apply omap_app. Qed.

Lemma render_calls_app (t1 t2 : list event) :
  render_calls (t1 ++ t2) = render_calls t1 ++ render_calls t2.
Proof. apply omap_app. Qed.

Lemma no_render_tables (t : list event) : no_render t → rendered_tables t = [].
Proof.
  induction 1 as [|[m|c md df] t H _ IH]; [done| |done]. exact IH.
Qed.

Lemma no_render_calls (t : list event) : no_render t → render_calls t = [].
Proof.
  induction 1 as [|[m|c md df] t H _ IH]; [done| |done]. exact IH.
Qed.

Lemma no_render_bind {A B} (m : M A) (f : A → M B) :
  no_render m.1 → (∀ a, no_render (f a).1) → no_render (m ≫= f).1.
Proof.
  destruct m as [t [a|e]]; intros Hm Hf; [|exact Hm].
  rewrite M_bind_Ok. apply Forall_app. split; [exact Hm|apply Hf].
Qed.

Lemma no_render_lift {A} (r : result A) : no_render (lift r).1.
Proof. constructor. Qed.

Lemma no_render_ret {A} (a : A) : no_render (mret (M := M) a).1.
Proof. constructor. Qed.

Lemma no_render_print (m : message) : no_render (print m).1.
Proof. by repeat constructor. Qed.

Lemma no_render_find_column (df : DataFrame) (names : list string) :
  no_render (find_column df names).1.
Proof.
  unfold find_column. destruct (first_present _ _); [constructor|].
  rewrite (for_each_print (λ ic, MsgColumn ic.1 ic.2)).
  cbn. repeat constructor. rewrite Forall_app. split; [|by repeat constructor].
  apply Forall_fmap, Forall_true. done.
Qed.

(** Chart calls are absent from everything but the calls of [render_call]. *)
Ltac no_render_step :=
  first
    [ apply no_render_find_column
    | apply no_render_lift
    | apply no_render_ret
    | apply no_render_print
    | apply no_render_bind; [|intros ?]
    | match goal with
      | |- no_render (match ?x with _ => _ end).1 => destruct x
      | |- no_render (let _ := ?x in _).1 => cbv zeta
      end ].

Lemma leje_standardize_no_render (sheet : DataFrame) :
  no_render (Leje.standardize sheet).1.
Proof. unfold Leje.standardize. repeat no_render_step. Qed.

Lemma ejer_standardize_no_render (L : Lib) (wb : Workbook) :
  no_render (Ejer.standardize L wb).1.
Proof.
  unfold Ejer.standardize, Ejer.merge_enheder, Ejer.ensure_rooms, Ejer.ensure_coords,
    Ejer.ensure_anvendelse, Ejer.merge_ejendomme.
  repeat no_render_step.
Qed.

Lemma M_bind_inv {A B} (m : M A) (f : A → M B) (t : list event) (b : B) :
  m ≫= f = (t, Ok b) →
  ∃ t1 a t2, m = (t1, Ok a) ∧ f a = (t2, Ok b) ∧ t = t1 ++ t2.
Proof.
  destruct m as [t1 [a|e]]; [|discriminate].
  rewrite M_bind_Ok. destruct (f a) as [t2 r] eqn:E. simpl.
  intros [= <- ->]. by exists t1, a, t2.
Qed.

Lemma result_bind_inv {A B} (r : result A) (f : A → result B) (b : B) :
  r ≫= f = Ok b → ∃ a, r = Ok a ∧ f a = Ok b.
Proof. destruct r as [a|e]; [|discriminate]. intros H. by exists a. Qed.

Lemma print_inv (m : message) (t : list event) (u : unit) :
  print m = (t, Ok u) → t = [EPrint m].
Proof. by intros [= <-]. Qed.

Lemma lift_inv {A} (r : result A) (t : list event) (a : A) :
  lift r = (t, Ok a) → t = [] ∧ r = Ok a.
Proof. by intros [= <- ->]. Qed.

Lemma render_call_inv (L : Lib) c md df (t : list event) (img : string) :
  render_call L c md df = (t, Ok img) →
  t = [ERender c md df] ∧ render L c md df = Ok img.
Proof. by intros [= <- ->]. Qed.

Lemma run_ok_inv {A} (m : M A) : run_ok m = true → ∃ t a, m = (t, Ok a).
Proof. destruct m as [t [a|e]]; [|done]. intros _. by exists t, a. Qed.

(** What a successful run of the rental pipeline went through. *)
Lemma leje_run_inv (L : Lib) (sheet : DataFrame) (t : list event) (d : Leje.Data) :
  Leje.process_leje_data L sheet = (t, Ok d) →
  ∃ t0 df cl,
    Leje.standardize sheet = (t0, Ok df) ∧
    render L Scatter Leje df = Ok (Leje.scatter_img d) ∧
    render L Heatmap Leje df = Ok (Leje.heatmap_img d) ∧
    render L SummaryTable Leje df = Ok (Leje.table_img d) ∧
    dropna Leje.required df = Ok cl ∧
    map_result (Leje.bolig_of_row L cl) (rows cl) = Ok (Leje.boliger d) ∧
    Leje.statistics L cl (length (Leje.boliger d)) = Ok (Leje.stats d) ∧
    t = t0 ++ [EPrint (MsgRendering Scatter); ERender Scatter Leje df;
               EPrint (MsgRendering Heatmap); ERender Heatmap Leje df;
               EPrint (MsgRendering SummaryTable); ERender SummaryTable Leje df]
           ++ (if (0 <? len df - len cl)%nat
               then [EPrint (MsgDropped (len df - len cl))] else []).
Proof.
  unfold Leje.process_leje_data. intros H.
  apply M_bind_inv in H as (t0 & df & ? & Hstd & H & ->).
  apply M_bind_inv in H as (? & ? & ? & ->%print_inv & H & ->).
  apply M_bind_inv in H as (? & i1 & ? & [-> E1]%render_call_inv & H & ->).
  apply M_bind_inv in H as (? & ? & ? & ->%print_inv & H & ->).
  apply M_bind_inv in H as (? & i2 & ? & [-> E2]%render_call_inv & H & ->).
  apply M_bind_inv in H as (? & ? & ? & ->%print_inv & H & ->).
  apply M_bind_inv in H as (? & i3 & ? & [-> E3]%render_call_inv & H & ->).
  cbv zeta in H.
  apply M_bind_inv in H as (? & cl & ? & [-> E4]%lift_inv & H & ->).
  apply M_bind_inv in H as (td & ? & ? & Hd & H & ->).
  apply M_bind_inv in H as (? & bs & ? & [-> E5]%lift_inv & H & ->).
  apply M_bind_inv in H as (? & st & ? & [-> E6]%lift_inv & H & ->).
  injection H as <- <-.
  cbn [Leje.boliger Leje.stats Leje.scatter_img Leje.heatmap_img Leje.table_img].
  exists t0, df, cl. repeat split; try done.
  destruct (0 <? len df - len cl)%nat; injection Hd as <-; cbn; by rewrite ?app_nil_r.
Qed.

(** What a successful run of the ownership pipeline went through. *)
Lemma ejer_run_inv (L : Lib) (wb : Workbook) (t : list event) (d : Ejer.Data) :
  Ejer.process_ejer_data L wb = (t, Ok d) →
  ∃ t0 df cl,
    Ejer.standardize L wb = (t0, Ok df) ∧
    render L Scatter Ejer df = Ok (Ejer.scatter_img d) ∧
    render L Heatmap Ejer df = Ok (Ejer.heatmap_img d) ∧
    render L SummaryTable Ejer df = Ok (Ejer.table_img d) ∧
    dropna Ejer.required df = Ok cl ∧
    map_result (Ejer.bolig_of_row L cl) (rows cl) = Ok (Ejer.boliger d) ∧
    Ejer.statistics L cl (length (Ejer.boliger d)) = Ok (Ejer.stats d) ∧
    t = t0 ++ [EPrint (MsgRendering Scatter); ERender Scatter Ejer df;
               EPrint (MsgRendering Heatmap); ERender Heatmap Ejer df;
               EPrint (MsgRendering SummaryTable); ERender SummaryTable Ejer df]
           ++ (if (0 <? len df - len cl)%nat
               then [EPrint (MsgDropped (len df - len cl))] else []).
Proof.
  unfold Ejer.process_ejer_data. intros H.
  apply M_bind_inv in H as (t0 & df & ? & Hstd & H & ->).
  apply M_bind_inv in H as (? & ? & ? & ->%print_inv & H & ->).
  apply M_bind_inv in H as (? & i1 & ? & [-> E1]%render_call_inv & H & ->).
  apply M_bind_inv in H as (? & ? & ? & ->%print_inv & H & ->).
  apply M_bind_inv in H as (? & i2 & ? & [-> E2]%render_call_inv & H & ->).
  apply M_bind_inv in H as (? & ? & ? & ->%print_inv & H & ->).
  apply M_bind_inv in H as (? & i3 & ? & [-> E3]%render_call_inv & H & ->).
  cbv zeta in H.
  apply M_bind_inv in H as (? & cl & ? & [-> E4]%lift_inv & H & ->).
  apply M_bind_inv in H as (td & ? & ? & Hd & H & ->).
  apply M_bind_inv in H as (? & bs & ? & [-> E5]%lift_inv & H & ->).
  apply M_bind_inv in H as (? & st & ? & [-> E6]%lift_inv & H & ->).
  injection H as <- <-.
  cbn [Ejer.boliger Ejer.stats Ejer.scatter_img Ejer.heatmap_img Ejer.table_img].
  exists t0, df, cl. repeat split; try done.
  destruct (0 <? len df - len cl)%nat; injection Hd as <-; cbn; by rewrite ?app_nil_r.
Qed.

Lemma map_result_Forall2 {A B} (f : A → result B) (l : list A) (l' : list B) :
  map_result f l = Ok l' ↔ Forall2 (λ x y, f x = Ok y) l l'.
Proof.
  revert l'. induction l as [|x l IH]; intros l'; simpl.
  - split; [intros [= <-]; constructor|]. by inversion 1.
  - split.
    + intros H. apply result_bind_inv in H as (y & Hy & H).
      apply result_bind_inv in H as (ys & Hys & [= <-]).
      constructor; [done|]. by apply IH.
    + inversion 1 as [|? y ? ys Hy Hys]; subst. rewrite Hy. simpl.
      apply IH in Hys. by rewrite Hys.
Qed.

Lemma map_result_length {A B} (f : A → result B) (l : list A) (l' : list B) :
  map_result f l = Ok l' → length l' = length l.
Proof. intros H%map_result_Forall2. symmetry. by eapply Forall2_length. Qed.

Lemma dropna_inv (subset : list string) (df cl : DataFrame) :
  dropna subset df = Ok cl →
  columns cl = columns df ∧ rows cl = List.filter (complete subset) (rows df).
Proof. unfold dropna. destruct (first_missing _ _); [done|]. by intros [= <-]. Qed.

Lemma filter_id_iff {A} (f : A → bool) (l : list A) :
  List.filter f l = l ↔ Forall (λ x, f x = true) l.
Proof.
  induction l as [|x l IH]; simpl; [by split|].
  destruct (f x) eqn:E.
  - split.
    + intros [= H]. constructor; [done|]. by apply IH.
    + inversion 1; subst. f_equal. by apply IH.
  - split.
    + intros H. pose proof (List.filter_length_le f l) as Hl.
      rewrite H in Hl. simpl in Hl. lia.
    + inversion 1; congruence.
Qed.

(** The cleaned table is the rendered one exactly when no row is dropped. *)
Lemma dropna_same_iff (subset : list string) (df cl : DataFrame) :
  dropna subset df = Ok cl →
  (cl = df ↔ Forall (λ r, complete subset r = true) (rows df)).
Proof.
  intros [Hc Hr]%dropna_inv. rewrite <- filter_id_iff, <- Hr. split.
  - by intros ->.
  - intros H. destruct cl, df; simpl in *; congruence.
Qed.

(** ** Order of rendering and cleaning *)

Ltac result_inv H :=
  repeat (let a := fresh "a" in let E := fresh "E" in
          apply result_bind_inv in H as (a & E & H)).

Lemma leje_statistics_total (L : Lib) (cl : DataFrame) (n : nat) (st : Leje.Stats) :
  Leje.statistics L cl n = Ok st → Leje.total_boliger st = n.
Proof. unfold Leje.statistics. intros H. result_inv H. by injection H as <-. Qed.

Lemma ejer_statistics_total (L : Lib) (cl : DataFrame) (n : nat) (st : Ejer.Stats) :
  Ejer.statistics L cl n = Ok st → Ejer.total_boliger st = n.
Proof. unfold Ejer.statistics. intros H. result_inv H. by injection H as <-. Qed.

Lemma trace_tables (t0 t1 : list event) (md : mode) (df : DataFrame) :
  no_render t0 → no_render t1 →
  rendered_tables
    (t0 ++ [EPrint (MsgRendering Scatter); ERender Scatter md df;
            EPrint (MsgRendering Heatmap); ERender Heatmap md df;
            EPrint (MsgRendering SummaryTable); ERender SummaryTable md df] ++ t1)
  = [df; df; df] ∧
  render_calls
    (t0 ++ [EPrint (MsgRendering Scatter); ERender Scatter md df;
            EPrint (MsgRendering Heatmap); ERender Heatmap md df;
            EPrint (MsgRendering SummaryTable); ERender SummaryTable md df] ++ t1)
  = [(Scatter, md); (Heatmap, md); (SummaryTable, md)].
Proof.
  intros H0 H1. rewrite !rendered_tables_app, !render_calls_app.
  rewrite !(no_render_tables _ H0), !(no_render_tables _ H1).
  rewrite !(no_render_calls _ H0), !(no_render_calls _ H1). by split.
Qed.

Lemma dropped_no_render (n : nat) :
  no_render (if (0 <? n)%nat then [EPrint (MsgDropped n)] else []).
Proof. destruct (0 <? n)%nat; by repeat constructor. Qed.

(** C1 (amended): in both pipelines the three charts are requested, in the
    order scatter, heatmap, table, with the standardized table, before the
    rows with missing required fields are dropped; the listings and the
    statistics are computed from the cleaned table, which is the table the
    charts were given only when no row had a missing required field. *)
Theorem charts_rendered_before_cleaning (L : Lib) :
  (∀ sheet t d,
     Leje.process_leje_data L sheet = (t, Ok d) →
     ∃ t0 df cl,
       Leje.standardize sheet = (t0, Ok df) ∧
       dropna Leje.required df = Ok cl ∧
       rendered_tables t = [df; df; df] ∧
       render_calls t = [(Scatter, Leje); (Heatmap, Leje); (SummaryTable, Leje)] ∧
       map_result (Leje.bolig_of_row L cl) (rows cl) = Ok (Leje.boliger d) ∧
       Leje.statistics L cl (length (Leje.boliger d)) = Ok (Leje.stats d) ∧
       Leje.total_boliger (Leje.stats d) = len cl ∧
       (cl = df ↔ Forall (λ r, complete Leje.required r = true) (rows df))) ∧
  (∀ wb t d,
     Ejer.process_ejer_data L wb = (t, Ok d) →
     ∃ t0 df cl,
       Ejer.standardize L wb = (t0, Ok df) ∧
       dropna Ejer.required df = Ok cl ∧
       rendered_tables t = [df; df; df] ∧
       render_calls t = [(Scatter, Ejer); (Heatmap, Ejer); (SummaryTable, Ejer)] ∧
       map_result (Ejer.bolig_of_row L cl) (rows cl) = Ok (Ejer.boliger d) ∧
       Ejer.statistics L cl (length (Ejer.boliger d)) = Ok (Ejer.stats d) ∧
       Ejer.total_boliger (Ejer.stats d) = len cl ∧
       (cl = df ↔ Forall (λ r, complete Ejer.required r = true) (rows df))).
Proof.
  split.
  - intros sheet t d (t0 & df & cl & Hstd & _ & _ & _ & Hcl & Hb & Hst & ->)%leje_run_inv.
    exists t0, df, cl.
    destruct (trace_tables t0 _ Leje df
                (eq_ind _ (λ m, no_render m.1) (leje_standardize_no_render sheet) _ Hstd)
                (dropped_no_render (len df - len cl))) as [Ht Hc].
    repeat split; try done.
    + rewrite (leje_statistics_total _ _ _ _ Hst). by apply map_result_length in Hb.
    + by apply dropna_same_iff.
    + by apply dropna_same_iff.
  - intros wb t d (t0 & df & cl & Hstd & _ & _ & _ & Hcl & Hb & Hst & ->)%ejer_run_inv.
    exists t0, df, cl.
    destruct (trace_tables t0 _ Ejer df
                (eq_ind _ (λ m, no_render m.1) (ejer_standardize_no_render L wb) _ Hstd)
                (dropped_no_render (len df - len cl))) as [Ht Hc].
    repeat split; try done.
    + rewrite (ejer_statistics_total _ _ _ _ Hst). by apply map_result_length in Hb.
    + by apply dropna_same_iff.
    + by apply dropna_same_iff.
Qed.

Lemma charts_rendered_before_cleaning_witness :
  ∃ t d t0 df cl,
    Leje.process_leje_data plain_lib leje_demo_sheet = (t, Ok d) ∧
    Leje.standardize leje_demo_sheet = (t0, Ok df) ∧
    dropna Leje.required df = Ok cl ∧
    rendered_tables t = [df; df; df] ∧
    Leje.total_boliger (Leje.stats d) = len cl.
Proof.
  assert (Hok : run_ok (Leje.process_leje_data plain_lib leje_demo_sheet) = true)
    by (vm_compute; reflexivity).
  apply run_ok_inv in Hok as (t & d & Hrun).
  destruct (proj1 (charts_rendered_before_cleaning plain_lib) _ _ _ Hrun)
    as (t0 & df & cl & Hstd & Hcl & Ht & _ & _ & _ & Htot & _).
  exists t, d, t0, df, cl.
  exact (conj Hrun (conj Hstd (conj Hcl (conj Ht Htot)))).
Defined.

(** C1 (as stated) fails in both pipelines: the charts are given every row of
    the sheet (three in the rental sheet, two in the ownership sheet), also
    the row that cleaning drops afterwards, so the listings are fewer. *)
Lemma charts_see_dropped_rows :
  (len <$> rendered_tables (Leje.process_leje_data plain_lib leje_demo_sheet).1
     = [3; 3; 3]%nat ∧
   run_value (λ d, (length (Leje.boliger d), Leje.total_boliger (Leje.stats d)))
             (Leje.process_leje_data plain_lib leje_demo_sheet)
     = Some (2, 2)%nat) ∧
  (len <$> rendered_tables (Ejer.process_ejer_data plain_lib ejer_demo_workbook).1
     = [2; 2; 2]%nat ∧
   run_value (λ d, (length (Ejer.boliger d), Ejer.total_boliger (Ejer.stats d)))
             (Ejer.process_ejer_data plain_lib ejer_demo_workbook)
     = Some (1, 1)%nat).
Proof. split; (split; vm_compute; reflexivity). Qed.

(** ** Monthly rent of a listing *)

Lemma row_get_inv (df : DataFrame) (r : gmap string cell) (c : string) (v : cell) :
  row_get df r c = Ok v → has_column df c = true ∧ v = cell_at c r.
Proof. unfold row_get. destruct (has_column df c); [|done]. by intros [= <-]. Qed.

Lemma leje_bolig_leje_maned (L : Lib) (cl : DataFrame) (row : gmap string cell)
      (b : Leje.Bolig) :
  Leje.bolig_of_row L cl row = Ok b →
  ∃ y : Qc, cell_at "Årsleje" row = CNum y ∧ Leje.leje_maned b = trunc (y / qz 12).
Proof.
  unfold Leje.bolig_of_row. intros H. result_inv H. injection H as <-. simpl.
  match goal with
  | Hr : row_get cl row "Årsleje" = Ok ?c, Hd : cell_div _ ?c = Ok ?m,
    Hi : py_int L ?m = Ok _ |- _ =>
      apply row_get_inv in Hr as [_ ->];
      destruct (cell_at "Årsleje" row) as [s|y|]; simpl in Hd; [done| |];
      injection Hd as <-; simpl in Hi; [|done];
      injection Hi as <-; by exists y
  end.
Qed.

Lemma trunc_floor_nonneg (q : Qc) : (0 ≤ q)%Qc → trunc q = Qfloor q.
Proof.
  destruct q as [[n d] Hq]. unfold trunc, Qfloor, Qcle, Qle. simpl.
  intros H. apply Z.quot_div_nonneg; lia.
Qed.

Lemma Qc_div_12_nonneg (y : Qc) : (0 ≤ y)%Qc → (0 ≤ y / qz 12)%Qc.
Proof.
  intros H. change (0 <= Qred (this y * Qred (/ this (qz 12))))%Q.
  rewrite !Qred_correct.
  apply Qmult_le_0_compat; [exact H|]. apply Qinv_le_0_compat.
  rewrite this_qz. unfold Qle. simpl. lia.
Qed.

(** C8: every listing of a rental run carries, as its monthly rent, the yearly
    rent of its cleaned row divided by 12 and truncated to an integer, which
    for a non-negative yearly rent is the floor of the quotient. *)
Theorem monthly_rent_truncated (L : Lib) (sheet : DataFrame) (t : list event)
        (d : Leje.Data) :
  Leje.process_leje_data L sheet = (t, Ok d) →
  ∃ t0 df cl,
    Leje.standardize sheet = (t0, Ok df) ∧
    dropna Leje.required df = Ok cl ∧
    Forall2 (λ row b,
               ∃ y : Qc, cell_at "Årsleje" row = CNum y ∧
                         Leje.leje_maned b = trunc (y / qz 12) ∧
                         ((0 ≤ y)%Qc → Leje.leje_maned b = Qfloor (y / qz 12)%Qc))
            (rows cl) (Leje.boliger d).
Proof.
  intros (t0 & df & cl & Hstd & _ & _ & _ & Hcl & Hb & _)%leje_run_inv.
  exists t0, df, cl. repeat split; try done.
  apply map_result_Forall2 in Hb.
  eapply Forall2_impl; [exact Hb|]. simpl.
  intros row b (y & Hy & Hm)%leje_bolig_leje_maned.
  exists y. split; [exact Hy|]. split; [exact Hm|].
  intros Hpos. rewrite Hm. apply trunc_floor_nonneg. apply Qc_div_12_nonneg, Hpos.
Qed.

Lemma monthly_rent_truncated_witness :
  run_value (λ d, Leje.leje_maned <$> Leje.boliger d)
            (Leje.process_leje_data plain_lib leje_demo_sheet)
    = Some [10000; 8333] ∧
  ∃ t d cl,
    Leje.process_leje_data plain_lib leje_demo_sheet = (t, Ok d) ∧
    Forall2 (λ row b,
               ∃ y : Qc, cell_at "Årsleje" row = CNum y ∧
                         Leje.leje_maned b = trunc (y / qz 12))
            (rows cl) (Leje.boliger d).
Proof.
  split; [vm_compute; reflexivity|].
  assert (Hok : run_ok (Leje.process_leje_data plain_lib leje_demo_sheet) = true)
    by (vm_compute; reflexivity).
  apply run_ok_inv in Hok as (t & d & Hrun).
  destruct (monthly_rent_truncated plain_lib leje_demo_sheet t d Hrun)
    as (t0 & df & cl & _ & _ & Hall).
  exists t, d, cl. split; [exact Hrun|].
  eapply Forall2_impl; [exact Hall|].
  intros row b (y & Hy & Hm & _). exists y. exact (conj Hy Hm).
Defined.

(** ** A missing trade name *)

Lemma dropna_total (subset : list string) (df : DataFrame) :
  Forall (λ c, c ∈ columns df) subset →
  ∃ cl, dropna subset df = Ok cl ∧
        rows cl = List.filter (complete subset) (rows df).
Proof.
  intros H. unfold dropna.
  assert (E : first_missing (columns df) subset = None).
  { induction H as [|c cs Hc _ IH]; [done|]. simpl. by rewrite bool_decide_true. }
  rewrite E. by eexists.
Qed.

(** C2 (the code at the failing input): a missing trade name is accepted by
    the city parser but not by the geocoder, so the ownership run of a sheet
    without coordinates ends with AttributeError while geocoding, before any
    chart is requested and before any row is dropped. *)
Theorem missing_trade_name_raises :
  parse_city_from_handelsnavn CNaN = Ok Ukendt ∧
  (∀ L, geocode_address L CNaN = Raise AttributeError) ∧
  run_error (Ejer.process_ejer_data plain_lib ejer_missing_name_workbook)
    = Some AttributeError ∧
  (Ejer.process_ejer_data plain_lib ejer_missing_name_workbook).1
    = [EPrint (MsgSheets ["Stamdata"]); EPrint MsgChecking; EPrint MsgEstimating;
       EPrint MsgGeocoding].
Proof.
  split; [reflexivity|]. split; [reflexivity|].
  split; vm_compute; reflexivity.
Qed.

(** ** Runs in lockstep *)

Lemma ok_rel_bind {A A' B B'} (R : A → A' → Prop) (S : B → B' → Prop)
      (m : M A) (m' : M A') (f : A → M B) (f' : A' → M B') :
  ok_rel R m m' →
  (∀ a a', R a a' → ok_rel S (f a) (f' a')) →
  ok_rel S (m ≫= f) (m' ≫= f').
Proof.
  intros Hm Hf t b t' b' H H'.
  apply M_bind_inv in H as (t1 & a & t2 & E1 & E2 & _).
  apply M_bind_inv in H' as (t1' & a' & t2' & E1' & E2' & _).
  eapply Hf; [eapply Hm|..]; eassumption.
Qed.

Lemma ok_rel_ret {A A'} (R : A → A' → Prop) (a : A) (a' : A') :
  R a a' → ok_rel R (mret a) (mret a').
Proof. intros H t x t' x' [= _ <-] [= _ <-]. exact H. Qed.

Lemma ok_rel_lift {A A'} (R : A → A' → Prop) (r : result A) (r' : result A') :
  (∀ a a', r = Ok a → r' = Ok a' → R a a') → ok_rel R (lift r) (lift r').
Proof. intros H t x t' x' [= _ ->] [= _ ->]. by apply H. Qed.

Lemma ok_rel_any {A A'} (m : M A) (m' : M A') : ok_rel (λ _ _, True) m m'.
Proof. by intros t x t' x' _ _. Qed.

Lemma ok_inv_bind {A B} (P : A → Prop) (Q : B → Prop) (m : M A) (f : A → M B) :
  ok_inv P m → (∀ a, P a → ok_inv Q (f a)) → ok_inv Q (m ≫= f).
Proof.
  intros Hm Hf t b H.
  apply M_bind_inv in H as (t1 & a & t2 & E1 & E2 & _).
  eapply Hf; [eapply Hm|]; eassumption.
Qed.

Lemma ok_inv_ret {A} (P : A → Prop) (a : A) : P a → ok_inv P (mret a).
Proof. intros H t x [= _ <-]. exact H. Qed.

Lemma ok_inv_lift {A} (P : A → Prop) (r : result A) :
  (∀ a, r = Ok a → P a) → ok_inv P (lift r).
Proof. intros H t x [= _ ->]. by apply H. Qed.

Lemma find_column_inv (df : DataFrame) (names : list string) (t : list event)
      (name : string) :
  find_column df names = (t, Ok name) →
  first_present (columns df) names = Some name ∧ name ∈ names.
Proof.
  unfold find_column. destruct (first_present _ _) as [n|] eqn:E.
  - intros [= _ <-]. split; [done|].
    apply first_present_Some in E as (e & l & -> & _). set_solver.
  - rewrite (for_each_print (λ ic, MsgColumn ic.1 ic.2)). by cbn.
Qed.

(** ** Tables that agree on every column but one *)

Lemma cell_at_insert (c c' : string) (v : cell) (r : gmap string cell) :
  cell_at c (<[c' := v]> r) = if decide (c' = c) then v else cell_at c r.
Proof. unfold cell_at. rewrite lookup_insert. by destruct (decide _). Qed.

Lemma Forall2_imap {A B} (P : A → B → Prop) (f : nat → A → A) (g : nat → B → B)
      (l : list A) (l' : list B) :
  (∀ i x y, P x y → P (f i x) (g i y)) →
  Forall2 P l l' → Forall2 P (imap f l) (imap g l').
Proof.
  intros H Hl. revert f g H.
  induction Hl as [|x y l l' Hxy _ IH]; intros f g H; simpl; constructor.
  - by apply H.
  - apply IH. intros i. apply H.
Qed.

Lemma Forall2_imap_l {A B} (P : A → B → Prop) (f : nat → A → A)
      (l : list A) (l' : list B) :
  (∀ i x y, P x y → P (f i x) y) →
  Forall2 P l l' → Forall2 P (imap f l) l'.
Proof.
  intros H Hl. revert f H.
  induction Hl as [|x y l l' Hxy _ IH]; intros f H; simpl; constructor.
  - by apply H.
  - apply IH. intros i. apply H.
Qed.

Lemma same_but_sym (k : string) (df df' : DataFrame) :
  same_but k df df' → same_but k df' df.
Proof.
  intros [Hc Hr]. split.
  - intros c Hck. symmetry. by apply Hc.
  - apply Forall2_flip. eapply Forall2_impl; [exact Hr|].
    intros r r' H c Hck. symmetry. by apply H.
Qed.

Lemma same_but_has_column (k c : string) (df df' : DataFrame) :
  same_but k df df' → c ≠ k → has_column df c = has_column df' c.
Proof.
  intros [Hc _] Hck. unfold has_column. apply bool_decide_ext. by apply Hc.
Qed.

Lemma same_but_get_col (k c : string) (df df' : DataFrame) :
  same_but k df df' → c ≠ k → get_col df c = get_col df' c.
Proof.
  intros H Hck. unfold get_col. rewrite (same_but_has_column _ _ _ _ H Hck).
  destruct (has_column df' c); [|done]. f_equal.
  destruct H as [_ Hr]. induction Hr as [|r r' l l' Hrr _ IH]; [done|].
  cbn. f_equal; [by apply Hrr|exact IH].
Qed.

Lemma same_but_row_get (k c : string) (df df' : DataFrame) (r r' : gmap string cell) :
  same_but k df df' → (∀ c, c ≠ k → cell_at c r = cell_at c r') → c ≠ k →
  row_get df r c = row_get df' r' c.
Proof.
  intros H Hr Hck. unfold row_get. rewrite (same_but_has_column _ _ _ _ H Hck).
  by rewrite (Hr c Hck).
Qed.

Lemma elem_of_set_col_columns (df : DataFrame) (c c' : string) (vals : list cell) :
  c' ∈ columns (set_col df c vals) ↔ c' = c ∨ c' ∈ columns df.
Proof.
  unfold set_col, has_column. simpl. case_bool_decide as Hc.
  - split; [by right|]. by intros [->|?].
  - rewrite elem_of_app, list_elem_of_singleton. tauto.
Qed.

(** Setting a column other than [k] to the same values on both sides, or the
    column [k] to any values. *)
Lemma same_but_set_col (k c : string) (df df' : DataFrame) (vals vals' : list cell) :
  same_but k df df' → (c ≠ k → vals = vals') →
  same_but k (set_col df c vals) (set_col df' c vals').
Proof.
  intros [Hc Hr] Hv. split.
  - intros c' Hck. rewrite !elem_of_set_col_columns. by rewrite (Hc c' Hck).
  - simpl. apply Forall2_imap; [|exact Hr].
    intros i r r' H c' Hck. rewrite !cell_at_insert.
    destruct (decide (c = c')) as [->|_]; [|by apply H].
    by rewrite (Hv Hck).
Qed.

Lemma same_but_set_col_l (k : string) (df df' : DataFrame) (vals : list cell) :
  same_but k df df' → same_but k (set_col df k vals) df'.
Proof.
  intros [Hc Hr]. split.
  - intros c' Hck. rewrite elem_of_set_col_columns. rewrite <- (Hc c' Hck). tauto.
  - simpl. apply Forall2_imap_l; [|exact Hr].
    intros i r r' H c Hck. rewrite cell_at_insert.
    destruct (decide (k = c)) as [->|_]; [done|by apply H].
Qed.

Lemma same_but_set_col_scalar (k c : string) (df df' : DataFrame) (v : cell) :
  same_but k df df' → same_but k (set_col_scalar df c v) (set_col_scalar df' c v).
Proof.
  intros [Hc Hr]. split.
  - intros c' Hck. unfold set_col_scalar, has_column. simpl.
    do 2 case_bool_decide; rewrite ?elem_of_app, ?list_elem_of_singleton.
    + by apply Hc.
    + split; [by left; apply Hc|]. intros [?| ->]; [by apply Hc|done].
    + split; [|by left; apply Hc]. intros [?| ->]; [by apply Hc|done].
    + by rewrite (Hc c' Hck).
  - simpl. apply Forall2_fmap. eapply Forall2_impl; [exact Hr|].
    intros r r' H c' Hck. rewrite !cell_at_insert.
    destruct (decide (c = c')); [done|by apply H].
Qed.

Lemma same_but_copy_col (k dst src : string) (df df' a a' : DataFrame) :
  same_but k df df' → src ≠ k →
  copy_col df dst src = Ok a → copy_col df' dst src = Ok a' →
  same_but k a a'.
Proof.
  intros H Hs. unfold copy_col. rewrite (same_but_get_col _ _ _ _ H Hs).
  destruct (get_col df' src) as [vals|]; [|done].
  intros [= <-] [= <-]. by apply same_but_set_col.
Qed.

Lemma same_but_first_present (k : string) (df df' : DataFrame) (names : list string) :
  same_but k df df' → k ∉ names →
  first_present (columns df) names = first_present (columns df') names.
Proof.
  intros [Hc _] Hk. induction names as [|n names IH]; [done|].
  apply not_elem_of_cons in Hk as [Hn Hk]. simpl.
  rewrite (bool_decide_ext _ _ (Hc n (not_eq_sym Hn))). by rewrite (IH Hk).
Qed.

Lemma ok_rel_find_column (k : string) (df df' : DataFrame) (names : list string) :
  same_but k df df' → k ∉ names →
  ok_rel (λ a a', a = a' ∧ a ≠ k) (find_column df names) (find_column df' names).
Proof.
  intros H Hk t a t' a' [E Ha]%find_column_inv [E' _]%find_column_inv.
  rewrite (same_but_first_present _ _ _ _ H Hk) in E. split; [congruence|].
  intros ->. done.
Qed.

Lemma first_present_ne (k : string) (cols names : list string) (c : string) :
  k ∉ names → first_present cols names = Some c → c ≠ k.
Proof.
  intros Hk (e & l & -> & _)%first_present_Some ->. apply Hk. set_solver.
Qed.

Ltac not_in_list := by apply (bool_decide_unpack _).

Ltac lockstep_find :=
  eapply (ok_rel_bind (λ a a', a = a' ∧ a ≠ "Leje/måned"));
  [ apply ok_rel_find_column; [assumption|not_in_list]
  | intros ? ? [<- ?] ].

Ltac lockstep_copy :=
  eapply (ok_rel_bind (same_but "Leje/måned"));
  [ apply ok_rel_lift;
    let Ha := fresh in let Ha' := fresh in
    intros ? ? Ha Ha';
    refine (same_but_copy_col _ _ _ _ _ _ _ _ _ Ha Ha'); [eassumption|assumption]
  | intros ? ? ? ].

Lemma leje_standardize_same_but (sheet sheet' : DataFrame) :
  same_but "Leje/måned" sheet sheet' →
  ok_rel (same_but "Leje/måned") (Leje.standardize sheet) (Leje.standardize sheet').
Proof.
  intros Hs. unfold Leje.standardize.
  do 9 lockstep_find.
  cbv zeta.
  rewrite <- (same_but_first_present "Leje/måned" sheet sheet'
                ["Opførelsesår"; "Opfoerelsesaar"; "Byggeår"; "Year built"] Hs)
    by not_in_list.
  rewrite <- (same_but_first_present "Leje/måned" sheet sheet'
                ["Boligtype"; "Type"; "Property type"] Hs)
    by not_in_list.
  do 9 lockstep_copy.
  eapply (ok_rel_bind (same_but "Leje/måned")).
  { destruct (first_present (columns sheet)
                ["Opførelsesår"; "Opfoerelsesaar"; "Byggeår"; "Year built"])
      as [c|] eqn:Ec.
    - apply first_present_ne with (k := "Leje/måned") in Ec; [|not_in_list].
      lockstep_copy.
      eapply (ok_rel_bind (λ _ _, True)); [apply ok_rel_any|intros _ _ _].
      by apply ok_rel_ret.
    - eapply (ok_rel_bind (λ _ _, True)); [apply ok_rel_any|intros _ _ _].
      apply ok_rel_ret. by apply same_but_set_col_scalar. }
  intros ? ? ?.
  eapply (ok_rel_bind (same_but "Leje/måned")).
  { destruct (first_present (columns sheet) ["Boligtype"; "Type"; "Property type"])
      as [c|] eqn:Ec.
    - apply first_present_ne with (k := "Leje/måned") in Ec; [|not_in_list].
      lockstep_copy.
      eapply (ok_rel_bind (λ _ _, True)); [apply ok_rel_any|intros _ _ _].
      by apply ok_rel_ret.
    - eapply (ok_rel_bind (λ _ _, True)); [apply ok_rel_any|intros _ _ _].
      apply ok_rel_ret. by apply same_but_set_col_scalar. }
  intros dfa dfb Hab.
  assert (Hset : ∀ (x y : DataFrame) t z,
             same_but "Leje/måned" x y →
             (lift (get_col y "Årsleje")
                ≫= λ c_aar, lift (series_div (qz 12) c_aar)
                ≫= λ c_maned, mret (set_col y "Leje/måned" c_maned)) = (t, Ok z) →
             same_but "Leje/måned" x z).
  { intros x y t z Hxy Hz.
    apply M_bind_inv in Hz as (? & c_aar & ? & _ & Hz & _).
    apply M_bind_inv in Hz as (? & c_maned & ? & _ & Hz & _).
    injection Hz as _ <-. by apply same_but_sym, same_but_set_col_l, same_but_sym. }
  destruct (has_column dfa "Leje/måned"), (has_column dfb "Leje/måned").
  - by apply ok_rel_ret.
  - intros t x t' y [= _ <-] Hy. by eapply Hset.
  - intros t x t' y Hx [= _ <-]. eapply same_but_sym, Hset; [|exact Hx].
    by apply same_but_sym.
  - intros t x t' y Hx Hy.
    apply M_bind_inv in Hx as (? & c_aar & ? & _ & Hx & _).
    apply M_bind_inv in Hx as (? & c_maned & ? & _ & Hx & _).
    injection Hx as _ <-. eapply Hset; [|exact Hy].
    by apply same_but_set_col_l.
Qed.

Lemma complete_same (k : string) (subset : list string) (r r' : gmap string cell) :
  k ∉ subset → (∀ c, c ≠ k → cell_at c r = cell_at c r') →
  complete subset r = complete subset r'.
Proof.
  intros Hk H. unfold complete. induction subset as [|c cs IH]; [done|].
  apply not_elem_of_cons in Hk as [Hc Hk]. simpl.
  rewrite (H c (not_eq_sym Hc)). by rewrite (IH Hk).
Qed.

Lemma Forall2_filter_same {A B} (P : A → B → Prop) (f : A → bool) (g : B → bool)
      (l : list A) (l' : list B) :
  (∀ x y, P x y → f x = g y) →
  Forall2 P l l' → Forall2 P (List.filter f l) (List.filter g l').
Proof.
  intros H. induction 1 as [|x y l l' Hxy _ IH]; [constructor|].
  simpl. rewrite (H x y Hxy). destruct (g y); [by constructor|exact IH].
Qed.

Lemma same_but_dropna (k : string) (subset : list string) (df df' a a' : DataFrame) :
  same_but k df df' → k ∉ subset →
  dropna subset df = Ok a → dropna subset df' = Ok a' →
  same_but k a a'.
Proof.
  intros [Hc Hr] Hk [Ec Er]%dropna_inv [Ec' Er']%dropna_inv. split.
  - intros c Hck. rewrite Ec, Ec'. by apply Hc.
  - rewrite Er, Er'. apply Forall2_filter_same; [|exact Hr].
    intros r r' H. by apply (complete_same k).
Qed.

Lemma leje_bolig_same_but (L : Lib) (cl cl' : DataFrame) (r r' : gmap string cell) :
  same_but "Leje/måned" cl cl' →
  (∀ c, c ≠ "Leje/måned" → cell_at c r = cell_at c r') →
  Leje.bolig_of_row L cl r = Leje.bolig_of_row L cl' r'.
Proof.
  intros H Hr. unfold Leje.bolig_of_row.
  by rewrite !(same_but_row_get "Leje/måned" _ cl cl' r r' H Hr) by done.
Qed.

Lemma leje_boliger_same_but (L : Lib) (cl cl' : DataFrame) :
  same_but "Leje/måned" cl cl' →
  map_result (Leje.bolig_of_row L cl) (rows cl)
  = map_result (Leje.bolig_of_row L cl') (rows cl').
Proof.
  intros H. pose proof H as [_ Hr].
  induction Hr as [|r r' l l' Hrr _ IH]; [done|].
  simpl. by rewrite (leje_bolig_same_but L cl cl' r r' H Hrr), IH.
Qed.

Lemma leje_statistics_same_but (L : Lib) (cl cl' : DataFrame) (n : nat) :
  same_but "Leje/måned" cl cl' →
  Leje.statistics L cl n = Leje.statistics L cl' n.
Proof.
  intros H. unfold Leje.statistics.
  by rewrite !(same_but_get_col "Leje/måned" _ cl cl' H) by done.
Qed.

Lemma same_but_set_col_self (k : string) (df : DataFrame) (vals : list cell) :
  same_but k df (set_col df k vals).
Proof.
  apply same_but_sym, same_but_set_col_l. split; [done|].
  apply Forall2_same_length_lookup. split; [done|]. intros i r r' E E'. congruence.
Qed.

(** ** The explicit monthly-rent column *)

Lemma get_col_inv (df : DataFrame) (c : string) (vals : list cell) :
  get_col df c = Ok vals → has_column df c = true ∧ vals = cell_at c <$> rows df.
Proof. unfold get_col. destruct (has_column df c); [|done]. by intros [= <-]. Qed.

Lemma has_column_set_col (df : DataFrame) (c c' : string) (vals : list cell) :
  has_column (set_col df c vals) c' = bool_decide (c' = c) || has_column df c'.
Proof.
  unfold has_column.
  rewrite (bool_decide_ext _ (c' = c ∨ c' ∈ columns df))
    by apply elem_of_set_col_columns.
  apply bool_decide_or.
Qed.

Lemma imap_insert_column (k c : string) (g : nat → cell) (l : list (gmap string cell)) :
  c ≠ k →
  cell_at c <$> imap (λ i r, <[k := g i]> r) l = cell_at c <$> l.
Proof.
  intros Hck. revert g. induction l as [|r l IH]; intros g; [done|].
  cbn. rewrite cell_at_insert. destruct (decide (k = c)); [congruence|].
  f_equal. apply (IH (g ∘ S)).
Qed.

Lemma imap_insert_column_same (k : string) (vals : list cell)
      (l : list (gmap string cell)) :
  length vals = length l →
  cell_at k <$> imap (λ i r, <[k := default CNaN (vals !! i)]> r) l = vals.
Proof.
  revert vals. induction l as [|r l IH]; intros [|v vals] Hlen; try done.
  cbn. rewrite cell_at_insert. destruct (decide (k = k)); [|done].
  f_equal. simpl in Hlen. apply (IH vals). lia.
Qed.

Lemma get_col_set_col_ne (df : DataFrame) (k c : string) (vals : list cell) :
  c ≠ k → get_col (set_col df k vals) c = get_col df c.
Proof.
  intros Hck. unfold get_col. rewrite has_column_set_col.
  rewrite bool_decide_false by done. simpl.
  destruct (has_column df c); [|done]. f_equal. by apply imap_insert_column.
Qed.

Lemma get_col_set_col_same (df : DataFrame) (k : string) (vals : list cell) :
  length vals = len df → get_col (set_col df k vals) k = Ok vals.
Proof.
  intros Hlen. unfold get_col. rewrite has_column_set_col.
  rewrite bool_decide_true by done. simpl. f_equal.
  by apply imap_insert_column_same.
Qed.

Lemma keeps_copy_col (k dst src : string) (sheet df a : DataFrame) :
  dst ≠ k → keeps_column k sheet df → copy_col df dst src = Ok a →
  keeps_column k sheet a.
Proof.
  intros Hd [Hh Hr] H. unfold copy_col in H.
  destruct (get_col df src) as [vals|]; [|done]. injection H as <-. split.
  - rewrite has_column_set_col. by rewrite bool_decide_false by done.
  - simpl. by rewrite imap_insert_column.
Qed.

Lemma keeps_set_col_scalar (k c : string) (sheet df : DataFrame) (v : cell) :
  c ≠ k → keeps_column k sheet df → keeps_column k sheet (set_col_scalar df c v).
Proof.
  intros Hc [Hh Hr]. split.
  - rewrite <- Hh. unfold has_column, set_col_scalar. simpl.
    apply bool_decide_ext. destruct (has_column df c); [done|].
    rewrite elem_of_app, list_elem_of_singleton.
    split; [intros [?| ->]; done|by left].
  - simpl. rewrite <- Hr, <- list_fmap_compose. apply list_fmap_ext.
    intros i r _. simpl. rewrite cell_at_insert. by destruct (decide _).
Qed.

Ltac keeps_find :=
  eapply (ok_inv_bind (λ _, True)); [by intros ? ? _|intros ? _].

Ltac keeps_copy :=
  eapply (ok_inv_bind (keeps_column "Leje/måned" _));
  [ apply ok_inv_lift; intros ? ?; eapply keeps_copy_col; [|eassumption|eassumption]; done
  | intros ? ? ].

Lemma leje_standardize_keeps (sheet : DataFrame) :
  ok_inv (λ df,
            if has_column sheet "Leje/måned"
            then get_col df "Leje/måned" = get_col sheet "Leje/måned"
            else ∃ c_aar c_maned,
                get_col df "Årsleje" = Ok c_aar ∧
                series_div (qz 12) c_aar = Ok c_maned ∧
                get_col df "Leje/måned" = Ok c_maned)
         (Leje.standardize sheet).
Proof.
  unfold Leje.standardize.
  do 9 keeps_find. cbv zeta.
  assert (H0 : keeps_column "Leje/måned" sheet sheet) by done.
  do 9 keeps_copy.
  eapply (ok_inv_bind (keeps_column "Leje/måned" sheet)).
  { destruct (first_present _ _) as [c|].
    - keeps_copy. eapply (ok_inv_bind (λ _, True)); [by intros ? ? _|intros ? _].
      by apply ok_inv_ret.
    - eapply (ok_inv_bind (λ _, True)); [by intros ? ? _|intros ? _].
      apply ok_inv_ret. by apply keeps_set_col_scalar. }
  intros ? ?.
  eapply (ok_inv_bind (keeps_column "Leje/måned" sheet)).
  { destruct (first_present _ _) as [c|].
    - keeps_copy. eapply (ok_inv_bind (λ _, True)); [by intros ? ? _|intros ? _].
      by apply ok_inv_ret.
    - eapply (ok_inv_bind (λ _, True)); [by intros ? ? _|intros ? _].
      apply ok_inv_ret. by apply keeps_set_col_scalar. }
  intros df [Hh Hr]. rewrite Hh.
  destruct (has_column sheet "Leje/måned") eqn:Es.
  - apply ok_inv_ret. unfold get_col. by rewrite Hh, Es, Hr.
  - intros t x Hx.
    apply M_bind_inv in Hx as (? & c_aar & ? & [_ Ha]%lift_inv & Hx & _).
    apply M_bind_inv in Hx as (? & c_maned & ? & [_ Hm]%lift_inv & Hx & _).
    injection Hx as _ <-. exists c_aar, c_maned. split; [|split; [exact Hm|]].
    + by rewrite get_col_set_col_ne.
    + apply get_col_set_col_same. apply map_result_length in Hm. rewrite Hm.
      apply get_col_inv in Ha as [_ ->]. by rewrite length_fmap.
Qed.

Lemma leje_run_tables (L : Lib) (sheet : DataFrame) (t : list event) (d : Leje.Data) :
  Leje.process_leje_data L sheet = (t, Ok d) →
  ∃ t0 df cl,
    Leje.standardize sheet = (t0, Ok df) ∧
    dropna Leje.required df = Ok cl ∧
    rendered_tables t = [df; df; df] ∧
    map_result (Leje.bolig_of_row L cl) (rows cl) = Ok (Leje.boliger d).
Proof.
  intros (t0 & df & cl & Hstd & _ & _ & _ & Hcl & Hb & _ & ->)%leje_run_inv.
  exists t0, df, cl.
  destruct (trace_tables t0 _ Leje df
              (eq_ind _ (λ m, no_render m.1) (leje_standardize_no_render sheet) _ Hstd)
              (dropped_no_render (len df - len cl))) as [Ht _].
  by repeat split.
Qed.

(** C10: the listings of a rental run (and its statistics) are the same
    whatever an explicit monthly-rent column 'Leje/måned' of the sheet holds:
    each monthly rent is the yearly rent of the cleaned row divided by 12 and
    truncated.  The explicit column only reaches the charts: the table they
    are given carries the column of the sheet unchanged when the sheet has
    one, and the derived column yearly rent / 12 otherwise. *)
Theorem explicit_monthly_rent_unused (L : Lib) (sheet : DataFrame) :
  (∀ vals t d t' d',
     Leje.process_leje_data L sheet = (t, Ok d) →
     Leje.process_leje_data L (set_col sheet "Leje/måned" vals) = (t', Ok d') →
     Leje.boliger d' = Leje.boliger d ∧ Leje.stats d' = Leje.stats d) ∧
  (∀ t d,
     Leje.process_leje_data L sheet = (t, Ok d) →
     ∃ df cl,
       rendered_tables t = [df; df; df] ∧
       dropna Leje.required df = Ok cl ∧
       (if has_column sheet "Leje/måned"
        then get_col df "Leje/måned" = get_col sheet "Leje/måned"
        else ∃ c_aar c_maned,
            get_col df "Årsleje" = Ok c_aar ∧
            series_div (qz 12) c_aar = Ok c_maned ∧
            get_col df "Leje/måned" = Ok c_maned) ∧
       Forall2 (λ row b,
                  ∃ y : Qc, cell_at "Årsleje" row = CNum y ∧
                            Leje.leje_maned b = trunc (y / qz 12))
               (rows cl) (Leje.boliger d)).
Proof.
  split.
  - intros vals t d t' d' H H'.
    apply leje_run_inv in H as (t0 & df & cl & Hstd & _ & _ & _ & Hcl & Hb & Hst & _).
    apply leje_run_inv in H' as (t0' & df' & cl' & Hstd' & _ & _ & _ & Hcl' & Hb' & Hst' & _).
    assert (Hdf : same_but "Leje/måned" df df').
    { eapply (leje_standardize_same_but sheet (set_col sheet "Leje/måned" vals));
        [apply same_but_set_col_self|exact Hstd|exact Hstd']. }
    assert (Hc : same_but "Leje/måned" cl cl').
    { eapply (same_but_dropna _ Leje.required); [exact Hdf| |exact Hcl|exact Hcl'].
      not_in_list. }
    rewrite (leje_boliger_same_but L cl cl' Hc), Hb' in Hb. injection Hb as Hb.
    split; [exact Hb|].
    rewrite (leje_statistics_same_but L cl cl' _ Hc), <- Hb, Hst' in Hst.
    by injection Hst.
  - intros t d H.
    destruct (leje_run_tables L sheet t d H) as (t0 & df & cl & Hstd & Hcl & Ht & Hb).
    exists df, cl. split; [exact Ht|]. split; [exact Hcl|]. split.
    + exact (leje_standardize_keeps sheet t0 df Hstd).
    + apply map_result_Forall2 in Hb. eapply Forall2_impl; [exact Hb|].
      intros row b Hrow. exact (leje_bolig_leje_maned L cl row b Hrow).
Qed.

Lemma explicit_monthly_rent_unused_witness :
  run_value (λ d, Leje.leje_maned <$> Leje.boliger d)
            (Leje.process_leje_data plain_lib leje_demo_sheet)
    = Some [10000; 8333] ∧
  (λ df, get_col df "Leje/måned")
    <$> rendered_tables (Leje.process_leje_data plain_lib leje_demo_sheet).1
    = replicate 3 (Ok (replicate 3 (CNum (qz 1)))) ∧
  ∃ t d df cl,
    Leje.process_leje_data plain_lib leje_demo_sheet = (t, Ok d) ∧
    rendered_tables t = [df; df; df] ∧
    dropna Leje.required df = Ok cl ∧
    Forall2 (λ row b,
               ∃ y : Qc, cell_at "Årsleje" row = CNum y ∧
                         Leje.leje_maned b = trunc (y / qz 12))
            (rows cl) (Leje.boliger d).
Proof.
  split; [vm_compute; reflexivity|]. split; [vm_compute; reflexivity|].
  assert (Hok : run_ok (Leje.process_leje_data plain_lib leje_demo_sheet) = true)
    by (vm_compute; reflexivity).
  apply run_ok_inv in Hok as (t & d & Hrun).
  destruct (proj2 (explicit_monthly_rent_unused plain_lib leje_demo_sheet) t d Hrun)
    as (df & cl & Ht & Hcl & _ & Hall).
  exists t, d, df, cl. exact (conj Hrun (conj Ht (conj Hcl Hall))).
Defined.

(** ** The room estimate in the ownership pipeline *)

Lemma estimate_rooms_column (cells : list cell) :
  Forall (λ c, is_str c = false) cells →
  ∃ est, map_result estimate_rooms cells = Ok est ∧
         Forall2 (λ c n, estimate_rooms c = Ok n) cells est.
Proof.
  induction 1 as [|c cells Hc _ (est & E & IH)]; [by exists []|].
  destruct (estimate_rooms c) as [n|e] eqn:En.
  - exists (n :: est). simpl. rewrite En, E. split; [done|]. by constructor.
  - destruct c as [s|a|]; [done| |done]. unfold estimate_rooms in En.
    repeat (destruct (Qclt_le_dec _ _); [done|]). done.
Qed.

Lemma trunc_qz (z : Z) : trunc (qz z) = z.
Proof.
  unfold trunc, qz. simpl.
  rewrite (Qred_identity (inject_Z z)) by (simpl; apply Z.gcd_1_r).
  simpl. apply Z.quot_1_r.
Qed.

Lemma qz_inj (x y : Z) : qz x = qz y → x = y.
Proof. intros H. apply (f_equal trunc) in H. by rewrite !trunc_qz in H. Qed.

(** C7: when the ownership table has no room column under any of the five
    names, [ensure_rooms] estimates one from the area column: the run prints
    the warning and gives every row the room count 2 for an area below 50,
    3 below 75, 4 below 100, 5 below 125 and 6 from 125 on (and for a missing
    area).  The count never decreases from a row to a row of larger area,
    and the areas 49, 50, 74, 75, 99, 100, 124 and 125 get 2, 3, 3, 4, 4, 5,
    5 and 6 rooms. *)
Theorem ensure_rooms_step_function (area_col : string) (df : DataFrame) :
  has_column df area_col = true →
  first_present (columns df)
    ["Antal Værelser"; "Antal værelser"; "Værelser"; "Rooms"; "Antal rum"] = None →
  Forall (λ r, is_str (cell_at area_col r) = false) (rows df) →
  ∃ df',
    Ejer.ensure_rooms area_col df = ([EPrint MsgEstimating], Ok df') ∧
    Forall2 (λ r r',
       ∃ n : Z, cell_at "Antal Værelser" r' = CNum (qz n) ∧
         match cell_at area_col r with
         | CNum a =>
             ((a < qz 50)%Qc ∧ n = 2) ∨
             ((qz 50 ≤ a)%Qc ∧ (a < qz 75)%Qc ∧ n = 3) ∨
             ((qz 75 ≤ a)%Qc ∧ (a < qz 100)%Qc ∧ n = 4) ∨
             ((qz 100 ≤ a)%Qc ∧ (a < qz 125)%Qc ∧ n = 5) ∨
             ((qz 125 ≤ a)%Qc ∧ n = 6)
         | _ => n = 6
         end)
      (rows df) (rows df') ∧
    (∀ i j ri rj ri' rj' (ai aj : Qc) (ni nj : Z),
       rows df !! i = Some ri → rows df' !! i = Some ri' →
       rows df !! j = Some rj → rows df' !! j = Some rj' →
       cell_at area_col ri = CNum ai → cell_at area_col rj = CNum aj →
       cell_at "Antal Værelser" ri' = CNum (qz ni) →
       cell_at "Antal Værelser" rj' = CNum (qz nj) →
       (ai ≤ aj)%Qc → ni ≤ nj) ∧
    Forall2 (λ r r',
       ∀ area rooms : Z,
         (area, rooms) ∈ [(49, 2); (50, 3); (74, 3); (75, 4);
                          (99, 4); (100, 5); (124, 5); (125, 6)] →
         cell_at area_col r = CNum (qz area) →
         cell_at "Antal Værelser" r' = CNum (qz rooms))
      (rows df) (rows df').
Proof.
  intros Harea Hnone Hnum.
  assert (Hcol : has_column df "Antal Værelser" = false ∧
                 first_present (columns df)
                   ["Antal værelser"; "Værelser"; "Rooms"; "Antal rum"] = None).
  { unfold has_column. simpl in Hnone.
    destruct (bool_decide ("Antal Værelser" ∈ columns df)); [done|]. by split. }
  destruct Hcol as [Hcol Hother].
  destruct (estimate_rooms_column (cell_at area_col <$> rows df)) as (est & Eest & Hest).
  { by rewrite Forall_fmap. }
  exists (set_col df "Antal Værelser" ((λ n, CNum (qz n)) <$> est)).
  assert (Hrun : Ejer.ensure_rooms area_col df
                 = ([EPrint MsgEstimating],
                    Ok (set_col df "Antal Værelser" ((λ n, CNum (qz n)) <$> est)))).
  { unfold Ejer.ensure_rooms. rewrite Hcol, Hother.
    unfold get_col, series_apply. rewrite Harea. unfold print, lift.
    rewrite M_bind_Ok. cbn [fst snd]. rewrite M_bind_Ok. cbn [fst snd].
    rewrite Eest. reflexivity. }
  (* every row with its estimate *)
  assert (Hrows : Forall2 (λ r r', ∃ n, estimate_rooms (cell_at area_col r) = Ok n ∧
                                        cell_at "Antal Værelser" r' = CNum (qz n))
                    (rows df) (rows (set_col df "Antal Værelser"
                                       ((λ n, CNum (qz n)) <$> est)))).
  { simpl. rewrite Forall2_fmap_l in Hest.
    assert (Hcells :
      cell_at "Antal Værelser" <$>
        imap (λ i r, <["Antal Værelser" :=
                         default CNaN (((λ n, CNum (qz n)) <$> est) !! i)]> r) (rows df)
      = (λ n, CNum (qz n)) <$> est).
    { apply imap_insert_column_same. rewrite length_fmap.
      symmetry. by eapply Forall2_length. }
    revert Hcells.
    generalize (imap (λ i r, <["Antal Værelser" :=
                         default CNaN (((λ n, CNum (qz n)) <$> est) !! i)]> r) (rows df)).
    intros l Hl. revert l Hl. clear -Hest.
    induction Hest as [|r n rs ns Hr _ IH]; intros [|r' l] Hl; try done.
    injection Hl as Hr' Hl. constructor; [|by apply IH]. by exists n. }
  split; [exact Hrun|]. split; [|split].
  - eapply Forall2_impl; [exact Hrows|]. intros r r' (n & En & Hn). exists n.
    split; [done|]. destruct (cell_at area_col r) as [s|a|]; [done| |by injection En].
    destruct (estimate_rooms_cases a)
      as [[? E]|[(?&?&E)|[(?&?&E)|[(?&?&E)|[? E]]]]];
      rewrite E in En; injection En as <-; tauto.
  - intros i j ri rj ri' rj' ai aj ni nj Hi Hi' Hj Hj' Eai Eaj Eni Enj Hle.
    destruct (Forall2_lookup_lr _ _ _ _ _ _ Hrows Hi Hi') as (n1 & E1 & H1).
    destruct (Forall2_lookup_lr _ _ _ _ _ _ Hrows Hj Hj') as (n2 & E2 & H2).
    rewrite Eai in E1. rewrite Eaj in E2.
    rewrite H1 in Eni. rewrite H2 in Enj.
    assert (n1 = ni) as -> by (apply qz_inj; congruence).
    assert (n2 = nj) as -> by (apply qz_inj; congruence).
    destruct (estimate_rooms_cases ai)
      as [[? Ea]|[(?&?&Ea)|[(?&?&Ea)|[(?&?&Ea)|[? Ea]]]]];
    destruct (estimate_rooms_cases aj)
      as [[? Eb]|[(?&?&Eb)|[(?&?&Eb)|[(?&?&Eb)|[? Eb]]]]];
      rewrite Ea in E1; rewrite Eb in E2; injection E1 as <-; injection E2 as <-;
      first [lia | exfalso; qc_order].
  - eapply Forall2_impl; [exact Hrows|]. intros r r' (n & En & Hn) area rooms Hin Ha.
    rewrite Hn. rewrite Ha in En.
    rewrite !elem_of_cons, elem_of_nil in Hin.
    destruct Hin as [Hin|[Hin|[Hin|[Hin|[Hin|[Hin|[Hin|[Hin|[]]]]]]]]];
      injection Hin as -> ->; vm_compute in En; by injection En as <-.
Qed.

Lemma ensure_rooms_step_function_witness :
  ∃ df',
    Ejer.ensure_rooms "Enhedsareal" (snd (first_sheet ejer_demo_workbook))
    = ([EPrint MsgEstimating], Ok df') ∧
    cell_at "Antal Værelser" <$> rows df' = [CNum (qz 3); CNum (qz 3)].
Proof.
  destruct (ensure_rooms_step_function "Enhedsareal" (snd (first_sheet ejer_demo_workbook)))
    as (df' & Hrun & _ & _ & Hb).
  - reflexivity.
  - reflexivity.
  - by repeat constructor.
  - exists df'. split; [exact Hrun|].
    simpl in Hb. destruct (rows df') as [|r1 [|r2 [|r3 l]]];
      try by (repeat match goal with H : Forall2 _ _ _ |- _ => inversion H; clear H; subst end).
    apply Forall2_cons in Hb as [H1 Hb]. apply Forall2_cons in Hb as [H2 _].
    simpl. rewrite (H1 74 3), (H2 74 3); [done| | | |];
      first [by apply (bool_decide_unpack _) | reflexivity].
Defined.

(** ** Statistics and the order of the rows *)

Global Instance Qcle_trans_inst : Transitive Qcle.
Proof. intros x y z. apply Qcle_trans. Qed.

Global Instance Qcle_antisym_inst : AntiSymm (=) Qcle.
Proof. intros x y. apply Qcle_antisym. Qed.

Global Instance Qcle_total_inst : Total Qcle.
Proof.
  intros x y. destruct (Qclt_le_dec x y) as [H|H]; [left|right; exact H].
  by apply Qclt_le_weak.
Qed.

Lemma string_leb_trans (s t u : string) :
  String.leb s t = true → String.leb t u = true → String.leb s u = true.
Proof.
  unfold String.leb. revert t u.
  induction s as [|a s IH]; intros [|b t] [|c u]; simpl; try done.
  unfold Ascii.compare.
  destruct (N.compare_spec (N_of_ascii a) (N_of_ascii b)) as [E1|E1|E1],
           (N.compare_spec (N_of_ascii b) (N_of_ascii c)) as [E2|E2|E2],
           (N.compare_spec (N_of_ascii a) (N_of_ascii c)) as [E3|E3|E3];
    try done; try lia.
  apply IH.
Qed.

Global Instance label_le_trans : Transitive label_le.
Proof.
  intros [s|x|] [t|y|] [u|z|]; simpl; try done.
  - apply string_leb_trans.
  - apply Qcle_trans.
Qed.

Global Instance label_le_antisym : AntiSymm (=) label_le.
Proof.
  intros [s|x|] [t|y|]; simpl; try done.
  - intros H1 H2. f_equal. by apply String.leb_antisym.
  - intros H1 H2. f_equal. by apply Qcle_antisym.
Qed.

Global Instance label_le_total : Total label_le.
Proof.
  intros [s|x|] [t|y|]; simpl; try tauto.
  - apply String.leb_total.
  - apply Qcle_total_inst.
Qed.

Global Instance entry_le_trans : Transitive entry_le.
Proof. intros a b c. unfold entry_le. apply label_le_trans. Qed.

Global Instance entry_le_total : Total entry_le.
Proof. intros a b. unfold entry_le. apply label_le_total. Qed.

Lemma result_rel_refl {A} (S : A → A → Prop) (r : result A) :
  (∀ a, S a a) → result_rel S r r.
Proof. intros H. destruct r; simpl; auto. Qed.


























Lemma insert_desc_perm (x : cell * nat) (l : list (cell * nat)) :
  insert_desc x l ≡ₚ x :: l.
Proof.
  induction l as [|y l IH]; simpl; [done|].
  destruct (snd y <=? snd x)%nat; [done|]. rewrite IH. apply perm_swap.
Qed.

Lemma sort_desc_perm (l : list (cell * nat)) : sort_desc l ≡ₚ l.
Proof.
  induction l as [|x l IH]; simpl; [done|]. by rewrite insert_desc_perm, IH.
Qed.










Lemma get_col_perm (df df' : DataFrame) (c : string) :
  columns df = columns df' → rows df ≡ₚ rows df' →
  result_rel (≡ₚ) (get_col df c) (get_col df' c).
Proof.
  intros Hc Hr. unfold get_col, has_column. rewrite Hc.
  destruct (bool_decide _); simpl; [|done]. by rewrite Hr.
Qed.


(** *** The order of a histogram *)

















(** ** Examples *)

Example split_words :
  PyStr.split " 2200 København N" = ["2200"; "København"; "N"].
Proof. reflexivity. Qed.

Example lower_danish :
  PyStr.lower_latin1 "RÅDMANDSGADE 34" = "rådmandsgade 34".
Proof. reflexivity. Qed.

Example find_column_second_candidate :
  find_column (mkDF ["Adresse"; "Leje pr. m2"] []) ["Leje/m2"; "Leje pr. m2"]
  = ([], Ok "Leje pr. m2").
Proof. reflexivity. Qed.

Example median_of_four :
  result_value (λ f, match f with Fnum q => Some (trunc q) | Fnan => None end)
    (median [CNum (qz 9); CNum (qz 1); CNaN; CNum (qz 4); CNum (qz 2)])
  = Some (Some 3).
Proof. vm_compute. reflexivity. Qed.

Example city_counts_ties_by_first_appearance :
  value_counts [CStr "B"; CStr "A"; CNaN; CStr "C"; CStr "A"]
  = [(CStr "A", 2%nat); (CStr "B", 1%nat); (CStr "C", 1%nat)].
Proof. vm_compute. reflexivity. Qed.

Example room_histogram_2_2_3 :
  sort_index (value_counts [CNum (qz 3); CNum (qz 2); CNum (qz 2)])
  = Ok [(CNum (qz 2), 2%nat); (CNum (qz 3), 1%nat)].
Proof. vm_compute. reflexivity. Qed.

Example round_binary64_values :
  this (round_binary64 (Q2Qc (1 # 3))) = (6004799503160661 # 18014398509481984) ∧
  this (round_binary64 (Q2Qc (27050 # 3))) = (4956964921890133 # 549755813888) ∧
  this (round_binary64 (Q2Qc (-1 # 10))) = (-3602879701896397 # 36028797018963968) ∧
  this (round_binary64 (qz 9007199254740993)) = (9007199254740992 # 1) ∧
  this (round_binary64 (qz 9007199254740995)) = (9007199254740996 # 1) ∧
  this (round_binary64 (dec 5569 2)) = (979708840813527 # 17592186044416).
Proof. vm_compute. repeat split. Qed.

(** In binary64 the mean follows the order of the rows: three yearly rents
    whose monthly rents add up to 44625 in one order and to a float just
    below it in another give an average rent of 14875 or of 14874. *)
Example mean_follows_row_order :
  rows leje_three ≡ₚ rows leje_three_swapped ∧
  result_value Leje.gns_leje (Leje.statistics binary64_lib leje_three (len leje_three))
  = Some 14875 ∧
  result_value Leje.gns_leje
    (Leje.statistics binary64_lib leje_three_swapped (len leje_three_swapped))
  = Some 14874 ∧
  result_value Leje.gns_leje (Leje.statistics plain_lib leje_three (len leje_three))
  = Some 14875.
Proof.
  split; [apply perm_skip, perm_swap|]. vm_compute. repeat split.
Qed.

Example empty_table_has_no_mean (L : Lib) :
  result_value id (x ← mean L []; int_of_float x) = None.
Proof. reflexivity. Qed.

(** * Further properties *)

(** X6: cleaning is idempotent: the cleaned table has the columns of the table
    it came from and those of its rows, in order, that are complete; every
    row of it is complete, so cleaning it again changes nothing. *)
Theorem dropna_idempotent (subset : list string) (df cl : DataFrame) :
  dropna subset df = Ok cl →
  dropna subset cl = Ok cl ∧
  Forall (λ r, complete subset r = true) (rows cl) ∧
  columns cl = columns df ∧
  sublist (rows cl) (rows df).
Proof.
  intros H. pose proof H as [Hc Hr]%dropna_inv.
  assert (Hall : Forall (λ r, complete subset r = true) (rows cl)).
  { rewrite Hr. apply Forall_forall. intros r Hin. 
    apply list_elem_of_In, List.filter_In in Hin. tauto. }
  repeat split; try done.
  - unfold dropna in *. rewrite Hc. destruct (first_missing _ _); [done|].
    f_equal. destruct cl as [c r]. simpl in *. f_equal; [done|].
    by apply filter_id_iff.
  - rewrite Hr. clear. induction (rows df) as [|r l IH]; simpl; [constructor|].
    destruct (complete subset r); by constructor.
Qed.

Lemma get_col_rows (df : DataFrame) (c : string) (vals : list cell) :
  get_col df c = Ok vals → length vals = len df.
Proof. intros [_ ->]%get_col_inv. by rewrite length_fmap. Qed.

Lemma leje_statistics_rows (L : Lib) (cl : DataFrame) (n : nat) (st : Leje.Stats) :
  Leje.statistics L cl n = Ok st → (0 < len cl)%nat.
Proof.
  unfold Leje.statistics. intros H.
  apply result_bind_inv in H as (c & Hc & H).
  apply result_bind_inv in H as (m & Hm & H).
  apply result_bind_inv in H as (v & Hv & _).
  apply get_col_rows in Hc. destruct c as [|x c]; [by injection Hm as <-|]. simpl in Hc. lia.
Qed.

Lemma ejer_statistics_rows (L : Lib) (cl : DataFrame) (n : nat) (st : Ejer.Stats) :
  Ejer.statistics L cl n = Ok st → (0 < len cl)%nat.
Proof.
  unfold Ejer.statistics. intros H.
  apply result_bind_inv in H as (c & Hc & H).
  apply result_bind_inv in H as (m & Hm & H).
  apply result_bind_inv in H as (v & Hv & _).
  apply get_col_rows in Hc. destruct c as [|x c]; [by injection Hm as <-|]. simpl in Hc. lia.
Qed.

(** X8: neither pipeline returns an empty report: when a run succeeds, at least
    one row survived cleaning (the mean of an empty column is nan, and
    [int(nan)] raises), and the count it reports is the number of its
    listings. *)
Theorem report_never_empty (L : Lib) :
  (∀ sheet t d,
     Leje.process_leje_data L sheet = (t, Ok d) →
     (0 < Leje.total_boliger (Leje.stats d))%nat ∧
     Leje.total_boliger (Leje.stats d) = length (Leje.boliger d)) ∧
  (∀ wb t d,
     Ejer.process_ejer_data L wb = (t, Ok d) →
     (0 < Ejer.total_boliger (Ejer.stats d))%nat ∧
     Ejer.total_boliger (Ejer.stats d) = length (Ejer.boliger d)).
Proof.
  split.
  - intros sheet t d (t0 & df & cl & _ & _ & _ & _ & _ & Hb & Hs & _)%leje_run_inv.
    rewrite (leje_statistics_total _ _ _ _ Hs).
    apply map_result_length in Hb. apply leje_statistics_rows in Hs.
    unfold len in Hs. split; [lia|done].
  - intros wb t d (t0 & df & cl & _ & _ & _ & _ & _ & Hb & Hs & _)%ejer_run_inv.
    rewrite (ejer_statistics_total _ _ _ _ Hs).
    apply map_result_length in Hb. apply ejer_statistics_rows in Hs.
    unfold len in Hs. split; [lia|done].
Qed.

Lemma extends_copy_col (added : list string) (dst src : string) (sheet df a : DataFrame) :
  extends_sheet added sheet df → copy_col df dst src = Ok a →
  extends_sheet (dst :: added) sheet a.
Proof.
  intros [Hl Hc] H. unfold copy_col in H.
  destruct (get_col df src) as [vals|]; [|done]. injection H as <-. split.
  - unfold len, set_col. simpl. by rewrite length_imap.
  - intros c. rewrite elem_of_set_col_columns, Hc, elem_of_cons. tauto.
Qed.

Lemma extends_set_col (added : list string) (dst : string) (vals : list cell)
      (sheet df : DataFrame) :
  extends_sheet added sheet df → extends_sheet (dst :: added) sheet (set_col df dst vals).
Proof.
  intros [Hl Hc]. split.
  - unfold len, set_col. simpl. by rewrite length_imap.
  - intros c. rewrite elem_of_set_col_columns, Hc, elem_of_cons. tauto.
Qed.

Lemma extends_set_col_scalar (added : list string) (dst : string) (v : cell)
      (sheet df : DataFrame) :
  extends_sheet added sheet df →
  extends_sheet (dst :: added) sheet (set_col_scalar df dst v).
Proof.
  intros [Hl Hc]. split.
  - unfold len, set_col_scalar. simpl. by rewrite length_fmap.
  - intros c. rewrite elem_of_cons. specialize (Hc c).
    unfold set_col_scalar, has_column. simpl. case_bool_decide as Hd.
    + specialize (Hc). split; [tauto|]. intros [?|[->|?]]; tauto.
    + rewrite elem_of_app, list_elem_of_singleton. tauto.
Qed.

Ltac extends_copy :=
  eapply ok_inv_bind;
  [ apply ok_inv_lift; intros ? ?; eapply extends_copy_col; eassumption
  | intros ? ? ].

Lemma leje_standardize_extends (sheet : DataFrame) :
  ok_inv (extends_sheet (Leje.required ++ ["Opførelsesår"; "Boligtype"; "Leje/måned"])
            sheet)
         (Leje.standardize sheet).
Proof.
  unfold Leje.standardize.
  do 9 keeps_find. cbv zeta.
  assert (H0 : extends_sheet [] sheet sheet).
  { split; [done|]. intros c. rewrite elem_of_nil. tauto. }
  do 9 extends_copy.
  eapply (ok_inv_bind (extends_sheet ("Opførelsesår" :: _) sheet)).
  { destruct (first_present _ _) as [c|].
    - extends_copy. eapply (ok_inv_bind (λ _, True)); [by intros ? ? _|intros ? _].
      by apply ok_inv_ret.
    - eapply (ok_inv_bind (λ _, True)); [by intros ? ? _|intros ? _].
      apply ok_inv_ret. by apply extends_set_col_scalar. }
  intros ? ?.
  eapply (ok_inv_bind (extends_sheet ("Boligtype" :: _) sheet)).
  { destruct (first_present _ _) as [c|].
    - extends_copy. eapply (ok_inv_bind (λ _, True)); [by intros ? ? _|intros ? _].
      by apply ok_inv_ret.
    - eapply (ok_inv_bind (λ _, True)); [by intros ? ? _|intros ? _].
      apply ok_inv_ret. by apply extends_set_col_scalar. }
  intros df [Hl Hc].
  assert (Hperm : ∀ (S S' : list string) (d : DataFrame),
             (∀ c, c ∈ S ↔ c ∈ S') → extends_sheet S sheet d → extends_sheet S' sheet d).
  { intros S S' d HS [? Hd]. split; [done|]. intros c. by rewrite Hd, HS. }
  destruct (has_column df "Leje/måned") eqn:Es.
  - apply ok_inv_ret. split; [done|]. intros c. rewrite Hc.
    apply bool_decide_eq_true in Es. rewrite Hc in Es.
    destruct Es as [Es|Es]; [|exfalso; revert Es; by apply (bool_decide_unpack _)].
    match goal with |- _ ∨ c ∈ ?S ↔ _ ∨ c ∈ ?S' =>
      assert (H1' : S ⊆ S') by (by apply (bool_decide_unpack _));
      assert (H2' : S' ⊆ "Leje/måned" :: S) by (by apply (bool_decide_unpack _))
    end.
    split; intros [?|Hin]; auto.
    apply H2', elem_of_cons in Hin as [->|?]; auto.
  - intros t x Hx.
    apply M_bind_inv in Hx as (? & c_aar & ? & [_ Ha]%lift_inv & Hx & _).
    apply M_bind_inv in Hx as (? & c_maned & ? & [_ Hm]%lift_inv & Hx & _).
    injection Hx as _ <-.
    eapply Hperm; [|apply extends_set_col; split; [exact Hl|exact Hc]].
    intros c.
    match goal with |- c ∈ ?S ↔ c ∈ ?S' =>
      assert (H1' : S ⊆ S') by (by apply (bool_decide_unpack _));
      assert (H2' : S' ⊆ S) by (by apply (bool_decide_unpack _))
    end.
    split; auto.
Qed.

(** X4: the standardized rental table has one row per row of the sheet, every
    column of the sheet, and besides them only the twelve standard columns;
    so cleaning it cannot fail on a missing column. *)
Theorem leje_standardize_columns (sheet df : DataFrame) (t : list event) :
  Leje.standardize sheet = (t, Ok df) →
  len df = len sheet ∧
  (∀ c, c ∈ columns df ↔
        c ∈ columns sheet ∨
        c ∈ Leje.required ++ ["Opførelsesår"; "Boligtype"; "Leje/måned"]) ∧
  ∃ cl, dropna Leje.required df = Ok cl ∧
        rows cl = List.filter (complete Leje.required) (rows df).
Proof.
  intros H. destruct (leje_standardize_extends sheet t df H) as [Hl Hc].
  split; [exact Hl|]. split; [exact Hc|].
  apply dropna_total. apply Forall_forall. intros c Hin.
  apply Hc. right. apply elem_of_app. by left.
Qed.

Lemma M_bind_ret_nil {A B} (a : A) (f : A → M B) : (([], Ok a) : M A) ≫= f = f a.
Proof. unfold mbind, M_bind. by destruct (f a). Qed.

Lemma find_column_found (df : DataFrame) (names : list string) (name : string) :
  first_present (columns df) names = Some name → find_column df names = ([], Ok name).
Proof. unfold find_column. by intros ->. Qed.

Lemma find_column_missing (df : DataFrame) (names : list string) :
  first_present (columns df) names = None →
  ∃ t, find_column df names = (t, Raise (KeyError_columns names)) ∧
       no_render t ∧ reported_columns t = columns df.
Proof.
  intros E.
  exists (EPrint (MsgColumnsNotFound names) :: EPrint MsgAvailableColumns
            :: imap (λ i col, EPrint (MsgColumn (S i) col)) (columns df)
            ++ [EPrint MsgTip]).
  assert (Hf : find_column df names =
     (EPrint (MsgColumnsNotFound names) :: EPrint MsgAvailableColumns
            :: imap (λ i col, EPrint (MsgColumn (S i) col)) (columns df)
            ++ [EPrint MsgTip], Raise (KeyError_columns names))).
  { unfold find_column. rewrite E.
    rewrite (for_each_print (λ ic, MsgColumn ic.1 ic.2)).
    cbn. rewrite fmap_imap. reflexivity. }
  split; [exact Hf|split].
  - pose proof (no_render_find_column df names) as H. by rewrite Hf in H.
  - unfold reported_columns. cbn. rewrite omap_app. cbn. rewrite app_nil_r.
    apply reported_columns_lines.
Qed.

Lemma leje_standardize_missing (sheet : DataFrame) (earlier later : list (list string))
      (names : list string) :
  leje_candidates = earlier ++ names :: later →
  Forall (λ ns, is_Some (first_present (columns sheet) ns)) earlier →
  first_present (columns sheet) names = None →
  ∃ t, Leje.standardize sheet = (t, Raise (KeyError_columns names)) ∧
       no_render t ∧ reported_columns t = columns sheet.
Proof.
  intros Hsplit Hall Hnone.
  destruct (find_column_missing sheet names Hnone) as (t & Ht & Hnr & Hrep).
  exists t. split; [|done].
  unfold Leje.standardize. unfold leje_candidates in Hsplit.
  repeat (destruct earlier as [|e earlier];
          [ injection Hsplit as <- _; by rewrite Ht
          | injection Hsplit as <- Hsplit;
            apply Forall_cons in Hall as [[? Hfound] Hall];
            rewrite (find_column_found _ _ _ Hfound), M_bind_ret_nil; clear Hfound ]).
  by destruct earlier.
Qed.

(** X2: a rental sheet that lacks a required field: the run ends with the
    KeyError of the first field, in resolution order, none of whose candidate
    names is a column; the columns of the sheet have been listed, and no
    chart has been requested. *)
Theorem leje_missing_column_aborts (L : Lib) (sheet : DataFrame)
        (earlier later : list (list string)) (names : list string) :
  leje_candidates = earlier ++ names :: later →
  Forall (λ ns, is_Some (first_present (columns sheet) ns)) earlier →
  first_present (columns sheet) names = None →
  ∃ t, Leje.process_leje_data L sheet = (t, Raise (KeyError_columns names)) ∧
       render_calls t = [] ∧ reported_columns t = columns sheet.
Proof.
  intros H1 H2 H3.
  destruct (leje_standardize_missing sheet earlier later names H1 H2 H3)
    as (t & Ht & Hnr & Hrep).
  exists t. unfold Leje.process_leje_data. rewrite Ht. split; [done|].
  split; [by apply no_render_calls|done].
Qed.

Lemma ok_total_bind {A B} (P : A → Prop) (Q : B → Prop) (m : M A) (f : A → M B) :
  ok_total P m → (∀ a, P a → ok_total Q (f a)) → ok_total Q (m ≫= f).
Proof.
  intros (t & a & -> & Ha) Hf. destruct (Hf a Ha) as (t' & b & E & Hb).
  exists (t ++ t'), b. rewrite M_bind_Ok, E. done.
Qed.

Lemma ok_total_ret {A} (P : A → Prop) (a : A) : P a → ok_total P (mret a).
Proof. intros H. by exists [], a. Qed.

Lemma ok_total_print {A} (Q : A → Prop) (m : message) (k : M A) :
  ok_total Q k → ok_total Q (print m;; k).
Proof.
  intros H. apply (ok_total_bind (λ _, True)); [by exists [EPrint m], tt|done].
Qed.

Lemma ok_total_find_column (df : DataFrame) (names : list string) :
  is_Some (first_present (columns df) names) →
  ok_total (λ n, n ∈ names ∧ n ∈ columns df) (find_column df names).
Proof.
  intros [n E]. exists [], n. split; [by apply find_column_found|].
  apply first_present_Some in E as (e & l & -> & _ & Hin). set_solver.
Qed.

Lemma carries_copy_col (added : list string) (k s dst src : string)
      (sheet df : DataFrame) :
  dst ≠ k → src ∈ columns sheet → carries added k s sheet df →
  ok_total (carries (dst :: added) k s sheet) (lift (copy_col df dst src)).
Proof.
  intros Hne Hsrc [He Hk].
  assert (Hin : has_column df src = true).
  { apply bool_decide_eq_true. apply He. by left. }
  exists [], (set_col df dst (cell_at src <$> rows df)). split.
  - unfold lift, copy_col, get_col. by rewrite Hin.
  - split; [by apply extends_set_col|].
    simpl. rewrite imap_insert_column; done.
Qed.

Lemma carries_copy_col_from (added : list string) (k s dst : string)
      (sheet df : DataFrame) :
  k ∈ columns sheet → carries added k s sheet df →
  ok_total (carries (dst :: added) dst s sheet) (lift (copy_col df dst k)).
Proof.
  intros Hsrc [He Hk].
  assert (Hin : has_column df k = true).
  { apply bool_decide_eq_true. apply He. by left. }
  exists [], (set_col df dst (cell_at k <$> rows df)). split.
  - unfold lift, copy_col, get_col. by rewrite Hin.
  - split; [by apply extends_set_col|].
    simpl. rewrite imap_insert_column_same; [done|]. by rewrite length_fmap.
Qed.

Lemma carries_set_col_scalar (added : list string) (k s dst : string) (v : cell)
      (sheet df : DataFrame) :
  dst ≠ k → carries added k s sheet df →
  carries (dst :: added) k s sheet (set_col_scalar df dst v).
Proof.
  intros Hne [He Hk]. split; [by apply extends_set_col_scalar|].
  simpl. rewrite <- Hk, <- list_fmap_compose. apply list_fmap_ext.
  intros i r _. simpl. rewrite cell_at_insert. by destruct (decide _).
Qed.

Lemma series_div_total (d : Qc) (vals : list cell) :
  Forall (λ c, is_str c = false) vals → ∃ r, series_div d vals = Ok r.
Proof.
  unfold series_div. induction 1 as [|c vals Hc _ [r IH]]; simpl; [by eexists|].
  rewrite IH. destruct c as [s|q|]; [done| |]; simpl; by eexists.
Qed.

Ltac in_list := by apply (bool_decide_unpack _).

Ltac total_copy :=
  eapply ok_total_bind;
  [ apply carries_copy_col; [|eassumption|eassumption] | intros ? ? ].

(** X3: the standardization of a rental sheet succeeds when each of the nine
    required fields has a candidate name among the columns, and the
    yearly-rent column holds no text or the sheet brings its own monthly
    rent. *)
Theorem leje_standardize_succeeds (sheet : DataFrame) :
  Forall (λ ns, is_Some (first_present (columns sheet) ns)) leje_candidates →
  (has_column sheet "Leje/måned" = true ∨
   ∀ c, first_present (columns sheet) ["Årsleje"; "Arsleje"; "Yearly rent"] = Some c →
        no_text c sheet) →
  ∃ t df, Leje.standardize sheet = (t, Ok df) ∧ len df = len sheet.
Proof.
  intros Hall Htext. unfold leje_candidates in Hall.
  assert (Hyear : ∃ yc, first_present (columns sheet)
                          ["Årsleje"; "Arsleje"; "Yearly rent"] = Some yc).
  { by do 6 apply Forall_cons in Hall as [_ Hall];
       apply Forall_cons in Hall as [[yc E] _]; exists yc. }
  destruct Hyear as [yc0 Eyc].
  repeat (apply Forall_cons in Hall as [?%ok_total_find_column Hall]).
  cut (ok_total (λ df, len df = len sheet) (Leje.standardize sheet)).
  { intros (t & df & ? & ?). by exists t, df. }
  unfold Leje.standardize.
  eapply ok_total_bind; [eassumption|intros address_col [_ ?]].
  eapply ok_total_bind; [eassumption|intros city_col [_ ?]].
  eapply ok_total_bind; [eassumption|intros lat_col [_ ?]].
  eapply ok_total_bind; [eassumption|intros lng_col [_ ?]].
  eapply ok_total_bind; [eassumption|intros area_col [_ ?]].
  eapply ok_total_bind; [eassumption|intros price_m2_col [_ ?]].
  eapply (ok_total_bind (λ n, n = yc0)).
  { exists [], yc0. split; [by apply find_column_found|done]. }
  intros yc ->.
  eapply ok_total_bind; [eassumption|intros days_col [_ ?]].
  eapply ok_total_bind; [eassumption|intros rooms_col [_ ?]].
  cbv zeta.
  pose proof Eyc as (? & ? & Hsplit & _ & Hycs)%first_present_Some.
  assert (Hyc : yc0 ∈ ["Årsleje"; "Arsleje"; "Yearly rent"]).
  { rewrite Hsplit, elem_of_app, elem_of_cons. auto. }
  assert (Hstart : carries [] yc0 yc0 sheet sheet).
  { split; [|done]. split; [done|]. intros c. rewrite elem_of_nil. tauto. }
  assert (Hdst : ∀ dst, dst ∉ ["Årsleje"; "Arsleje"; "Yearly rent"] → dst ≠ yc0).
  { intros dst Hd ->. done. }
  do 6 (total_copy; [apply Hdst; in_list|]).
  eapply ok_total_bind;
    [apply carries_copy_col_from; [eassumption|eassumption]|intros ? ?].
  do 2 (total_copy; [done|]).
  eapply (ok_total_bind (carries ("Opførelsesår" :: _) "Årsleje" yc0 sheet)).
  { match goal with |- context [match ?x with Some _ => _ | None => _ end] =>
      destruct x as [c|] eqn:E end.
    - apply first_present_Some in E as (? & ? & _ & _ & Hc).
      total_copy; [done|].
      apply ok_total_print. by apply ok_total_ret.
    - apply ok_total_print. apply ok_total_ret. by apply carries_set_col_scalar. }
  intros ? ?.
  eapply (ok_total_bind (carries ("Boligtype" :: _) "Årsleje" yc0 sheet)).
  { match goal with |- context [match ?x with Some _ => _ | None => _ end] =>
      destruct x as [c|] eqn:E end.
    - apply first_present_Some in E as (? & ? & _ & _ & Hc).
      total_copy; [done|].
      apply ok_total_print. by apply ok_total_ret.
    - apply ok_total_print. apply ok_total_ret. by apply carries_set_col_scalar. }
  intros df [[Hl Hc] Hcells].
  destruct (has_column df "Leje/måned") eqn:Es; [by apply ok_total_ret|].
  destruct Htext as [Hm|Htext].
  { apply bool_decide_eq_true in Hm. apply bool_decide_eq_false in Es.
    destruct Es. apply Hc. by left. }
  assert (Hy : get_col df "Årsleje" = Ok (cell_at "Årsleje" <$> rows df)).
  { assert (Hh : has_column df "Årsleje" = true).
    { apply bool_decide_eq_true. apply Hc. right. in_list. }
    unfold get_col. by rewrite Hh. }
  destruct (series_div_total (qz 12) (cell_at "Årsleje" <$> rows df)) as [r Hr].
  { rewrite Hcells. apply Forall_fmap. by apply Htext. }
  exists [], (set_col df "Leje/måned" r). split.
  - rewrite Hy. unfold lift. rewrite M_bind_ret_nil, Hr, M_bind_ret_nil. done.
  - unfold len, set_col. simpl. by rewrite length_imap.
Qed.

Lemma total_count_add (k : cell) (acc : list (cell * nat)) :
  total_count (count_add k acc) = S (total_count acc).
Proof.
  unfold total_count. induction acc as [|[k0 n] acc IH]; csimpl; [done|].
  destruct (decide (k = k0)); csimpl; [done|]. rewrite IH. lia.
Qed.

Lemma total_count_fold (l : list cell) (acc : list (cell * nat)) :
  total_count (fold_left (λ acc v, if isna v then acc else count_add v acc) l acc)
  = (total_count acc + length (List.filter notna l))%nat.
Proof.
  revert acc. induction l as [|v l IH]; intros acc; simpl; [lia|].
  rewrite IH. unfold notna. destruct (isna v); simpl; [done|].
  rewrite total_count_add. lia.
Qed.

Lemma total_count_perm {A} (l l' : list (A * nat)) :
  l ≡ₚ l' → total_count l = total_count l'.
Proof. intros H. unfold total_count. by rewrite H. Qed.

(** The counts of [value_counts] add up to the number of cells that are not
    missing. *)
Lemma total_count_value_counts (vals : list cell) :
  total_count (value_counts vals) = length (List.filter notna vals).
Proof.
  unfold value_counts. rewrite (total_count_perm _ _ (sort_desc_perm _)).
  unfold counts_first_seen. by rewrite total_count_fold.
Qed.

Lemma total_count_sort_index (l l' : list (cell * nat)) :
  sort_index l = Ok l' → total_count l' = total_count l.
Proof.
  unfold sort_index. destruct (_ || _); [|done]. intros [= <-].
  apply total_count_perm, merge_sort_Permutation.
Qed.

Lemma total_count_room_data (L : Lib) (l : list (cell * nat)) (l' : list (Z * nat)) :
  map_result (λ kv, k ← py_int L (fst kv); Ok (k, snd kv)) l = Ok l' →
  total_count l' = total_count l.
Proof.
  intros H%map_result_Forall2. unfold total_count.
  induction H as [|[k n] [z m] l l' Hx _ IH]; [done|].
  csimpl. rewrite IH. apply result_bind_inv in Hx as (? & _ & [= _ <-]). done.
Qed.

Lemma total_count_fmap {A B} (f : A * nat → B * nat) (l : list (A * nat)) :
  (∀ e, snd (f e) = snd e) → total_count (f <$> l) = total_count l.
Proof.
  intros Hf. unfold total_count. rewrite <- list_fmap_compose.
  apply (f_equal sum_list). apply list_fmap_ext. intros i e _. apply Hf.
Qed.

(** In a table whose rows are complete, a required column has no missing
    cell. *)
Lemma complete_column (subset : list string) (k : string) (df : DataFrame)
      (vals : list cell) :
  k ∈ subset → Forall (λ r, complete subset r = true) (rows df) →
  get_col df k = Ok vals → List.filter notna vals = vals ∧ length vals = len df.
Proof.
  intros Hk Hall [_ ->]%get_col_inv. split; [|by rewrite length_fmap].
  apply filter_id_iff. apply Forall_fmap. eapply Forall_impl; [exact Hall|].
  intros r Hr. unfold complete in Hr. rewrite forallb_forall in Hr.
  apply Hr. by apply list_elem_of_In.
Qed.

Lemma dropna_complete (subset : list string) (df cl : DataFrame) :
  dropna subset df = Ok cl → Forall (λ r, complete subset r = true) (rows cl).
Proof.
  intros [_ ->]%dropna_inv. apply Forall_forall. intros r Hin.
  apply list_elem_of_In, List.filter_In in Hin. tauto.
Qed.

Lemma leje_statistics_counts (L : Lib) (cl : DataFrame) (n : nat) (st : Leje.Stats) :
  Forall (λ r, complete Leje.required r = true) (rows cl) →
  Leje.statistics L cl n = Ok st →
  total_count (Leje.by_data st) = len cl ∧
  total_count (Leje.vaerelser_data st) = len cl.
Proof.
  intros Hall H. unfold Leje.statistics in H.
  do 18 (apply result_bind_inv in H as (? & _ & H)).
  apply result_bind_inv in H as (c_rum & Hrum & H).
  apply result_bind_inv in H as (rum_counts & Hcounts & H).
  apply result_bind_inv in H as (rum_data & Hdata & H).
  apply result_bind_inv in H as (c_by & Hby & H).
  injection H as <-. cbn [Leje.by_data Leje.vaerelser_data].
  apply (complete_column Leje.required) in Hrum as [Hr1 Hr2]; [|in_list|done].
  apply (complete_column Leje.required) in Hby as [Hb1 Hb2]; [|in_list|done].
  split.
  - rewrite total_count_fmap by done. by rewrite total_count_value_counts, Hb1.
  - rewrite (total_count_room_data _ _ _ Hdata), (total_count_sort_index _ _ Hcounts).
    by rewrite total_count_value_counts, Hr1.
Qed.

Lemma ejer_statistics_counts (L : Lib) (cl : DataFrame) (n : nat) (st : Ejer.Stats) :
  Forall (λ r, complete Ejer.required r = true) (rows cl) →
  Ejer.statistics L cl n = Ok st →
  total_count (Ejer.by_data st) = len cl ∧
  total_count (Ejer.vaerelser_data st) = len cl.
Proof.
  intros Hall H. unfold Ejer.statistics in H.
  do 16 (apply result_bind_inv in H as (? & _ & H)).
  apply result_bind_inv in H as (c_rum & Hrum & H).
  apply result_bind_inv in H as (rum_counts & Hcounts & H).
  apply result_bind_inv in H as (rum_data & Hdata & H).
  apply result_bind_inv in H as (c_by & Hby & H).
  injection H as <-. cbn [Ejer.by_data Ejer.vaerelser_data].
  apply (complete_column Ejer.required) in Hrum as [Hr1 Hr2]; [|in_list|done].
  apply (complete_column Ejer.required) in Hby as [Hb1 Hb2]; [|in_list|done].
  split.
  - rewrite total_count_fmap by done. by rewrite total_count_value_counts, Hb1.
  - rewrite (total_count_room_data _ _ _ Hdata), (total_count_sort_index _ _ Hcounts).
    by rewrite total_count_value_counts, Hr1.
Qed.

(** X9: both histograms of a report account for every listing: the counts of the
    city histogram, and those of the room histogram, add up to the number of
    listings. *)
Theorem histograms_cover_listings (L : Lib) :
  (∀ sheet t d,
     Leje.process_leje_data L sheet = (t, Ok d) →
     total_count (Leje.by_data (Leje.stats d)) = length (Leje.boliger d) ∧
     total_count (Leje.vaerelser_data (Leje.stats d)) = length (Leje.boliger d)) ∧
  (∀ wb t d,
     Ejer.process_ejer_data L wb = (t, Ok d) →
     total_count (Ejer.by_data (Ejer.stats d)) = length (Ejer.boliger d) ∧
     total_count (Ejer.vaerelser_data (Ejer.stats d)) = length (Ejer.boliger d)).
Proof.
  split.
  - intros sheet t d (t0 & df & cl & _ & _ & _ & _ & Hcl & Hb & Hs & _)%leje_run_inv.
    apply map_result_length in Hb. rewrite Hb.
    eapply leje_statistics_counts; [|exact Hs]. by eapply dropna_complete.
  - intros wb t d (t0 & df & cl & _ & _ & _ & _ & Hcl & Hb & Hs & _)%ejer_run_inv.
    apply map_result_length in Hb. rewrite Hb.
    eapply ejer_statistics_counts; [|exact Hs]. by eapply dropna_complete.
Qed.

Lemma estimate_rooms_range (area : cell) (n : Z) :
  estimate_rooms area = Ok n → 2 ≤ n ≤ 6.
Proof.
  destruct area as [s|a|]; simpl; [done| |by intros [= <-]].
  repeat (destruct (Qclt_le_dec _ _); [by intros [= <-]|]). by intros [= <-].
Qed.

(** X11: the room count of the ownership table: a column the table already has
    under one of the five names is taken as it is, also where it has missing
    cells; only when there is none is the count estimated, and then every row
    gets a number from 2 to 6. *)
Theorem ensure_rooms_spec (area_col : string) (df df' : DataFrame) (t : list event) :
  Ejer.ensure_rooms area_col df = (t, Ok df') →
  len df' = len df ∧
  has_column df' "Antal Værelser" = true ∧
  (∀ c, c ≠ "Antal Værelser" → cell_at c <$> rows df' = cell_at c <$> rows df) ∧
  match first_present (columns df)
          ["Antal Værelser"; "Antal værelser"; "Værelser"; "Rooms"; "Antal rum"] with
  | Some c =>
      t = [] ∧ cell_at "Antal Værelser" <$> rows df' = cell_at c <$> rows df
  | None =>
      t = [EPrint MsgEstimating] ∧
      Forall2 (λ r r', ∃ n, estimate_rooms (cell_at area_col r) = Ok n ∧
                            cell_at "Antal Værelser" r' = CNum (qz n) ∧ 2 ≤ n ≤ 6)
              (rows df) (rows df')
  end.
Proof.
  unfold Ejer.ensure_rooms.
  destruct (has_column df "Antal Værelser") eqn:Eh.
  { intros [= <- <-]. unfold has_column in Eh. simpl. rewrite Eh. by repeat split. }
  assert (Hfp : first_present (columns df)
                  ["Antal Værelser"; "Antal værelser"; "Værelser"; "Rooms"; "Antal rum"]
                = first_present (columns df)
                    ["Antal værelser"; "Værelser"; "Rooms"; "Antal rum"]).
  { unfold has_column in Eh. simpl. by rewrite Eh. }
  rewrite Hfp. clear Hfp.
  destruct (first_present (columns df)
              ["Antal værelser"; "Værelser"; "Rooms"; "Antal rum"]) as [c|] eqn:Ec.
  - intros [-> H]%lift_inv. unfold copy_col in H.
    destruct (get_col df c) as [vals|] eqn:Ev; [|done]. injection H as <-.
    pose proof Ev as [_ ->]%get_col_inv.
    split; [by unfold len; simpl; rewrite length_imap|].
    split; [by rewrite has_column_set_col|].
    split; [intros k Hk; simpl; by rewrite imap_insert_column|].
    split; [done|]. simpl. rewrite imap_insert_column_same; [done|].
    by rewrite length_fmap.
  - intros H.
    apply M_bind_inv in H as (? & ? & ? & ->%print_inv & H & ->).
    apply M_bind_inv in H as (? & c_area & ? & [-> Ha]%lift_inv & H & ->).
    apply M_bind_inv in H as (? & est & ? & [-> He]%lift_inv & H & ->).
    injection H as <- <-.
    apply get_col_inv in Ha as [_ ->].
    apply map_result_Forall2 in He.
    split; [by unfold len; simpl; rewrite length_imap|].
    split; [by rewrite has_column_set_col|].
    split; [intros k Hk; simpl; by rewrite imap_insert_column|].
    split; [done|]. simpl.
    rewrite Forall2_fmap_l in He.
    assert (Hcells :
      cell_at "Antal Værelser" <$>
        imap (λ i r, <["Antal Værelser" :=
                         default CNaN (((λ n, CNum (qz n)) <$> est) !! i)]> r) (rows df)
      = (λ n, CNum (qz n)) <$> est).
    { apply imap_insert_column_same. rewrite length_fmap.
      symmetry. by eapply Forall2_length. }
    revert Hcells. generalize (imap (λ i r, <["Antal Værelser" :=
                         default CNaN (((λ n, CNum (qz n)) <$> est) !! i)]> r) (rows df)).
    intros l Hl. revert l Hl.
    induction He as [|r n rs ns Hr _ IH]; intros [|r' l] Hl; try done.
    injection Hl as Hr' Hl. constructor; [|by apply IH].
    exists n. split; [done|]. split; [done|]. by eapply estimate_rooms_range.
Qed.

Lemma fillna_zip (vals other : list cell) :
  length other = length vals →
  fillna vals other = zip_with (λ x o, if isna x then o else x) vals other.
Proof.
  unfold fillna. revert other.
  induction vals as [|x vals IH]; intros [|o other] Hlen; try done.
  simpl. f_equal. rewrite <- (IH other) by (simpl in Hlen; lia). done.
Qed.

Lemma set_col_cells (df : DataFrame) (k : string) (vals : list cell) :
  length vals = len df → cell_at k <$> rows (set_col df k vals) = vals.
Proof. intros H. simpl. by apply imap_insert_column_same. Qed.

Lemma set_col_other_cells (df : DataFrame) (k c : string) (vals : list cell) :
  c ≠ k → cell_at c <$> rows (set_col df k vals) = cell_at c <$> rows df.
Proof. intros H. simpl. by apply imap_insert_column. Qed.

Lemma len_set_col (df : DataFrame) (k : string) (vals : list cell) :
  len (set_col df k vals) = len df.
Proof. unfold len. simpl. by rewrite length_imap. Qed.

Lemma filled_column (present : bool) (k : string) (l : list (gmap string cell))
      (geo : list coords) (f : coords → Qc) :
  length geo = length l →
  zip_with (λ x o, if isna x then o else x)
    (if present then cell_at k <$> l else (λ x, CNum (f x)) <$> geo)
    ((λ x, CNum (f x)) <$> geo)
  = zip_with (λ r g, filled present (cell_at k r) (f g)) l geo.
Proof.
  unfold filled, notna. destruct present; simpl.
  - revert geo. induction l as [|r l IH]; intros [|g geo] Hlen; try done.
    simpl in *. rewrite IH by lia. f_equal. by destruct (isna (cell_at k r)).
  - revert geo. induction l as [|r l IH]; intros [|g geo] Hlen; try done.
    simpl in *. rewrite IH by lia. done.
Qed.

Lemma filled_notna (present : bool) (old : cell) (q : Qc) :
  notna (filled present old q) = true.
Proof.
  unfold filled. destruct present; simpl; [|done].
  by destruct (notna old) eqn:E.
Qed.

Lemma zip_filled_notna (present : bool) (k : string) (f : coords → Qc)
      (l : list (gmap string cell)) (geo : list coords) :
  Forall (λ c, notna c = true)
         (zip_with (λ r g, filled present (cell_at k r) (f g)) l geo).
Proof.
  revert geo. induction l as [|r l IH]; intros [|g geo]; simpl; try constructor.
  - apply filled_notna.
  - apply IH.
Qed.

(** X12: geocoding of the ownership table.  It runs when a coordinate column is
    absent or a latitude is missing (a missing longitude alone does not
    trigger it).  It then needs every trade name to be a text, keeps every
    coordinate the table has and fills the others from the geocoder, so that
    no coordinate is missing afterwards.  Otherwise the table is left as it
    is. *)
Theorem ensure_coords_fills_holes (L : Lib) (name_col : string) (df df' : DataFrame)
        (t : list event) :
  Ejer.ensure_coords L name_col df = (t, Ok df') →
  if has_column df "lat" && has_column df "lng"
     && negb (any_isna (cell_at "lat" <$> rows df))
  then t = [EPrint MsgCoordsPresent] ∧ df' = df
  else
    t = [EPrint MsgGeocoding] ∧
    len df' = len df ∧
    has_column df' "lat" = true ∧ has_column df' "lng" = true ∧
    (∀ c, c ≠ "lat" → c ≠ "lng" → cell_at c <$> rows df' = cell_at c <$> rows df) ∧
    ∃ geo,
      map_result (geocode_address L) (cell_at name_col <$> rows df) = Ok geo ∧
      cell_at "lat" <$> rows df'
        = zip_with (λ r g, filled (has_column df "lat") (cell_at "lat" r) (fst g))
            (rows df) geo ∧
      cell_at "lng" <$> rows df'
        = zip_with (λ r g, filled (has_column df "lng") (cell_at "lng" r) (snd g))
            (rows df) geo ∧
      Forall (λ c, notna c = true) (cell_at "lat" <$> rows df') ∧
      Forall (λ c, notna c = true) (cell_at "lng" <$> rows df').
Proof.
  unfold Ejer.ensure_coords. intros H.
  apply M_bind_inv in H as (t1 & need & t2 & Hneed & H & ->).
  assert (Hn : t1 = [] ∧
               need = negb (has_column df "lat" && has_column df "lng"
                            && negb (any_isna (cell_at "lat" <$> rows df)))).
  { unfold get_col in Hneed.
    destruct (has_column df "lat") eqn:E1, (has_column df "lng") eqn:E2;
      simpl in Hneed; injection Hneed as <- <-; split; try done.
    simpl. by rewrite negb_involutive. }
  destruct Hn as [-> ->]. clear Hneed.
  destruct (has_column df "lat" && has_column df "lng"
            && negb (any_isna (cell_at "lat" <$> rows df))) eqn:Ec; cbn [negb] in H.
  { apply M_bind_inv in H as (? & ? & ? & ->%print_inv & H & ->).
    by injection H as <- <-. }
  apply M_bind_inv in H as (? & ? & ? & ->%print_inv & H & ->).
  apply M_bind_inv in H as (? & c_name & ? & [-> Hname]%lift_inv & H & ->).
  apply M_bind_inv in H as (? & geo & ? & [-> Hgeo]%lift_inv & H & ->).
  cbv zeta in H.
  apply M_bind_inv in H as (? & c_lat & ? & [-> Hlat]%lift_inv & H & ->).
  apply M_bind_inv in H as (? & c_lng & ? & [-> Hlng]%lift_inv & H & ->).
  injection H as <- <-.
  apply get_col_inv in Hname as [_ ->].
  unfold series_apply in Hgeo.
  assert (Hlen : length geo = length (rows df)).
  { apply map_result_length in Hgeo. by rewrite Hgeo, length_fmap. }
  set (lats := (λ x : coords, CNum (fst x)) <$> geo) in *.
  set (lngs := (λ x : coords, CNum (snd x)) <$> geo) in *.
  set (df1 := if has_column df "lat" then df else set_col df "lat" lats) in *.
  set (df2 := if has_column df1 "lng" then df1 else set_col df1 "lng" lngs) in *.
  assert (Hl1 : len df1 = len df).
  { unfold df1. destruct (has_column df "lat"); [done|apply len_set_col]. }
  assert (Hl2 : len df2 = len df).
  { unfold df2. destruct (has_column df1 "lng"); [done|by rewrite len_set_col]. }
  assert (Hh1 : has_column df1 "lng" = has_column df "lng").
  { unfold df1. destruct (has_column df "lat"); [done|].
    by rewrite has_column_set_col. }
  assert (Hlat1 : cell_at "lat" <$> rows df1
                  = if has_column df "lat" then cell_at "lat" <$> rows df else lats).
  { unfold df1. destruct (has_column df "lat"); [done|].
    apply set_col_cells. unfold lats. by rewrite length_fmap. }
  assert (Hlat2 : cell_at "lat" <$> rows df2 = cell_at "lat" <$> rows df1).
  { unfold df2. destruct (has_column df1 "lng"); [done|].
    by apply set_col_other_cells. }
  assert (Hlng1 : cell_at "lng" <$> rows df1 = cell_at "lng" <$> rows df).
  { unfold df1. destruct (has_column df "lat"); [done|].
    by apply set_col_other_cells. }
  assert (Hlng2 : cell_at "lng" <$> rows df2
                  = if has_column df "lng" then cell_at "lng" <$> rows df else lngs).
  { unfold df2. rewrite Hh1. destruct (has_column df "lng"); [done|].
    apply set_col_cells. unfold lngs. rewrite length_fmap. by rewrite Hl1. }
  assert (Hother : ∀ c, c ≠ "lat" → c ≠ "lng" →
                        cell_at c <$> rows df2 = cell_at c <$> rows df).
  { intros c H1 H2.
    assert (E1 : cell_at c <$> rows df1 = cell_at c <$> rows df).
    { unfold df1. destruct (has_column df "lat"); [done|].
      by apply set_col_other_cells. }
    rewrite <- E1. unfold df2. destruct (has_column df1 "lng"); [done|].
    by apply set_col_other_cells. }
  apply get_col_inv in Hlat as [_ ->].
  apply get_col_inv in Hlng as [_ ->].
  split; [done|].
  split; [by rewrite !len_set_col|].
  split; [by rewrite !has_column_set_col|].
  split; [by rewrite !has_column_set_col|].
  split.
  { intros c H1 H2. rewrite !set_col_other_cells by done. by apply Hother. }
  exists geo. split; [done|].
  cut (cell_at "lat" <$> rows (set_col (set_col df2 "lat" (fillna (cell_at "lat" <$> rows df2) lats)) "lng"
          (fillna (cell_at "lng" <$> rows (set_col df2 "lat" (fillna (cell_at "lat" <$> rows df2) lats))) lngs))
        = zip_with (λ r g, filled (has_column df "lat") (cell_at "lat" r) (fst g))
            (rows df) geo ∧
       cell_at "lng" <$> rows (set_col (set_col df2 "lat" (fillna (cell_at "lat" <$> rows df2) lats)) "lng"
          (fillna (cell_at "lng" <$> rows (set_col df2 "lat" (fillna (cell_at "lat" <$> rows df2) lats))) lngs))
        = zip_with (λ r g, filled (has_column df "lng") (cell_at "lng" r) (snd g))
            (rows df) geo).
  { intros [E1 E2]. split; [exact E1|]. split; [exact E2|].
    rewrite E1, E2. split; apply zip_filled_notna. }
  assert (Hfl : length (fillna (cell_at "lat" <$> rows df2) lats) = len df2).
  { unfold fillna. by rewrite length_imap, length_fmap. }
  split.
  - rewrite set_col_other_cells by done. rewrite set_col_cells by done.
    rewrite fillna_zip by (unfold lats; rewrite !length_fmap; unfold len in Hl2; lia).
    rewrite Hlat2, Hlat1. by apply filled_column.
  - rewrite set_col_cells.
    + rewrite set_col_other_cells by done.
      rewrite fillna_zip by (unfold lngs; rewrite !length_fmap; unfold len in Hl2; lia).
      rewrite Hlng2. by apply filled_column.
    + unfold fillna. by rewrite length_imap, length_fmap.
Qed.

Lemma const_col_cells (k : string) (v : cell) (df df' : DataFrame) :
  cell_at k <$> rows df' = cell_at k <$> rows df → const_col k v df → const_col k v df'.
Proof.
  unfold const_col. intros E H.
  apply (Forall_fmap (cell_at k) (λ c, c = v)). rewrite E. by apply Forall_fmap.
Qed.

Lemma const_copy_col (k dst src : string) (v : cell) (df a : DataFrame) :
  dst ≠ k → const_col k v df → copy_col df dst src = Ok a → const_col k v a.
Proof.
  intros Hne Hc H. unfold copy_col in H.
  destruct (get_col df src) as [vals|]; [|done]. injection H as <-.
  eapply const_col_cells; [|exact Hc]. simpl. by apply imap_insert_column.
Qed.

Lemma const_set_col (k dst : string) (v : cell) (vals : list cell) (df : DataFrame) :
  dst ≠ k → const_col k v df → const_col k v (set_col df dst vals).
Proof.
  intros Hne Hc. eapply const_col_cells; [|exact Hc]. simpl.
  by apply imap_insert_column.
Qed.

Lemma const_set_col_scalar (k dst : string) (v w : cell) (df : DataFrame) :
  dst ≠ k → const_col k v df → const_col k v (set_col_scalar df dst w).
Proof.
  intros Hne Hc. unfold const_col, set_col_scalar. simpl.
  apply Forall_fmap. eapply Forall_impl; [exact Hc|].
  intros r Hr. simpl. rewrite cell_at_insert. by destruct (decide _).
Qed.

Lemma const_set_col_scalar_same (k : string) (v : cell) (df : DataFrame) :
  const_col k v (set_col_scalar df k v).
Proof.
  unfold const_col, set_col_scalar. simpl. apply Forall_fmap, Forall_true.
  intros r. simpl. rewrite cell_at_insert. by destruct (decide _).
Qed.

Lemma const_dropna (k : string) (v : cell) (subset : list string) (df cl : DataFrame) :
  const_col k v df → dropna subset df = Ok cl → const_col k v cl.
Proof.
  unfold const_col. intros H [_ ->]%dropna_inv.
  rewrite Forall_forall in *. intros r Hin.
  apply list_elem_of_In, List.filter_In in Hin as [Hin _].
  by apply H, list_elem_of_In.
Qed.

Lemma leje_standardize_defaults (sheet : DataFrame) :
  ok_inv (λ df,
            (first_present (columns sheet)
               ["Opførelsesår"; "Opfoerelsesaar"; "Byggeår"; "Year built"] = None →
             const_col "Opførelsesår" CNaN df) ∧
            (first_present (columns sheet) ["Boligtype"; "Type"; "Property type"] = None →
             const_col "Boligtype" (CStr Ikke_angivet) df))
         (Leje.standardize sheet).
Proof.
  unfold Leje.standardize.
  do 9 keeps_find. cbv zeta.
  do 9 (eapply (ok_inv_bind (λ _, True)); [by intros ? ? _|intros ? _]).
  set (year := first_present (columns sheet)
                 ["Opførelsesår"; "Opfoerelsesaar"; "Byggeår"; "Year built"]).
  set (type := first_present (columns sheet) ["Boligtype"; "Type"; "Property type"]).
  eapply (ok_inv_bind (λ df, year = None → const_col "Opførelsesår" CNaN df)).
  { destruct year as [c|].
    - intros ? ? _ ?. done.
    - eapply (ok_inv_bind (λ _, True)); [by intros ? ? _|intros ? _].
      apply ok_inv_ret. intros _. apply const_set_col_scalar_same. }
  intros df1 Hyear.
  eapply (ok_inv_bind (λ df, (year = None → const_col "Opførelsesår" CNaN df) ∧
                             (type = None → const_col "Boligtype" (CStr Ikke_angivet) df))).
  { destruct type as [c|].
    - eapply ok_inv_bind.
      + apply ok_inv_lift. intros dfc Hdfc.
        exact (λ Hy : year = None,
                 const_copy_col "Opførelsesår" "Boligtype" c CNaN df1 dfc
                   ltac:(done) (Hyear Hy) Hdfc).
      + intros dfc Hdfc. eapply (ok_inv_bind (λ _, True)); [by intros ? ? _|intros ? _].
        apply ok_inv_ret. split; [exact Hdfc|done].
    - eapply (ok_inv_bind (λ _, True)); [by intros ? ? _|intros ? _].
      apply ok_inv_ret. split.
      + intros Hy. apply const_set_col_scalar; [done|by apply Hyear].
      + intros _. apply const_set_col_scalar_same. }
  intros df [Hy Ht].
  destruct (has_column df "Leje/måned"); [by apply ok_inv_ret|].
  intros t x Hx.
  apply M_bind_inv in Hx as (? & c_aar & ? & _ & Hx & _).
  apply M_bind_inv in Hx as (? & c_maned & ? & _ & Hx & _).
  injection Hx as _ <-.
  split; intros H; apply const_set_col; auto; done.
Qed.

Lemma leje_bolig_optional (L : Lib) (cl : DataFrame) (row : gmap string cell)
      (b : Leje.Bolig) :
  Leje.bolig_of_row L cl row = Ok b →
  (cell_at "Opførelsesår" row = CNaN → Leje.opfoerelsesaar b = None) ∧
  (cell_at "Boligtype" row = CStr Ikke_angivet → Leje.boligtype b = Ikke_angivet).
Proof.
  unfold Leje.bolig_of_row. intros H.
  do 17 (apply result_bind_inv in H as (? & _ & H)).
  apply result_bind_inv in H as (c_year & [_ ->]%row_get_inv & H).
  apply result_bind_inv in H as (v_year & Hyear & H).
  apply result_bind_inv in H as (c_type & [_ ->]%row_get_inv & H).
  injection H as <-. simpl. split.
  - intros E. rewrite E in Hyear. simpl in Hyear. by injection Hyear as <-.
  - intros E. by rewrite E.
Qed.

(** X5: a rental sheet without a construction-year column gives listings without
    a construction year, and one without a type column gives listings of the
    type 'Ikke angivet'. *)
Theorem leje_optional_columns_default (L : Lib) (sheet : DataFrame) (t : list event)
        (d : Leje.Data) :
  Leje.process_leje_data L sheet = (t, Ok d) →
  (first_present (columns sheet)
     ["Opførelsesår"; "Opfoerelsesaar"; "Byggeår"; "Year built"] = None →
   Forall (λ b, Leje.opfoerelsesaar b = None) (Leje.boliger d)) ∧
  (first_present (columns sheet) ["Boligtype"; "Type"; "Property type"] = None →
   Forall (λ b, Leje.boligtype b = Ikke_angivet) (Leje.boliger d)).
Proof.
  intros (t0 & df & cl & Hstd & _ & _ & _ & Hcl & Hb & _)%leje_run_inv.
  destruct (leje_standardize_defaults sheet _ _ Hstd) as [Hy Ht].
  apply map_result_Forall2 in Hb.
  split; intros E.
  - specialize (Hy E). apply (const_dropna _ _ _ _ _ Hy) in Hcl.
    unfold const_col in Hcl. clear -Hcl Hb.
    induction Hb as [|r b rs bs Hr _ IH]; [done|].
    apply Forall_cons in Hcl as [Hc Hcl]. constructor; [|by apply IH].
    by apply (leje_bolig_optional _ _ _ _ Hr).
  - specialize (Ht E). apply (const_dropna _ _ _ _ _ Ht) in Hcl.
    unfold const_col in Hcl. clear -Hcl Hb.
    induction Hb as [|r b rs bs Hr _ IH]; [done|].
    apply Forall_cons in Hcl as [Hc Hcl]. constructor; [|by apply IH].
    by apply (leje_bolig_optional _ _ _ _ Hr).
Qed.

(** ** Area categories of the heatmap and the summary table *)

Lemma Qcle_bool_true (x y : Qc) : (x ≤ y)%Qc → bool_decide (x ≤ y)%Qc = true.
Proof. apply bool_decide_eq_true_2. Qed.

Lemma Qcle_bool_false (x y : Qc) : (y < x)%Qc → bool_decide (x ≤ y)%Qc = false.
Proof. intros H. apply bool_decide_eq_false_2. by apply Qclt_not_le. Qed.

(** X14: the area categories: closed on the right, so that a boundary area falls
    in the lower category; an area above 200 m² (the label '130+ m²' ends
    there), a negative area and a missing area fall in none. *)
Theorem areal_kategori_intervals :
  (∀ a : Qc, (qz 0 ≤ a)%Qc → (a ≤ qz 50)%Qc →
             areal_kategori (CNum a) = Ok (Some "0-50 m²")) ∧
  (∀ a : Qc, (qz 50 < a)%Qc → (a ≤ qz 75)%Qc →
             areal_kategori (CNum a) = Ok (Some "50-75 m²")) ∧
  (∀ a : Qc, (qz 75 < a)%Qc → (a ≤ qz 100)%Qc →
             areal_kategori (CNum a) = Ok (Some "75-100 m²")) ∧
  (∀ a : Qc, (qz 100 < a)%Qc → (a ≤ qz 115)%Qc →
             areal_kategori (CNum a) = Ok (Some "100-115 m²")) ∧
  (∀ a : Qc, (qz 115 < a)%Qc → (a ≤ qz 130)%Qc →
             areal_kategori (CNum a) = Ok (Some "115-130 m²")) ∧
  (∀ a : Qc, (qz 130 < a)%Qc → (a ≤ qz 200)%Qc →
             areal_kategori (CNum a) = Ok (Some "130+ m²")) ∧
  (∀ a : Qc, (a < qz 0)%Qc ∨ (qz 200 < a)%Qc → areal_kategori (CNum a) = Ok None) ∧
  areal_kategori CNaN = Ok None ∧
  (∀ a : Qc, (qz 0 ≤ a)%Qc → (a ≤ qz 200)%Qc →
             ∃ label, areal_kategori (CNum a) = Ok (Some label) ∧ label ∈ areal_labels).
Proof.
  assert (Hcase : ∀ a : Qc,
    areal_kategori (CNum a) =
    Ok (if bool_decide (qz 0 ≤ a)%Qc && bool_decide (a ≤ qz 50)%Qc then Some "0-50 m²"
        else if negb (bool_decide (a ≤ qz 50)%Qc) && bool_decide (a ≤ qz 75)%Qc
             then Some "50-75 m²"
        else if negb (bool_decide (a ≤ qz 75)%Qc) && bool_decide (a ≤ qz 100)%Qc
             then Some "75-100 m²"
        else if negb (bool_decide (a ≤ qz 100)%Qc) && bool_decide (a ≤ qz 115)%Qc
             then Some "100-115 m²"
        else if negb (bool_decide (a ≤ qz 115)%Qc) && bool_decide (a ≤ qz 130)%Qc
             then Some "115-130 m²"
        else if negb (bool_decide (a ≤ qz 130)%Qc) && bool_decide (a ≤ qz 200)%Qc
             then Some "130+ m²"
        else None)) by reflexivity.
  repeat split.
  - intros a H1 H2. rewrite Hcase.
    by rewrite (Qcle_bool_true _ _ H1), (Qcle_bool_true _ _ H2).
  - intros a H1 H2. rewrite Hcase.
    rewrite (Qcle_bool_false _ _ H1), (Qcle_bool_true _ _ H2).
    by rewrite andb_false_r.
  - intros a H1 H2. rewrite Hcase.
    rewrite (Qcle_bool_false a (qz 50)) by qc_order.
    rewrite (Qcle_bool_false _ _ H1), (Qcle_bool_true _ _ H2).
    by rewrite andb_false_r.
  - intros a H1 H2. rewrite Hcase.
    rewrite (Qcle_bool_false a (qz 50)) by qc_order.
    rewrite (Qcle_bool_false a (qz 75)) by qc_order.
    rewrite (Qcle_bool_false _ _ H1), (Qcle_bool_true _ _ H2).
    by rewrite andb_false_r.
  - intros a H1 H2. rewrite Hcase.
    rewrite (Qcle_bool_false a (qz 50)) by qc_order.
    rewrite (Qcle_bool_false a (qz 75)) by qc_order.
    rewrite (Qcle_bool_false a (qz 100)) by qc_order.
    rewrite (Qcle_bool_false _ _ H1), (Qcle_bool_true _ _ H2).
    by rewrite andb_false_r.
  - intros a H1 H2. rewrite Hcase.
    rewrite (Qcle_bool_false a (qz 50)) by qc_order.
    rewrite (Qcle_bool_false a (qz 75)) by qc_order.
    rewrite (Qcle_bool_false a (qz 100)) by qc_order.
    rewrite (Qcle_bool_false a (qz 115)) by qc_order.
    rewrite (Qcle_bool_false _ _ H1), (Qcle_bool_true _ _ H2).
    by rewrite andb_false_r.
  - intros a [H|H]; rewrite Hcase.
    + rewrite (Qcle_bool_false (qz 0) a) by done.
      rewrite (Qcle_bool_true a (qz 50)) by qc_order.
      rewrite (Qcle_bool_true a (qz 75)) by qc_order.
      rewrite (Qcle_bool_true a (qz 100)) by qc_order.
      rewrite (Qcle_bool_true a (qz 115)) by qc_order.
      rewrite (Qcle_bool_true a (qz 130)) by qc_order.
      done.
    + rewrite (Qcle_bool_false a (qz 50)) by qc_order.
      rewrite (Qcle_bool_false a (qz 75)) by qc_order.
      rewrite (Qcle_bool_false a (qz 100)) by qc_order.
      rewrite (Qcle_bool_false a (qz 115)) by qc_order.
      rewrite (Qcle_bool_false a (qz 130)) by qc_order.
      rewrite (Qcle_bool_false a (qz 200)) by qc_order.
      by rewrite andb_false_r.
  - intros a H1 H2. rewrite Hcase. rewrite (Qcle_bool_true _ _ H1). cbn [andb].
    unfold areal_labels.
    repeat (case_bool_decide; cbn [andb negb];
            [eexists; split; [reflexivity|in_list]|]).
    done.
Qed.

(** ** The report file *)

Lemma replace_aux_step (old new : string) (c : ascii) (r : string) :
  replace_aux old new 0 (String c r)
  = if String.prefix old (String c r)
    then new +:+ replace_aux old new (String.length old - 1) r
    else String c (replace_aux old new 0 r).
Proof. reflexivity. Qed.

Lemma contains_String (needle : string) (c : ascii) (hay : string) :
  PyStr.contains needle (String c hay)
  = String.prefix needle (String c hay) || PyStr.contains needle hay.
Proof. reflexivity. Qed.

Lemma contains_Empty (needle : string) :
  PyStr.contains needle EmptyString = String.prefix needle EmptyString.
Proof.
  change (PyStr.contains needle EmptyString)
    with (String.prefix needle EmptyString || false).
  apply orb_false_r.
Qed.

Lemma prefix_lt_slash (s : string) :
  String.prefix "</" s = true ↔ ∃ r, s = String "<" (String "/" r).
Proof. rewrite prefix_spec. split; intros [r ->]; by exists r. Qed.

Lemma script_safe_aux (s : string) (k : nat) :
  PyStr.contains "</" (replace_aux "</" "<\/" k s) = false ∧
  (k = 0%nat → ∀ r', replace_aux "</" "<\/" 0 s = String "/" r' →
                     ∃ r, s = String "/" r).
Proof.
  revert k. induction s as [|c r IH]; intros k.
  - split; [|done]. cbn [replace_aux]. rewrite contains_Empty.
    destruct (String.prefix _ _) eqn:E; [|done].
    by apply prefix_lt_slash in E as [? ?].
  - destruct k as [|k].
    + rewrite replace_aux_step.
      destruct (String.prefix "</" (String c r)) eqn:E.
      * split; [|done].
        change (String.length "</" - 1)%nat with 1%nat.
        change ("<\/" +:+ ?x) with (String "<" (String "\" (String "/" x))).
        rewrite !contains_String.
        destruct (IH 1%nat) as [-> _].
        repeat match goal with
               | |- context [String.prefix "</" ?x] =>
                   let E' := fresh in
                   destruct (String.prefix "</" x) eqn:E';
                   [apply prefix_lt_slash in E' as [? [=]]|]
               end.
        done.
      * destruct (IH 0%nat) as [Hc Hh]. split.
        -- rewrite contains_String, Hc, orb_false_r.
           match goal with |- String.prefix "</" ?x = false =>
             destruct (String.prefix "</" x) eqn:E'; [|done] end.
           apply prefix_lt_slash in E' as [r' [= -> Hr]].
           destruct (Hh eq_refl _ Hr) as [r0 ->].
           assert (String.prefix "</" (String "<" (String "/" r0)) = true)
             by (apply prefix_lt_slash; by eexists).
           congruence.
        -- intros _ r' [= -> _]. by exists r.
    + split; [|done]. apply (IH k).
Qed.

(** X15: the JSON text put into the page never holds the two characters that
    open a closing tag: whatever the listings contain, no text of theirs can
    end the script element the data sits in. *)
Theorem json_never_closes_script (json : string) :
  PyStr.contains "</" (str_replace "</" "<\/" json) = false.
Proof. apply (script_safe_aux json 0). Qed.

Lemma str_app_assoc (s t u : string) : (s +:+ t) +:+ u = s +:+ t +:+ u.
Proof. induction s as [|c s IH]; [done|]. rewrite !app_String. by rewrite IH. Qed.

Lemma str_length_app (s t : string) :
  String.length (s +:+ t) = (String.length s + String.length t)%nat.
Proof. induction s as [|c s IH]; [done|]. rewrite app_String. simpl. by rewrite IH. Qed.

Lemma replace_aux_skip_app (old new u rest : string) :
  replace_aux old new (String.length u) (u +:+ rest) = replace_aux old new 0 rest.
Proof.
  induction u as [|c u IH]; [by destruct rest|].
  rewrite app_String. exact IH.
Qed.

Lemma prefix_refl_app (p post : string) : String.prefix p (p +:+ post) = true.
Proof. apply prefix_spec. by exists post. Qed.

Lemma replace_match (c : ascii) (o new rest : string) :
  str_replace (String c o) new (String c o +:+ rest)
  = new +:+ str_replace (String c o) new rest.
Proof.
  unfold str_replace. rewrite app_String, replace_aux_step.
  rewrite <- app_String, prefix_refl_app.
  change (String.length (String c o) - 1)%nat with (String.length o - 0)%nat.
  by rewrite Nat.sub_0_r, replace_aux_skip_app.
Qed.

Lemma prefix_app_short (p u v : string) :
  String.prefix p (u +:+ v) = true → (String.length p ≤ String.length u)%nat →
  String.prefix p u = true.
Proof.
  revert u. induction p as [|a p IH]; intros u H Hlen.
  - apply prefix_spec. by exists u.
  - destruct u as [|b u]; [simpl in Hlen; lia|].
    apply prefix_spec in H as [post H]. rewrite !app_String in H.
    injection H as -> H.
    assert (Hp : String.prefix p u = true).
    { apply IH; [|simpl in Hlen; lia]. apply prefix_spec. by exists post. }
    apply prefix_spec in Hp as [post' ->].
    apply prefix_spec. exists post'. by rewrite app_String.
Qed.

(** The first occurrence of [old] in a text that has none before it. *)
Lemma replace_first (init : string) (x : ascii) (new a rest : string) :
  let old := init +:+ String x EmptyString in
  PyStr.contains old (a +:+ init) = false →
  str_replace old new (a +:+ old +:+ rest) = a +:+ new +:+ str_replace old new rest.
Proof.
  intros old. induction a as [|c a IH]; intros H.
  - rewrite !app_Empty. clear H.
    destruct init as [|c0 init]; apply replace_match.
  - rewrite app_String, contains_String in H.
    apply orb_false_iff in H as [Hp Hc].
    rewrite !app_String. unfold str_replace. rewrite replace_aux_step.
    destruct (String.prefix old (String c (a +:+ old +:+ rest))) eqn:E.
    + exfalso.
      assert (Hp' : String.prefix old (String c (a +:+ init)) = true); [|congruence].
      apply (prefix_app_short _ _ (String x EmptyString +:+ rest)).
      * rewrite <- E. f_equal. rewrite app_String. f_equal.
        unfold old. by rewrite !str_app_assoc.
      * unfold old. simpl. rewrite !str_length_app. simpl. lia.
    + f_equal. by apply IH.
Qed.

Lemma replace_none (old new s : string) :
  PyStr.contains old s = false → str_replace old new s = s.
Proof.
  unfold str_replace. induction s as [|c s IH]; [done|].
  rewrite contains_String. intros [Hp Hc]%orb_false_iff.
  rewrite replace_aux_step, Hp. f_equal. by apply IH.
Qed.

(** X16: the page: when the shell holds each placeholder once, and the rental
    JSON does not hold the text of the ownership placeholder, the page is the
    shell with the two JSON texts in the places of the placeholders. *)
Theorem report_data_at_placeholders (W : Web) (leje_data : Leje.Data)
        (ejer_data : Ejer.Data) (a b c : string) :
  let leje_json := str_replace "</" "<\/" (json_leje W leje_data) in
  let ejer_json := str_replace "</" "<\/" (json_ejer W ejer_data) in
  html_template W = a +:+ "__LEJE_DATA__" +:+ b +:+ "__EJER_DATA__" +:+ c →
  PyStr.contains "__LEJE_DATA__" (a +:+ "__LEJE_DATA_") = false →
  PyStr.contains "__LEJE_DATA__" (b +:+ "__EJER_DATA__" +:+ c) = false →
  PyStr.contains "__EJER_DATA__" (a +:+ leje_json +:+ b +:+ "__EJER_DATA_") = false →
  PyStr.contains "__EJER_DATA__" c = false →
  render_html W leje_data ejer_data = a +:+ leje_json +:+ b +:+ ejer_json +:+ c.
Proof.
  intros leje_json ejer_json Ht Ha Hb Hl Hc. unfold render_html.
  fold leje_json ejer_json. rewrite Ht.
  rewrite (replace_first "__LEJE_DATA_" "_" leje_json a _ Ha).
  rewrite (replace_none _ _ _ Hb).
  rewrite <- (str_app_assoc leje_json), <- (str_app_assoc a).
  rewrite (replace_first "__EJER_DATA_" "_" ejer_json _ c).
  - rewrite (replace_none _ _ _ Hc). by rewrite !str_app_assoc.
  - by rewrite !str_app_assoc.
Qed.

(** X17: the two placeholders are filled one after the other, so the second
    replacement also reads the rental JSON put in by the first: a rental
    record that holds the text of the ownership placeholder gets the
    ownership JSON in its place. *)
Theorem ownership_placeholder_in_rental_data (W : Web) (leje_data : Leje.Data)
        (ejer_data : Ejer.Data) (a b c u v : string) :
  let ejer_json := str_replace "</" "<\/" (json_ejer W ejer_data) in
  html_template W = a +:+ "__LEJE_DATA__" +:+ b +:+ "__EJER_DATA__" +:+ c →
  str_replace "</" "<\/" (json_leje W leje_data) = u +:+ "__EJER_DATA__" +:+ v →
  PyStr.contains "__LEJE_DATA__" (a +:+ "__LEJE_DATA_") = false →
  PyStr.contains "__LEJE_DATA__" (b +:+ "__EJER_DATA__" +:+ c) = false →
  PyStr.contains "__EJER_DATA__" (a +:+ u +:+ "__EJER_DATA_") = false →
  PyStr.contains "__EJER_DATA__" (v +:+ b +:+ "__EJER_DATA_") = false →
  PyStr.contains "__EJER_DATA__" c = false →
  render_html W leje_data ejer_data
  = a +:+ u +:+ ejer_json +:+ v +:+ b +:+ ejer_json +:+ c.
Proof.
  intros ejer_json Ht Hl Ha Hb Hu Hv Hc. unfold render_html.
  fold ejer_json. rewrite Ht, Hl.
  rewrite (replace_first "__LEJE_DATA_" "_" _ a _ Ha).
  rewrite (replace_none _ _ _ Hb).
  match goal with |- _ = ?r => set (page := r) end.
  rewrite !str_app_assoc.
  rewrite <- (str_app_assoc a u).
  rewrite (replace_first "__EJER_DATA_" "_" ejer_json _
             (v +:+ b +:+ "__EJER_DATA__" +:+ c)) by (by rewrite str_app_assoc).
  rewrite <- (str_app_assoc v b).
  rewrite (replace_first "__EJER_DATA_" "_" ejer_json _ c)
    by (by rewrite str_app_assoc).
  rewrite (replace_none _ _ _ Hc). unfold page. by rewrite !str_app_assoc.
Qed.

(** ** The command line *)

Lemma Run_bind_Ok {A B} (t : list output) (a : A) (f : A → Run B) :
  ((t, Ok a) : Run A) ≫= f = (t ++ (f a).1, (f a).2).
Proof. unfold mbind, Run_bind. by destruct (f a). Qed.

Lemma Run_bind_Raise {A B} (t : list output) (e : exc) (f : A → Run B) :
  ((t, Raise e) : Run A) ≫= f = (t, Raise e).
Proof. reflexivity. Qed.

Lemma written_app (o1 o2 : list output) : written (o1 ++ o2) = written o1 ++ written o2.
Proof. apply omap_app. Qed.

Lemma written_pipeline (t : list event) : written (ORun <$> t) = [].
Proof. induction t as [|e t IH]; [done|exact IH]. Qed.

Lemma written_failure_report (e : exc) : written (failure_report e) = [].
Proof. unfold failure_report. by destruct (is_key_error e). Qed.

Lemma process_leje_file_written (F : Files) (L : Lib) (p : string) :
  written (process_leje_file F L p).1 = [].
Proof.
  unfold process_leje_file, from_result.
  destruct (load_leje F p) as [df|e]; [|done].
  rewrite Run_bind_Ok. simpl. apply written_pipeline.
Qed.

Lemma process_ejer_file_written (F : Files) (L : Lib) (p : string) :
  written (process_ejer_file F L p).1 = [].
Proof.
  unfold process_ejer_file, from_result.
  destruct (open_excel F p) as [wb|e]; [|done].
  rewrite Run_bind_Ok. simpl. apply written_pipeline.
Qed.

Lemma main_usage (F : Files) (W : Web) (L : Lib) (argv : list string) :
  length argv ≠ 4%nat → main F W L argv = ([OUsage], 1).
Proof. intros H. by do 5 (destruct argv as [|? argv]; try done). Qed.

(** What the [try] block does, by the first step that fails. *)
Lemma main_body_cases (F : Files) (W : Web) (L : Lib) (le ee oh : string) :
  let leje := process_leje_file F L le in
  let ejer := process_ejer_file F L ee in
  match leje.2 with
  | Raise e => main_body F W L le ee oh = (OReadingLeje :: leje.1, Raise e)
  | Ok ld =>
      match ejer.2 with
      | Raise e =>
          main_body F W L le ee oh
          = (OReadingLeje :: leje.1 ++ OReadingEjer :: ejer.1, Raise e)
      | Ok ed =>
          if writable F oh
          then main_body F W L le ee oh
               = (OReadingLeje :: leje.1 ++ OReadingEjer :: ejer.1
                  ++ [OGenerating; OWrite oh (render_html W ld ed); OGenerated oh;
                      OLejeCount (Leje.total_boliger (Leje.stats ld));
                      OEjerCount (Ejer.total_boliger (Ejer.stats ed)); ODone],
                  Ok tt)
          else main_body F W L le ee oh
               = (OReadingLeje :: leje.1 ++ OReadingEjer :: ejer.1 ++ [OGenerating],
                  Raise (LibraryError "open"))
      end
  end.
Proof.
  intros leje ejer. unfold main_body, say. rewrite Run_bind_Ok.
  fold leje. destruct leje as [t1 [ld|e]]; [|done].
  cbn [fst snd]. rewrite !Run_bind_Ok. cbn [fst snd].
  fold ejer. destruct ejer as [t2 [ed|e]]; cbn [fst snd].
  2:{ by rewrite Run_bind_Raise. }
  rewrite !Run_bind_Ok. cbn [fst snd].
  unfold generate_html, say, from_result.
  destruct (writable F oh).
  - rewrite !Run_bind_Ok. cbn [fst snd app]. done.
  - by rewrite !Run_bind_Raise.
Qed.

Lemma written_main_ok (t1 t2 : list output) (oh html : string) (n m : nat) :
  written t1 = [] → written t2 = [] →
  written (OReadingLeje :: t1 ++ OReadingEjer :: t2
           ++ [OGenerating; OWrite oh html; OGenerated oh; OLejeCount n; OEjerCount m;
               ODone])
  = [(oh, html)].
Proof.
  intros H1 H2. change (OReadingLeje :: ?l) with ([OReadingLeje] ++ l).
  change (OReadingEjer :: ?l) with ([OReadingEjer] ++ l).
  rewrite !written_app, H1, H2. reflexivity.
Qed.

(** The two ways a run of the command ends. *)
Lemma main_exit_cases (F : Files) (W : Web) (L : Lib) (argv : list string) :
  ((main F W L argv).2 = 0 ∧
   ∃ script le ee oh ld ed,
     argv = [script; le; ee; oh] ∧
     (process_leje_file F L le).2 = Ok ld ∧
     (process_ejer_file F L ee).2 = Ok ed ∧
     writable F oh = true ∧
     written (main F W L argv).1 = [(oh, render_html W ld ed)] ∧
     last (main F W L argv).1 = Some ODone)
  ∨
  ((main F W L argv).2 = 1 ∧
   written (main F W L argv).1 = [] ∧
   ((length argv ≠ 4%nat ∧ (main F W L argv).1 = [OUsage]) ∨
    (length argv = 4%nat ∧
     ∃ e pre, (main F W L argv).1 = pre ++ failure_report e ∧ written pre = []))).
Proof.
  destruct (decide (length argv = 4%nat)) as [Hlen|Hlen].
  2:{ right. rewrite (main_usage F W L argv Hlen). split; [done|]. split; [done|].
      by left. }
  destruct argv as [|script [|le [|ee [|oh [|? ?]]]]]; try done. clear Hlen.
  pose proof (main_body_cases F W L le ee oh) as H.
  pose proof (process_leje_file_written F L le) as Hw1.
  pose proof (process_ejer_file_written F L ee) as Hw2.
  cbv zeta in H. unfold main.
  destruct (process_leje_file F L le) as [t1 [ld|e]] eqn:E1; cbn [fst snd] in *.
  2:{ right. rewrite H. fold (failure_report e).
      replace (if is_key_error e
               then ((OReadingLeje :: t1) ++ [OColumnNotFound e; OCheckNames], 1)
               else ((OReadingLeje :: t1) ++ [OUnexpected e; OTraceback], 1))
        with ((OReadingLeje :: t1) ++ failure_report e, 1)
        by (unfold failure_report; by destruct (is_key_error e)).
      cbn [fst snd]. split; [done|]. split.
      - change (OReadingLeje :: ?l) with ([OReadingLeje] ++ l).
        by rewrite !written_app, Hw1, written_failure_report.
      - right. split; [done|]. exists e, (OReadingLeje :: t1). split; [done|].
        change (OReadingLeje :: ?l) with ([OReadingLeje] ++ l).
        by rewrite written_app, Hw1. }
  destruct (process_ejer_file F L ee) as [t2 [ed|e]] eqn:E2; cbn [fst snd] in *.
  2:{ right. rewrite H.
      replace (if is_key_error e
               then ((OReadingLeje :: t1 ++ OReadingEjer :: t2)
                     ++ [OColumnNotFound e; OCheckNames], 1)
               else ((OReadingLeje :: t1 ++ OReadingEjer :: t2)
                     ++ [OUnexpected e; OTraceback], 1))
        with ((OReadingLeje :: t1 ++ OReadingEjer :: t2) ++ failure_report e, 1)
        by (unfold failure_report; by destruct (is_key_error e)).
      cbn [fst snd].
      assert (Hpre : written (OReadingLeje :: t1 ++ OReadingEjer :: t2) = []).
      { change (OReadingLeje :: ?l) with ([OReadingLeje] ++ l).
        change (OReadingEjer :: ?l) with ([OReadingEjer] ++ l).
        by rewrite !written_app, Hw1, Hw2. }
      split; [done|]. split.
      - by rewrite written_app, Hpre, written_failure_report.
      - right. split; [done|]. by exists e, (OReadingLeje :: t1 ++ OReadingEjer :: t2). }
  destruct (writable F oh) eqn:Ew.
  - left. rewrite H. cbn [fst snd]. split; [done|].
    exists script, le, ee, oh, ld, ed.
    split; [done|]. split; [by rewrite E1|]. split; [by rewrite E2|].
    split; [done|]. split.
    + by apply written_main_ok.
    + change (OReadingLeje :: ?l) with ([OReadingLeje] ++ l).
      change (OReadingEjer :: ?l) with ([OReadingEjer] ++ l).
      rewrite !app_assoc. 
      change [OGenerating; OWrite oh (render_html W ld ed); OGenerated oh;
              OLejeCount (Leje.total_boliger (Leje.stats ld));
              OEjerCount (Ejer.total_boliger (Ejer.stats ed)); ODone]
        with ([OGenerating; OWrite oh (render_html W ld ed); OGenerated oh;
               OLejeCount (Leje.total_boliger (Leje.stats ld));
               OEjerCount (Ejer.total_boliger (Ejer.stats ed))] ++ [ODone]).
      rewrite !app_assoc. apply last_snoc.
  - right. rewrite H. cbn [is_key_error fst snd].
    assert (Hpre : written (OReadingLeje :: t1 ++ OReadingEjer :: t2 ++ [OGenerating])
                   = []).
    { change (OReadingLeje :: ?l) with ([OReadingLeje] ++ l).
      change (OReadingEjer :: ?l) with ([OReadingEjer] ++ l).
      by rewrite !written_app, Hw1, Hw2. }
    split; [done|]. split.
    + by rewrite written_app, Hpre.
    + right. split; [done|].
      by exists (LibraryError "open"),
               (OReadingLeje :: t1 ++ OReadingEjer :: t2 ++ [OGenerating]).
Qed.

(** The command succeeds when both pipelines do and the page can be
    written. *)
Lemma main_succeeds (F : Files) (W : Web) (L : Lib) (script le ee oh : string)
      (ld : Leje.Data) (ed : Ejer.Data) :
  (process_leje_file F L le).2 = Ok ld →
  (process_ejer_file F L ee).2 = Ok ed →
  writable F oh = true →
  (main F W L [script; le; ee; oh]).2 = 0.
Proof.
  intros Hl He Hw. pose proof (main_body_cases F W L le ee oh) as H.
  cbv zeta in H. rewrite Hl, He, Hw in H. unfold main. by rewrite H.
Qed.

(** X18: the exit status of the command, and the report file.  The status is 0
    exactly when the command line had three arguments, both pipelines
    succeeded and the output path could be written.  Then the page was
    written, once, to the path given last, and the closing message was the
    last line.  Otherwise the status is 1 and no file was written: the
    command line was wrong and only the usage line was printed, or an
    exception ended the run and was reported. *)
Theorem main_exit_status (F : Files) (W : Web) (L : Lib) (argv : list string) :
  ((main F W L argv).2 = 0 ↔
   ∃ script le ee oh ld ed,
     argv = [script; le; ee; oh] ∧
     (process_leje_file F L le).2 = Ok ld ∧
     (process_ejer_file F L ee).2 = Ok ed ∧
     writable F oh = true) ∧
  (((main F W L argv).2 = 0 ∧
    ∃ script le ee oh ld ed,
      argv = [script; le; ee; oh] ∧
      (process_leje_file F L le).2 = Ok ld ∧
      (process_ejer_file F L ee).2 = Ok ed ∧
      writable F oh = true ∧
      written (main F W L argv).1 = [(oh, render_html W ld ed)] ∧
      last (main F W L argv).1 = Some ODone)
   ∨
   ((main F W L argv).2 = 1 ∧
    written (main F W L argv).1 = [] ∧
    ((length argv ≠ 4%nat ∧ (main F W L argv).1 = [OUsage]) ∨
     (length argv = 4%nat ∧
      ∃ e pre, (main F W L argv).1 = pre ++ failure_report e ∧ written pre = [])))).
Proof.
  split; [|apply main_exit_cases]. split.
  - intros H0.
    destruct (main_exit_cases F W L argv)
      as [(_ & script & le & ee & oh & ld & ed & Ha & Hl & He & Hw & _)|[H1 _]].
    + by exists script, le, ee, oh, ld, ed.
    + rewrite H0 in H1. done.
  - intros (script & le & ee & oh & ld & ed & -> & Hl & He & Hw).
    by eapply main_succeeds.
Qed.

(** X19: a rental workbook that lacks a required field, seen from the command
    line: the columns of the sheet are listed, the failure is reported as a
    column that was not found, the status is 1; the ownership workbook is
    not opened and no file is written. *)
Theorem main_missing_rental_column (F : Files) (W : Web) (L : Lib)
        (script le ee oh : string) (sheet : DataFrame)
        (earlier later : list (list string)) (names : list string) :
  load_leje F le = Ok sheet →
  leje_candidates = earlier ++ names :: later →
  Forall (λ ns, is_Some (first_present (columns sheet) ns)) earlier →
  first_present (columns sheet) names = None →
  ∃ t, main F W L [script; le; ee; oh]
       = (OReadingLeje :: (ORun <$> t)
          ++ [OColumnNotFound (KeyError_columns names); OCheckNames], 1) ∧
       reported_columns t = columns sheet ∧
       render_calls t = [].
Proof.
  intros Hload H1 H2 H3.
  destruct (leje_standardize_missing sheet earlier later names H1 H2 H3)
    as (t & Hstd & Hnr & Hc).
  assert (Ht : Leje.process_leje_data L sheet = (t, Raise (KeyError_columns names))).
  { unfold Leje.process_leje_data. by rewrite Hstd. }
  exists t. split; [|split; [done|by apply no_render_calls]].
  pose proof (main_body_cases F W L le ee oh) as H. cbv zeta in H.
  assert (E : process_leje_file F L le
              = (ORun <$> t, Raise (KeyError_columns names))).
  { unfold process_leje_file, from_result. rewrite Hload, Run_bind_Ok.
    unfold pipeline. by rewrite Ht. }
  rewrite E in H. cbn [fst snd] in H. unfold main. by rewrite H.
Qed.

Lemma read_sheet_found (l : list (string * DataFrame)) (name : string) (df : DataFrame) :
  read_sheet l name = Ok df ↔
  ∃ pre post, l = pre ++ (name, df) :: post ∧ name ∉ fst <$> pre.
Proof.
  induction l as [|[n d] l IH]; simpl.
  - split; [done|]. intros (pre & post & H & _). by destruct pre.
  - destruct (decide (n = name)) as [->|Hne].
    + split.
      * intros [= ->]. exists [], l. split; [done|]. apply not_elem_of_nil.
      * intros (pre & post & H & Hpre). destruct pre as [|[n' d'] pre].
        -- by injection H as ->.
        -- injection H as <- <- _. destruct Hpre. by left.
    + rewrite IH. split.
      * intros (pre & post & -> & Hpre). exists ((n, d) :: pre), post.
        split; [done|]. rewrite fmap_cons. by apply not_elem_of_cons.
      * intros (pre & post & H & Hpre). destruct pre as [|[n' d'] pre].
        -- by injection H as ->.
        -- injection H as <- <- ->. exists pre, post. split; [done|].
           rewrite fmap_cons in Hpre. by apply not_elem_of_cons in Hpre as [_ ?].
Qed.

Lemma read_sheet_missing (l : list (string * DataFrame)) (name : string) (e : exc) :
  read_sheet l name = Raise e → name ∉ fst <$> l.
Proof.
  induction l as [|[n d] l IH]; simpl; [intros _; apply not_elem_of_nil|].
  destruct (decide (n = name)) as [->|Hne]; [done|].
  intros H. apply not_elem_of_cons. split; [done|by apply IH].
Qed.

(** X1: the sheet the rental pipeline reads: the first sheet named 'Worksheet'
    when the workbook has one, and the first sheet of the workbook when it
    has none; the read fails only when the workbook cannot be opened. *)
Theorem load_leje_sheet (F : Files) (excel_path : string) :
  match open_excel F excel_path with
  | Raise e => load_leje F excel_path = Raise e
  | Ok wb =>
      ∃ df, load_leje F excel_path = Ok df ∧
            ((∃ pre post, sheets wb = pre ++ ("Worksheet", df) :: post ∧
                          "Worksheet" ∉ fst <$> pre) ∨
             (("Worksheet" ∉ sheet_names wb) ∧ df = snd (first_sheet wb)))
  end.
Proof.
  unfold load_leje. destruct (open_excel F excel_path) as [wb|e]; [|done].
  destruct (read_sheet (sheets wb) "Worksheet") as [df|e] eqn:E.
  - exists df. split; [done|]. left. by apply read_sheet_found.
  - eexists. split; [done|]. right. split; [|done].
    by apply read_sheet_missing in E.
Qed.

(** ** Failures of the ownership pipeline *)

Lemma no_render_merge_enheder (L : Lib) (wb : Workbook) (df : DataFrame) :
  no_render (Ejer.merge_enheder L wb df).1.
Proof. unfold Ejer.merge_enheder. repeat no_render_step. Qed.

Lemma reported_columns_app (t1 t2 : list event) :
  reported_columns (t1 ++ t2) = reported_columns t1 ++ reported_columns t2.
Proof. apply omap_app. Qed.

(** X10: an ownership workbook whose table, after the merge with the sheet
    'Enheder', lacks a required field: the run ends with the KeyError of the
    first field, in resolution order, none of whose candidate names is a
    column; the columns of the merged table have been listed, and no chart
    has been requested. *)
Theorem ejer_missing_column_aborts (L : Lib) (wb : Workbook) (t0 : list event)
        (df : DataFrame) (earlier later : list (list string)) (names : list string) :
  Ejer.merge_enheder L wb (snd (first_sheet wb)) = (t0, Ok df) →
  ejer_candidates = earlier ++ names :: later →
  Forall (λ ns, is_Some (first_present (columns df) ns)) earlier →
  first_present (columns df) names = None →
  ∃ t, Ejer.process_ejer_data L wb = (t, Raise (KeyError_columns names)) ∧
       render_calls t = [] ∧
       ∃ t1, t = EPrint (MsgSheets (sheet_names wb)) :: t0 ++ EPrint MsgChecking :: t1 ∧
             reported_columns t1 = columns df.
Proof.
  intros Hmerge Hsplit Hall Hnone.
  destruct (find_column_missing df names Hnone) as (t1 & Ht & Hnr & Hrep).
  exists (EPrint (MsgSheets (sheet_names wb)) :: t0 ++ EPrint MsgChecking :: t1).
  assert (Hstd : Ejer.standardize L wb
                 = (EPrint (MsgSheets (sheet_names wb)) :: t0 ++ EPrint MsgChecking :: t1,
                    Raise (KeyError_columns names))).
  { unfold Ejer.standardize, print. rewrite M_bind_Ok. cbv zeta.
    rewrite Hmerge, !M_bind_Ok. cbn [fst snd].
    unfold ejer_candidates in Hsplit.
    repeat (destruct earlier as [|e earlier];
            [ injection Hsplit as <- _; by rewrite Ht
            | injection Hsplit as <- Hsplit;
              apply Forall_cons in Hall as [[? Hfound] Hall];
              rewrite (find_column_found _ _ _ Hfound), M_bind_ret_nil; clear Hfound ]).
    by destruct earlier. }
  split; [|split].
  - unfold Ejer.process_ejer_data. by rewrite Hstd.
  - apply no_render_calls.
    pose proof (no_render_merge_enheder L wb (snd (first_sheet wb))) as Hm.
    rewrite Hmerge in Hm. constructor; [done|].
    apply Forall_app. split; [exact Hm|]. by constructor.
  - by exists t1.
Qed.

Lemma geocode_column_raises (L : Lib) (vals : list cell) :
  Exists (λ c, is_str c = false) vals →
  map_result (geocode_address L) vals = Raise AttributeError.
Proof.
  induction 1 as [c vals Hc|c vals _ IH]; simpl.
  - by destruct c.
  - destruct c as [s|q|]; simpl; [|done|done]. by rewrite IH.
Qed.

(** X13: geocoding needs every trade name: when it runs on a table one of whose
    trade names is missing or a number, it ends with AttributeError, for
    the whole table, right after announcing itself. *)
Theorem ensure_coords_needs_text_names (L : Lib) (name_col : string) (df : DataFrame) :
  has_column df name_col = true →
  has_column df "lat" && has_column df "lng"
    && negb (any_isna (cell_at "lat" <$> rows df)) = false →
  Exists (λ r, is_str (cell_at name_col r) = false) (rows df) →
  Ejer.ensure_coords L name_col df = ([EPrint MsgGeocoding], Raise AttributeError).
Proof.
  intros Hname Hneed Hbad. unfold Ejer.ensure_coords.
  assert (E : (if negb (has_column df "lat") || negb (has_column df "lng")
               then mret true
               else c_lat ← lift (get_col df "lat"); mret (any_isna c_lat))
              = (([], Ok true) : M bool)).
  { unfold get_col.
    destruct (has_column df "lat"), (has_column df "lng"); try done.
    simpl in Hneed. apply negb_false_iff in Hneed.
    unfold lift. rewrite M_bind_ret_nil. by rewrite Hneed. }
  rewrite E, M_bind_ret_nil. unfold print. rewrite M_bind_Ok.
  unfold get_col. rewrite Hname. unfold lift. rewrite M_bind_ret_nil.
  unfold series_apply. rewrite geocode_column_raises; [done|].
  by apply Exists_fmap.
Qed.

(** ** The line about dropped rows *)

(** X7: the last thing a successful rental run does before building the
    listings: when rows were dropped it says how many, the number of rows of
    the table the charts were drawn from that lack a required field;
    otherwise the last event is the call of the summary table. *)
Theorem leje_dropped_rows_reported (L : Lib) (sheet : DataFrame) (t : list event)
        (d : Leje.Data) :
  Leje.process_leje_data L sheet = (t, Ok d) →
  ∃ df,
    rendered_tables t = [df; df; df] ∧
    let dropped := length (List.filter (λ r, negb (complete Leje.required r)) (rows df)) in
    (len df = length (Leje.boliger d) + dropped)%nat ∧
    last t = Some (if (0 <? dropped)%nat then EPrint (MsgDropped dropped)
                   else ERender SummaryTable Leje df).
Proof.
  intros H. pose proof H as (t0 & df & cl & Hstd & _ & _ & _ & Hcl & Hb & _ & Ht)%leje_run_inv.
  pose proof H as (? & df' & ? & Hstd' & _ & Htab & _)%leje_run_tables.
  assert (df' = df) as -> by congruence.
  exists df. split; [exact Htab|]. cbv zeta.
  apply map_result_length in Hb. apply dropna_inv in Hcl as [_ Hrows].
  assert (Hlen : (len df = len cl
                  + length (List.filter (λ r, negb (complete Leje.required r)) (rows df)))%nat).
  { unfold len. rewrite Hrows. clear. induction (rows df) as [|r l IH]; [done|].
    cbn -[complete Leje.required].
    destruct (complete Leje.required r); cbn -[complete Leje.required]; lia. }
  split; [unfold len in *; lia|].
  replace (length (List.filter (λ r, negb (complete Leje.required r)) (rows df)))
    with (len df - len cl)%nat by lia.
  rewrite Ht. destruct (0 <? len df - len cl)%nat.
  - rewrite app_assoc. apply last_snoc.
  - rewrite app_nil_r.
    change [EPrint (MsgRendering Scatter); ERender Scatter Leje df;
            EPrint (MsgRendering Heatmap); ERender Heatmap Leje df;
            EPrint (MsgRendering SummaryTable); ERender SummaryTable Leje df]
      with ([EPrint (MsgRendering Scatter); ERender Scatter Leje df;
             EPrint (MsgRendering Heatmap); ERender Heatmap Leje df;
             EPrint (MsgRendering SummaryTable)] ++ [ERender SummaryTable Leje df]).
    rewrite app_assoc. apply last_snoc.
Qed.

(** ** Listings of the ownership pipeline *)

Lemma cells_copy_col (k dst src : string) (df a : DataFrame) :
  dst ≠ k → copy_col df dst src = Ok a →
  cell_at k <$> rows a = cell_at k <$> rows df.
Proof.
  intros Hne H. unfold copy_col in H.
  destruct (get_col df src) as [vals|]; [|done]. injection H as <-.
  by apply set_col_other_cells.
Qed.

Lemma cells_copy_col_same (dst src : string) (df a : DataFrame) :
  copy_col df dst src = Ok a → cell_at dst <$> rows a = cell_at src <$> rows df.
Proof.
  intros H. unfold copy_col in H.
  destruct (get_col df src) as [vals|] eqn:E; [|done]. injection H as <-.
  apply get_col_inv in E as [_ ->]. apply set_col_cells. by rewrite length_fmap.
Qed.

Lemma cells_set_col_scalar (k dst : string) (v : cell) (df : DataFrame) :
  dst ≠ k → cell_at k <$> rows (set_col_scalar df dst v) = cell_at k <$> rows df.
Proof.
  intros Hne. unfold set_col_scalar. simpl. rewrite <- list_fmap_compose.
  apply list_fmap_ext. intros i r _. simpl. rewrite cell_at_insert.
  by destruct (decide _).
Qed.

Lemma ensure_anvendelse_cells (k : string) (df df' : DataFrame) (t : list event) :
  k ≠ "Anvendelse" → Ejer.ensure_anvendelse df = (t, Ok df') →
  cell_at k <$> rows df' = cell_at k <$> rows df.
Proof.
  intros Hk. unfold Ejer.ensure_anvendelse.
  destruct (has_column df "Anvendelse"); [by intros [= _ <-]|].
  destruct (first_present _ _) as [c|].
  - intros H. apply M_bind_inv in H as (? & a & ? & [_ Ha]%lift_inv & H & _).
    apply M_bind_inv in H as (? & ? & ? & _ & H & _). injection H as _ <-.
    by eapply cells_copy_col.
  - intros H. apply M_bind_inv in H as (? & ? & ? & _ & H & _). injection H as _ <-.
    by apply cells_set_col_scalar.
Qed.

Lemma merge_ejendomme_absent (L : Lib) (wb : Workbook) (df : DataFrame) :
  "Ejendomme" ∉ sheet_names wb →
  Ejer.merge_ejendomme L wb df
  = ([EPrint MsgNoYearSheet], Ok (set_col_scalar df "Opførelsesår" CNaN)).
Proof. intros H. unfold Ejer.merge_ejendomme. by rewrite bool_decide_false. Qed.

(** Rows whose cell in the column [b] is the text computed by [f] from their
    cell in the column [a]. *)
Lemma rows_related (f : cell → result string) (a b : string)
      (l : list (gmap string cell)) (xs : list cell) (ys : list string) :
  cell_at a <$> l = xs → cell_at b <$> l = CStr <$> ys → map_result f xs = Ok ys →
  Forall (λ r, ∃ s, f (cell_at a r) = Ok s ∧ cell_at b r = CStr s) l.
Proof.
  intros <- Hb H%map_result_Forall2. rewrite Forall2_fmap_l in H.
  revert ys Hb H. induction l as [|r l IH]; intros ys Hb H; [constructor|].
  inversion H as [|? s ? ys' Hs Hrest]; subst. injection Hb as Hb1 Hb2.
  constructor; [by exists s|by eapply IH].
Qed.

Lemma Forall_filter_rows {A} (P : A → Prop) (f : A → bool) (l : list A) :
  Forall P l → Forall P (List.filter f l).
Proof.
  intros H. rewrite Forall_forall in *. intros x Hin.
  apply list_elem_of_In, List.filter_In in Hin as [Hin _].
  by apply H, list_elem_of_In.
Qed.

Lemma ejer_standardize_city (L : Lib) (wb : Workbook) (t : list event) (df : DataFrame) :
  "Ejendomme" ∉ sheet_names wb →
  Ejer.standardize L wb = (t, Ok df) →
  Forall (λ r, (∃ s, parse_city_from_handelsnavn (cell_at "Handelsnavn" r) = Ok s ∧
                     cell_at "By" r = CStr s) ∧
               cell_at "Opførelsesår" r = CNaN) (rows df).
Proof.
  intros Hno H. unfold Ejer.standardize in H.
  apply M_bind_inv in H as (? & ? & ? & _ & H & _). cbv zeta in H.
  apply M_bind_inv in H as (? & df0 & ? & _ & H & _).
  apply M_bind_inv in H as (? & ? & ? & _ & H & _).
  apply M_bind_inv in H as (? & price_col & ? & [_ Hprice]%find_column_inv & H & _).
  apply M_bind_inv in H as (? & area_col & ? & [_ Harea]%find_column_inv & H & _).
  apply M_bind_inv in H as (? & price_m2_col & ? & [_ Hm2]%find_column_inv & H & _).
  apply M_bind_inv in H as (? & name_col & ? & [_ Hname]%find_column_inv & H & _).
  apply M_bind_inv in H as (? & date_col & ? & [_ Hdate]%find_column_inv & H & _).
  apply M_bind_inv in H as (? & df1 & ? & _ & H & _).
  apply M_bind_inv in H as (? & df2 & ? & _ & H & _).
  apply M_bind_inv in H as (? & c_name & ? & [_ Hcn]%lift_inv & H & _).
  apply M_bind_inv in H as (? & byer & ? & [_ Hby]%lift_inv & H & _).
  apply M_bind_inv in H as (? & c_date & ? & _ & H & _).
  apply M_bind_inv in H as (? & datoer & ? & _ & H & _).
  apply M_bind_inv in H as (? & df5 & ? & Hanv & H & _).
  rewrite merge_ejendomme_absent in H by done.
  apply M_bind_inv in H as (? & df6 & ? & [= _ <-] & H & _).
  apply M_bind_inv in H as (? & df7 & ? & [_ H7]%lift_inv & H & _).
  apply M_bind_inv in H as (? & df8 & ? & [_ H8]%lift_inv & H & _).
  apply M_bind_inv in H as (? & df9 & ? & [_ H9]%lift_inv & H & _).
  apply M_bind_inv in H as (? & df10 & ? & [_ H10]%lift_inv & H & _).
  apply M_bind_inv in H as (? & df11 & ? & [_ H11]%lift_inv & H & _).
  injection H as _ <-.
  assert (Hnc : name_col ≠ "By" ∧ name_col ≠ "Handelsdato_str" ∧
                name_col ≠ "Anvendelse" ∧ name_col ≠ "Opførelsesår" ∧
                name_col ≠ "Pris" ∧ name_col ≠ "Enhedsareal" ∧
                name_col ≠ "Pris pr. m2 (enhedsareal)").
  { rewrite !elem_of_cons, elem_of_nil in Hname.
    destruct Hname as [->|[->|[->|[]]]]; by repeat split. }
  destruct Hnc as (N1 & N2 & N3 & N4 & N5 & N6 & N7).
  apply get_col_inv in Hcn as [_ Hcn]. unfold series_apply in Hby.
  set (df3 := set_col df2 "By" (CStr <$> byer)) in *.
  set (df4 := set_col df3 "Handelsdato_str" datoer) in *.
  assert (Hlen : length (CStr <$> byer) = len df2).
  { apply map_result_length in Hby. rewrite length_fmap, Hby, Hcn.
    by rewrite length_fmap. }
  (* the three columns in the final table *)
  assert (Ename : cell_at "Handelsnavn" <$> rows df11 = c_name).
  { rewrite (cells_copy_col "Handelsnavn" "Handelsdato" date_col df10 df11) by done.
    rewrite (cells_copy_col_same _ _ _ _ H10).
    rewrite (cells_copy_col name_col "Pris pr. m2 (enhedsareal)" price_m2_col df8 df9)
      by done.
    rewrite (cells_copy_col name_col "Enhedsareal" area_col df7 df8) by done.
    rewrite (cells_copy_col name_col "Pris" price_col _ df7) by done.
    rewrite cells_set_col_scalar by done.
    rewrite (ensure_anvendelse_cells name_col df4 df5 _ N3 Hanv).
    unfold df4, df3. rewrite !set_col_other_cells by done. by rewrite Hcn. }
  assert (Eby : cell_at "By" <$> rows df11 = CStr <$> byer).
  { rewrite (cells_copy_col "By" "Handelsdato" date_col df10 df11) by done.
    rewrite (cells_copy_col "By" "Handelsnavn" name_col df9 df10) by done.
    rewrite (cells_copy_col "By" "Pris pr. m2 (enhedsareal)" price_m2_col df8 df9)
      by done.
    rewrite (cells_copy_col "By" "Enhedsareal" area_col df7 df8) by done.
    rewrite (cells_copy_col "By" "Pris" price_col _ df7) by done.
    rewrite cells_set_col_scalar by done.
    rewrite (ensure_anvendelse_cells "By" df4 df5 _ ltac:(done) Hanv).
    unfold df4. rewrite set_col_other_cells by done.
    unfold df3. by apply set_col_cells. }
  assert (Eyear : const_col "Opførelsesår" CNaN df11).
  { eapply const_copy_col; [|   |exact H11]; [done|].
    eapply const_copy_col; [|   |exact H10]; [done|].
    eapply const_copy_col; [|   |exact H9]; [done|].
    eapply const_copy_col; [|   |exact H8]; [done|].
    eapply const_copy_col; [|   |exact H7]; [done|].
    apply const_set_col_scalar_same. }
  pose proof (rows_related _ _ _ _ _ _ Ename Eby Hby) as Hrel.
  unfold const_col in Eyear. rewrite Forall_forall in *. intros r Hr.
  split; [by apply Hrel|by apply Eyear].
Qed.

Lemma ejer_bolig_city (L : Lib) (cl : DataFrame) (row : gmap string cell)
      (b : Ejer.Bolig) :
  Ejer.bolig_of_row L cl row = Ok b →
  Ejer.handelsnavn b = py_str L (cell_at "Handelsnavn" row) ∧
  Ejer.by_ b = py_str L (cell_at "By" row) ∧
  (cell_at "Opførelsesår" row = CNaN → Ejer.opfoerelsesaar b = None).
Proof.
  unfold Ejer.bolig_of_row. intros H.
  apply result_bind_inv in H as (c_navn & [_ ->]%row_get_inv & H).
  apply result_bind_inv in H as (c_by & [_ ->]%row_get_inv & H).
  do 14 (apply result_bind_inv in H as (? & _ & H)).
  apply result_bind_inv in H as (c_year & [_ ->]%row_get_inv & H).
  apply result_bind_inv in H as (v_year & Hyear & H).
  injection H as <-. simpl. split; [done|]. split; [done|].
  intros E. rewrite E in Hyear. simpl in Hyear. by injection Hyear as <-.
Qed.

(** X20: the listings of an ownership workbook without a sheet 'Ejendomme': the
    city of every listing is the city that [parse_city_from_handelsnavn]
    reads from its trade name, and no listing has a construction year. *)
Theorem ejer_city_from_trade_name (L : Lib) (wb : Workbook) (t : list event)
        (d : Ejer.Data) :
  "Ejendomme" ∉ sheet_names wb →
  Ejer.process_ejer_data L wb = (t, Ok d) →
  Forall (λ b, parse_city_from_handelsnavn (CStr (Ejer.handelsnavn b)) = Ok (Ejer.by_ b) ∧
               Ejer.opfoerelsesaar b = None)
         (Ejer.boliger d).
Proof.
  intros Hno (t0 & df & cl & Hstd & _ & _ & _ & Hcl & Hb & _)%ejer_run_inv.
  pose proof (ejer_standardize_city L wb t0 df Hno Hstd) as Hrows.
  pose proof (dropna_complete _ _ _ Hcl) as Hcomplete.
  apply dropna_inv in Hcl as [_ Hcl].
  apply (Forall_filter_rows _ (complete Ejer.required)) in Hrows. rewrite <- Hcl in Hrows.
  apply map_result_Forall2 in Hb. clear Hcl Hstd.
  revert Hrows Hcomplete. generalize dependent (rows cl). intros l Hb.
  induction Hb as [|r b rs bs Hr _ IH]; intros Hrows Hcomplete; [constructor|].
  apply Forall_cons in Hrows as [[(s & Hs & Hby) Hy] Hrows].
  apply Forall_cons in Hcomplete as [Hc Hcomplete].
  constructor; [|by apply IH].
  destruct (ejer_bolig_city _ _ _ _ Hr) as (En & Eb & Ey).
  split; [|by apply Ey].
  rewrite En, Eb, Hby. simpl.
  unfold complete in Hc. rewrite forallb_forall in Hc.
  specialize (Hc "Handelsnavn" ltac:(apply list_elem_of_In; in_list)).
  destruct (cell_at "Handelsnavn" r) as [x|q|]; [done|done|done].
Qed.

(** ** Tables and files for running the further models *)

Lemma result_value_inv {A B} (f : A → B) (r : result A) (b : B) :
  result_value f r = Some b → ∃ a, r = Ok a ∧ f a = b.
Proof. destruct r as [a|e]; [|done]. intros [= <-]. by exists a. Qed.

Lemma dropna_idempotent_witness :
  ∃ cl, dropna Leje.required leje_demo_sheet = Ok cl ∧
        dropna Leje.required cl = Ok cl ∧ len cl = 2%nat.
Proof.
  assert (H : result_value len (dropna Leje.required leje_demo_sheet) = Some 2%nat)
    by (vm_compute; reflexivity).
  apply result_value_inv in H as (cl & Hcl & Hlen).
  exists cl.
  exact (conj Hcl (conj (proj1 (dropna_idempotent _ _ _ Hcl)) Hlen)).
Defined.

Lemma report_never_empty_witness :
  ∃ t d, Leje.process_leje_data plain_lib leje_demo_sheet = (t, Ok d) ∧
         (0 < Leje.total_boliger (Leje.stats d))%nat.
Proof.
  assert (Hok : run_ok (Leje.process_leje_data plain_lib leje_demo_sheet) = true)
    by (vm_compute; reflexivity).
  apply run_ok_inv in Hok as (t & d & Hrun).
  exists t, d.
  exact (conj Hrun (proj1 (proj1 (report_never_empty plain_lib) _ _ _ Hrun))).
Defined.

Lemma leje_standardize_columns_witness :
  ∃ t df, Leje.standardize leje_demo_sheet = (t, Ok df) ∧ len df = len leje_demo_sheet.
Proof.
  assert (Hok : run_ok (Leje.standardize leje_demo_sheet) = true)
    by (vm_compute; reflexivity).
  apply run_ok_inv in Hok as (t & df & Hrun).
  exists t, df.
  exact (conj Hrun (proj1 (leje_standardize_columns _ _ _ Hrun))).
Defined.

Lemma leje_missing_column_aborts_witness :
  ∃ t, Leje.process_leje_data plain_lib leje_no_area_sheet
       = (t, Raise (KeyError_columns ["Areal"; "Area"])) ∧
       render_calls t = [] ∧ reported_columns t = columns leje_no_area_sheet.
Proof.
  apply (leje_missing_column_aborts plain_lib leje_no_area_sheet
           [["Adresse"; "Address"]; ["By"; "City"; "Postnr."]; ["Lat"; "Latitude"];
            ["Lng"; "Lon"; "Longitude"]]
           [["Leje/m2"; "Leje pr. m2"]; ["Årsleje"; "Arsleje"; "Yearly rent"];
            ["Liggedage"; "Days on market"];
            ["Antal værelser"; "Antal Værelser"; "Værelser"; "Rooms"]]).
  - reflexivity.
  - repeat constructor; eexists; vm_compute; reflexivity.
  - vm_compute; reflexivity.
Defined.

Lemma leje_standardize_succeeds_witness :
  ∃ t df, Leje.standardize leje_demo_sheet = (t, Ok df) ∧ len df = len leje_demo_sheet.
Proof.
  apply leje_standardize_succeeds.
  - repeat constructor; eexists; vm_compute; reflexivity.
  - left. vm_compute; reflexivity.
Defined.

Lemma histograms_cover_listings_witness :
  ∃ t d, Leje.process_leje_data plain_lib leje_demo_sheet = (t, Ok d) ∧
         total_count (Leje.by_data (Leje.stats d)) = length (Leje.boliger d).
Proof.
  assert (Hok : run_ok (Leje.process_leje_data plain_lib leje_demo_sheet) = true)
    by (vm_compute; reflexivity).
  apply run_ok_inv in Hok as (t & d & Hrun).
  exists t, d.
  exact (conj Hrun (proj1 (proj1 (histograms_cover_listings plain_lib) _ _ _ Hrun))).
Defined.

Lemma ensure_rooms_spec_witness :
  ∃ t df, Ejer.ensure_rooms "Enhedsareal" ejer_demo_sheet = (t, Ok df) ∧
          len df = len ejer_demo_sheet ∧ has_column df "Antal Værelser" = true.
Proof.
  assert (Hok : run_ok (Ejer.ensure_rooms "Enhedsareal" ejer_demo_sheet) = true)
    by (vm_compute; reflexivity).
  apply run_ok_inv in Hok as (t & df & Hrun).
  exists t, df.
  destruct (ensure_rooms_spec _ _ _ _ Hrun) as (H1 & H2 & _).
  exact (conj Hrun (conj H1 H2)).
Defined.

Lemma ensure_coords_fills_holes_witness :
  ∃ t df, Ejer.ensure_coords plain_lib "Handelsnavn" ejer_demo_sheet = (t, Ok df) ∧
          t = [EPrint MsgGeocoding] ∧ len df = len ejer_demo_sheet.
Proof.
  assert (Hok : run_ok (Ejer.ensure_coords plain_lib "Handelsnavn" ejer_demo_sheet)
                = true) by (vm_compute; reflexivity).
  apply run_ok_inv in Hok as (t & df & Hrun).
  exists t, df.
  pose proof (ensure_coords_fills_holes _ _ _ _ _ Hrun) as H.
  assert (E : has_column ejer_demo_sheet "lat" && has_column ejer_demo_sheet "lng"
              && negb (any_isna (cell_at "lat" <$> rows ejer_demo_sheet)) = false)
    by (vm_compute; reflexivity).
  rewrite E in H. destruct H as (H1 & H2 & _).
  exact (conj Hrun (conj H1 H2)).
Defined.

Lemma leje_optional_columns_default_witness :
  ∃ t d, Leje.process_leje_data plain_lib leje_demo_sheet = (t, Ok d) ∧
         Forall (λ b, Leje.opfoerelsesaar b = None) (Leje.boliger d) ∧
         Forall (λ b, Leje.boligtype b = Ikke_angivet) (Leje.boliger d).
Proof.
  assert (Hok : run_ok (Leje.process_leje_data plain_lib leje_demo_sheet) = true)
    by (vm_compute; reflexivity).
  apply run_ok_inv in Hok as (t & d & Hrun).
  exists t, d.
  destruct (leje_optional_columns_default _ _ _ _ Hrun) as [Hy Ht].
  exact (conj Hrun (conj (Hy ltac:(vm_compute; reflexivity))
                         (Ht ltac:(vm_compute; reflexivity)))).
Defined.

Lemma areal_kategori_intervals_witness :
  areal_kategori (CNum (qz 50)) = Ok (Some "0-50 m²") ∧
  areal_kategori (CNum (qz 250)) = Ok None.
Proof.
  destruct areal_kategori_intervals as (H1 & _ & _ & _ & _ & _ & H7 & _).
  split.
  - apply H1; vm_compute; congruence.
  - apply H7. right. vm_compute; congruence.
Defined.

Lemma report_data_at_placeholders_witness :
  render_html demo_web leje_demo_data ejer_demo_data
  = "<script>var lejeData = " +:+ "{total_boliger: 2}" +:+ "; var ejerData = "
    +:+ "{total_boliger: 1}" +:+ ";</script>".
Proof.
  apply (report_data_at_placeholders demo_web leje_demo_data ejer_demo_data
           "<script>var lejeData = " "; var ejerData = " ";</script>");
    vm_compute; reflexivity.
Defined.

Lemma ownership_placeholder_in_rental_data_witness :
  render_html demo_web_clash leje_demo_data ejer_demo_data
  = "<script>var lejeData = " +:+ "[" +:+ "{total_boliger: 1}" +:+ "]"
    +:+ "; var ejerData = " +:+ "{total_boliger: 1}" +:+ ";</script>".
Proof.
  apply (ownership_placeholder_in_rental_data demo_web_clash leje_demo_data
           ejer_demo_data "<script>var lejeData = " "; var ejerData = " ";</script>"
           "[" "]");
    vm_compute; reflexivity.
Defined.

Lemma main_missing_rental_column_witness :
  ∃ t, main demo_files demo_web plain_lib ["generate_dashboard.py"; "leje.xlsx";
                                           "ejer.xlsx"; "ud.html"]
       = (OReadingLeje :: (ORun <$> t)
          ++ [OColumnNotFound (KeyError_columns ["Areal"; "Area"]); OCheckNames], 1) ∧
       reported_columns t = columns leje_no_area_sheet ∧
       render_calls t = [].
Proof.
  apply (main_missing_rental_column demo_files demo_web plain_lib _ _ _ _
           leje_no_area_sheet
           [["Adresse"; "Address"]; ["By"; "City"; "Postnr."]; ["Lat"; "Latitude"];
            ["Lng"; "Lon"; "Longitude"]]
           [["Leje/m2"; "Leje pr. m2"]; ["Årsleje"; "Arsleje"; "Yearly rent"];
            ["Liggedage"; "Days on market"];
            ["Antal værelser"; "Antal Værelser"; "Værelser"; "Rooms"]]).
  - vm_compute; reflexivity.
  - reflexivity.
  - repeat constructor; eexists; vm_compute; reflexivity.
  - vm_compute; reflexivity.
Defined.

Lemma ejer_missing_column_aborts_witness :
  ∃ t, Ejer.process_ejer_data plain_lib ejer_no_date_workbook
       = (t, Raise (KeyError_columns ["Handelsdato"; "Dato"; "Date"])) ∧
       render_calls t = [].
Proof.
  destruct (ejer_missing_column_aborts plain_lib ejer_no_date_workbook []
              (snd (first_sheet ejer_no_date_workbook))
              [["Pris"; "Price"; "Salgspris"]; ["Enhedsareal"; "Areal"; "Area"];
               ["Pris pr. m2 (enhedsareal)"; "Pris pr. m2"; "Pris/m2"];
               ["Handelsnavn"; "Adresse"; "Address"]]
              [] ["Handelsdato"; "Dato"; "Date"]) as (t & Ht & Hr & _).
  - vm_compute; reflexivity.
  - reflexivity.
  - repeat constructor; eexists; vm_compute; reflexivity.
  - vm_compute; reflexivity.
  - exists t. exact (conj Ht Hr).
Defined.

Lemma ensure_coords_needs_text_names_witness :
  Ejer.ensure_coords plain_lib "Handelsnavn" (snd (first_sheet ejer_missing_name_workbook))
  = ([EPrint MsgGeocoding], Raise AttributeError).
Proof.
  apply ensure_coords_needs_text_names.
  - vm_compute; reflexivity.
  - vm_compute; reflexivity.
  - apply Exists_cons_tl, Exists_cons_hd. vm_compute; reflexivity.
Defined.

Lemma leje_dropped_rows_reported_witness :
  ∃ t d df, Leje.process_leje_data plain_lib leje_demo_sheet = (t, Ok d) ∧
            rendered_tables t = [df; df; df] ∧
            (len df
             = length (Leje.boliger d)
               + length (List.filter (λ r, negb (complete Leje.required r)) (rows df)))%nat.
Proof.
  assert (Hok : run_ok (Leje.process_leje_data plain_lib leje_demo_sheet) = true)
    by (vm_compute; reflexivity).
  apply run_ok_inv in Hok as (t & d & Hrun).
  destruct (leje_dropped_rows_reported _ _ _ _ Hrun) as (df & Htab & Hlen & _).
  exists t, d, df. exact (conj Hrun (conj Htab Hlen)).
Defined.

Lemma ejer_city_from_trade_name_witness :
  ∃ t d, Ejer.process_ejer_data plain_lib ejer_demo_workbook = (t, Ok d) ∧
         Forall (λ b, parse_city_from_handelsnavn (CStr (Ejer.handelsnavn b))
                      = Ok (Ejer.by_ b) ∧ Ejer.opfoerelsesaar b = None)
                (Ejer.boliger d).
Proof.
  assert (Hok : run_ok (Ejer.process_ejer_data plain_lib ejer_demo_workbook) = true)
    by (vm_compute; reflexivity).
  apply run_ok_inv in Hok as (t & d & Hrun).
  assert (Hno : "Ejendomme" ∉ sheet_names ejer_demo_workbook)
    by (by apply (bool_decide_unpack _)).
  exists t, d.
  exact (conj Hrun (ejer_city_from_trade_name plain_lib ejer_demo_workbook t d Hno Hrun)).
Defined.
